(** * netsuite-shim: a shallow embedding of the request pipeline

    The development follows the layout of the Python package:

    - [Httpx]       : what the package reads of httpx responses and headers
    - [Models]      : [models.py]       (payload, page and configuration records)
    - [Exceptions]  : [exceptions.py]   (error classes, [STATUS_EXCEPTION_MAP])
    - [Retry]       : [_retry.py]       (backoff calculator, Retry-After parsing)
    - [Pagination]  : [_pagination.py]  (page iterators, item flattening)
    - [Client]      : [client.py]       (error classifier, request loop)
    - [OAuth2]      : [auth/oauth2.py]  (token cache validity)
    - [Sha256], [Hmac], [Base64] : the primitives [auth/tba.py] calls
    - [TBA]         : [auth/tba.py]     (signature base string, header)
    - [Config]      : [models.py], [client.py] (endpoints, choice of strategy)
    - [OAuth2Flow]  : [auth/oauth2.py]  (token request, authorisation flow)
    - [Fixtures]    : the requests and responses of the test suite

    Conventions.  Python [int] is [Z].  Python [str] and [bytes] are
    [string], read as the UTF-8 bytes of the text.  Python [float] values
    (durations and instants in seconds) are idealised as rationals [Q]:
    the arithmetic below is exact, rounding and the non-finite values of
    binary64 are outside the model.  [None] is [option]'s [None].  A
    function that can raise returns an [option] or a sum whose extra cases
    are the exceptions.  The effects of the package (HTTP calls, sleeps,
    calls of a page-fetch callback) are recorded in traces. *)

From stdpp Require Import gmap strings list pretty sorting finite.
From Stdlib Require Import ZArith QArith Qround Lqa Lia String Ascii.
From Stdlib Require Import Sorted Permutation.

Open Scope Z_scope.

(** ** Numbers *)

(** Strict comparison of two idealised floats, Python's [a < b]. *)
Definition Qltb (a b : Q) : bool := negb (Qle_bool b a).

(** Python's [2 ** attempt] for an [int] exponent: an exact integer when the
    exponent is not negative, the reciprocal power otherwise. *)
Definition py_pow2 (attempt : Z) : Q :=
  if 0 <=? attempt then inject_Z (2 ^ attempt)
  else (/ inject_Z (2 ^ (- attempt)))%Q.

(** An instance of Python's builtin [float] on plain decimal literals: an
    optional sign, digits, and an optional fraction ([5], [2.5], [-0.25],
    [.5], [5.]).  Everything else is rejected here ([None], Python's
    [ValueError]); the spellings [float] accepts beyond these (exponents,
    surrounding blanks, [inf], [nan]) are not part of this instance, and the
    pipeline is stated for any such function. *)
Definition digit_of (c : ascii) : option Z :=
  let n := N_of_ascii c in
  if ((48 <=? n) && (n <=? 57))%N then Some (Z.of_N (n - 48)) else None.

Fixpoint read_digits (s : string) (acc : Z) (count : nat)
    : Z * nat * string :=
  match s with
  | EmptyString => (acc, count, s)
  | String c r =>
      match digit_of c with
      | Some d => read_digits r (10 * acc + d) (S count)
      | None => (acc, count, s)
      end
  end.

Definition unsigned_decimal (s : string) : option Q :=
  let '(i, ni, r) := read_digits s 0 0%nat in
  match r with
  | EmptyString =>
      if (ni =? 0)%nat then None else Some (inject_Z i)
  | String "." r' =>
      let '(f, nf, r'') := read_digits r' 0 0%nat in
      if negb (String.eqb r'' "") || ((ni =? 0)%nat && (nf =? 0)%nat)
      then None
      else Some (inject_Z i + inject_Z f / inject_Z (10 ^ Z.of_nat nf))%Q
  | String _ _ => None
  end.

Definition float_of_decimal (s : string) : option Q :=
  match s with
  | String "-" r => Qopp <$> unsigned_decimal r
  | String "+" r => unsigned_decimal r
  | _ => unsigned_decimal s
  end.

(** ** JSON values and the HTTP response, as httpx hands them to the client *)

(** The Python value [json.loads] returns. *)
#[local] Unset Elimination Schemes.
Inductive Json :=
| JNull
| JBool (b : bool)
| JInt (z : Z)
| JFloat (q : Q)
| JStr (s : string)
| JList (l : list Json)
| JDict (d : list (string * Json)).
#[local] Set Elimination Schemes.

(** The empty result object [{}]. *)
Definition empty_dict : Json := JDict [].

Module Httpx.

Definition ascii_lower (c : ascii) : ascii :=
  let n := N_of_ascii c in
  if ((65 <=? n) && (n <=? 90))%N then ascii_of_N (n + 32) else c.

(** [str.lower] on header names (ASCII). *)
Fixpoint lower (s : string) : string :=
  match s with
  | EmptyString => EmptyString
  | String c r => String (ascii_lower c) (lower r)
  end.

(** Header fields in the order received; a name can occur more than once. *)
Definition Headers := list (string * string).

(** [Headers.get(key)]: names are compared case-insensitively, the values
    of all fields of that name are joined with a comma and a space, and
    [None] is the default when there is none. *)
Definition get (key : string) (h : Headers) : option string :=
  match List.filter (fun kv => String.eqb (lower (fst kv)) (lower key)) h with
  | [] => None
  | items => Some (String.concat ", " (List.map snd items))
  end.

(** [headers[key] = value]: the first field of that name takes the value,
    the others of that name go, and a new field is added at the end when
    there is none. *)
Fixpoint remove_all (key : string) (h : Headers) : Headers :=
  match h with
  | [] => []
  | (k, v) :: r =>
      if String.eqb (lower k) (lower key) then remove_all key r
      else (k, v) :: remove_all key r
  end.

Fixpoint set (key value : string) (h : Headers) : Headers :=
  match h with
  | [] => [(key, value)]
  | (k, v) :: r =>
      if String.eqb (lower k) (lower key) then (key, value) :: remove_all key r
      else (k, v) :: set key value r
  end.

(** What the client reads of an [httpx.Response]: the status code, the
    headers, the raw body [content], and [json], the value [response.json()]
    returns ([None] when decoding the body raises). *)
Record Response := {
  status_code : Z;
  headers : Headers;
  content : string;
  json : option Json
}.

End Httpx.

(** ** models.py *)

Module Models.

Record NetSuiteErrorDetail := {
  detail : string;
  detail_error_code : string;
  error_path : option string
}.

Record NetSuiteErrorResponse := {
  type_ : string;
  title : string;
  status : Z;
  error_code : string;
  error_details : list NetSuiteErrorDetail
}.

(** [PaginatedResponse]. *)
Record PaginatedResponse := {
  count : option Z;
  has_more : bool;
  items : list Json;
  total_results : option Z;
  links : list Json;
  offset : Z
}.

(** The fields of [NetSuiteConfig] the request pipeline reads. *)
Record NetSuiteConfig := {
  account_id : string;
  timeout : Q;
  max_retries : Z;
  retry_backoff_factor : Q
}.

(** Lookup of a field in a decoded object, by alias first and by field name
    next ([populate_by_name]). *)
Fixpoint dict_get (k : string) (d : list (string * Json)) : option Json :=
  match d with
  | [] => None
  | (k', v) :: r => if String.eqb k' k then Some v else dict_get k r
  end.

Definition field (alias name : string) (d : list (string * Json)) : option Json :=
  match dict_get alias d with
  | Some v => Some v
  | None => dict_get name d
  end.

(** A field of type [str] with a default. *)
Definition str_field (dflt : string) (o : option Json) : option string :=
  match o with
  | None => Some dflt
  | Some (JStr s) => Some s
  | Some _ => None
  end.

Definition int_field (dflt : Z) (o : option Json) : option Z :=
  match o with
  | None => Some dflt
  | Some (JInt z) => Some z
  | Some _ => None
  end.

Definition opt_str_field (o : option Json) : option (option string) :=
  match o with
  | None | Some JNull => Some None
  | Some (JStr s) => Some (Some s)
  | Some _ => None
  end.

Definition validate_detail (j : Json) : option NetSuiteErrorDetail :=
  match j with
  | JDict d =>
      dt ← str_field "" (field "detail" "detail" d);
      ec ← str_field "" (field "o:errorCode" "error_code" d);
      ep ← opt_str_field (field "o:errorPath" "error_path" d);
      Some {| detail := dt; detail_error_code := ec; error_path := ep |}
  | _ => None
  end.

Definition details_field (o : option Json)
    : option (list NetSuiteErrorDetail) :=
  match o with
  | None => Some []
  | Some (JList l) => mapM validate_detail l
  | Some _ => None
  end.

(** An instance of [NetSuiteErrorResponse.model_validate] for decoded
    bodies whose fields, when present, already have the JSON type the model
    declares: a missing field takes its default, a field of another type is a
    validation error ([None]).  The conversions pydantic applies on top of
    this (an integer written as a string, say) are not part of this
    instance; the pipeline below is stated for any validator. *)
Definition validate_error_response (body : Json)
    : option NetSuiteErrorResponse :=
  match body with
  | JDict d =>
      ty ← str_field "" (field "type" "type" d);
      ti ← str_field "" (field "title" "title" d);
      st ← int_field 0 (field "status" "status" d);
      ec ← str_field "" (field "o:errorCode" "error_code" d);
      ds ← details_field (field "o:errorDetails" "error_details" d);
      Some {| type_ := ty; title := ti; status := st; error_code := ec;
              error_details := ds |}
  | _ => None
  end.

End Models.

(** ** exceptions.py *)

Module Exceptions.

(** The exception classes. *)
Inductive exc_class :=
| NetSuiteError
| AuthenticationError
| AuthorizationError
| NotFoundError
| ValidationError
| ConcurrencyLimitError
| ServerError
| ConfigurationError.

#[global] Instance exc_class_eq_dec : EqDecision exc_class.
Proof. solve_decision. Defined.

(** An exception instance: its class, the message given to [Exception], and
    the attributes [__init__] sets.  [retry_after] is [None] when the
    instance has no such attribute, and [Some v] when it has it with value
    [v] (which can itself be Python's [None]). *)
Record exception := {
  cls : exc_class;
  message : string;
  status : option Z;
  error_code : option string;
  error_details : list Models.NetSuiteErrorDetail;
  retry_after : option (option Q)
}.

(** [NetSuiteError.__init__], inherited unchanged by every class but
    [ConcurrencyLimitError]; [error_details or []] is the list itself. *)
Definition init (c : exc_class) (message : string) (status : option Z)
    (error_code : option string)
    (error_details : option (list Models.NetSuiteErrorDetail)) : exception :=
  {| cls := c; message := message; status := status;
     error_code := error_code;
     error_details := default [] error_details;
     retry_after := None |}.

(** [ConcurrencyLimitError.__init__]. *)
Definition init_concurrency_limit (message : string) (retry_after : option Q)
    (status : option Z) (error_code : option string)
    (error_details : option (list Models.NetSuiteErrorDetail)) : exception :=
  {| cls := ConcurrencyLimitError; message := message; status := status;
     error_code := error_code;
     error_details := default [] error_details;
     retry_after := Some retry_after |}.

Definition STATUS_EXCEPTION_MAP : gmap Z exc_class :=
  <[400 := ValidationError]> (
  <[401 := AuthenticationError]> (
  <[403 := AuthorizationError]> (
  <[404 := NotFoundError]> (
  <[429 := ConcurrencyLimitError]> (
  <[500 := ServerError]> (
  <[502 := ServerError]> (
  <[503 := ServerError]> ∅))))))).

End Exceptions.

(** ** _retry.py *)

Module Retry.

(** [calculate_backoff(attempt, retry_after, backoff_factor)]. *)
Definition calculate_backoff
    (attempt : Z) (retry_after : option Q) (backoff_factor : Q) : Q :=
  match retry_after with
  | Some h => h
  | None => (backoff_factor * py_pow2 attempt)%Q
  end.

Section WithFloat.

(** Python's builtin [float(raw)]: [None] stands for [ValueError]. *)
Variable py_float : string -> option Q.

(** [parse_retry_after(response)]. *)
Definition parse_retry_after (response : Httpx.Response) : option Q :=
  match Httpx.get "Retry-After" (Httpx.headers response) with
  | None => None
  | Some raw => py_float raw
  end.

End WithFloat.

End Retry.

(** ** _pagination.py *)

Module Pagination.

Definition DEFAULT_PAGE_SIZE : Z := 1000.

Section Iterators.

(** The page-fetch callback is any Python callable: it can keep state of
    its own between calls ([St]), which it reads and updates. *)
Variable St : Type.

Definition FetchPage := Z -> Z -> St -> Models.PaginatedResponse * St.

(** One call of the callback, as the outside sees it: the arguments
    [limit] and [offset], and the page returned. *)
Record Fetch := {
  fetch_limit : Z;
  fetch_offset : Z;
  fetch_page : Models.PaginatedResponse
}.

(** The world an iterator runs in: the state of the callback and the calls
    made to it so far, oldest first. *)
Record World := {
  state : St;
  log : list Fetch
}.

(** The fields of [SyncPageIterator], which are those of
    [AsyncPageIterator] too. *)
Record PageIterator := {
  _fetch_page : FetchPage;
  _limit : Z;
  _offset : Z;
  _exhausted : bool
}.

(** [__init__(fetch_page, limit, offset)]. *)
Definition __init__ (fetch_page : FetchPage) (limit offset : Z)
    : PageIterator :=
  {| _fetch_page := fetch_page; _limit := limit; _offset := offset;
     _exhausted := false |}.

(** [self._fetch_page(self._limit, self._offset)]. *)
Definition call_fetch (self : PageIterator) (w : World)
    : Models.PaginatedResponse * World :=
  let '(page, st) := _fetch_page self (_limit self) (_offset self) (state w) in
  (page,
   {| state := st;
      log := log w ++ [{| fetch_limit := _limit self;
                          fetch_offset := _offset self;
                          fetch_page := page |}] |}).

(** [not page.items]. *)
Definition no_items (page : Models.PaginatedResponse) : bool :=
  match Models.items page with [] => true | _ :: _ => false end.

(** [SyncPageIterator.__next__]: [None] stands for [StopIteration]. *)
Definition __next__ (self : PageIterator) (w : World)
    : option Models.PaginatedResponse * PageIterator * World :=
  if _exhausted self then (None, self, w)
  else
    let '(page, w') := call_fetch self w in
    let self' :=
      if negb (Models.has_more page) then
        {| _fetch_page := _fetch_page self; _limit := _limit self;
           _offset := _offset self; _exhausted := true |}
      else
        {| _fetch_page := _fetch_page self; _limit := _limit self;
           _offset := _offset self + _limit self;
           _exhausted := _exhausted self |} in
    if no_items page && _exhausted self' then (None, self', w')
    else (Some page, self', w').

(** [AsyncPageIterator.__anext__]: [None] stands for
    [StopAsyncIteration]; awaiting the callback is the call. *)
Definition __anext__ (self : PageIterator) (w : World)
    : option Models.PaginatedResponse * PageIterator * World :=
  if _exhausted self then (None, self, w)
  else
    let '(page, w') := call_fetch self w in
    let self' :=
      if negb (Models.has_more page) then
        {| _fetch_page := _fetch_page self; _limit := _limit self;
           _offset := _offset self; _exhausted := true |}
      else
        {| _fetch_page := _fetch_page self; _limit := _limit self;
           _offset := _offset self + _limit self;
           _exhausted := _exhausted self |} in
    if no_items page && _exhausted self' then (None, self', w')
    else (Some page, self', w').

Definition Next :=
  PageIterator -> World ->
  option Models.PaginatedResponse * PageIterator * World.

(** What a [for] loop (or [list(...)]) over the iterator sees: the pages
    until the iterator stops.  The loop need not end (a callback can report
    more pages for ever), so it is run for at most [fuel] steps; the last
    component tells whether the iterator stopped within them. *)
Fixpoint pages (next : Next) (fuel : nat) (self : PageIterator) (w : World)
    : list Models.PaginatedResponse * PageIterator * World * bool :=
  match fuel with
  | O => ([], self, w, false)
  | S fuel' =>
      match next self w with
      | (None, self', w') => ([], self', w', true)
      | (Some page, self', w') =>
          let '(ps, self'', w'', stopped) := pages next fuel' self' w' in
          (page :: ps, self'', w'', stopped)
      end
  end.

(** [n] calls of [next(it)] in a row, whatever they return; the pages
    returned are collected. *)
Fixpoint nexts (next : Next) (n : nat) (self : PageIterator) (w : World)
    : list Models.PaginatedResponse * PageIterator * World :=
  match n with
  | O => ([], self, w)
  | S n' =>
      let '(r, self', w') := next self w in
      let '(ps, self'', w'') := nexts next n' self' w' in
      (match r with Some page => page :: ps | None => ps end, self'', w'')
  end.

(** [iter_items_sync(fetch_page, limit)]: the items of the pages, flattened;
    with the final world and whether the generator finished. *)
Definition iter_items_sync (fetch_page : FetchPage) (limit : Z)
    (fuel : nat) (w : World) : list Json * World * bool :=
  let '(ps, _, w', stopped) :=
    pages __next__ fuel (__init__ fetch_page limit 0) w in
  (List.concat (List.map Models.items ps), w', stopped).

(** [iter_items_async(fetch_page, limit)]. *)
Definition iter_items_async (fetch_page : FetchPage) (limit : Z)
    (fuel : nat) (w : World) : list Json * World * bool :=
  let '(ps, _, w', stopped) :=
    pages __anext__ fuel (__init__ fetch_page limit 0) w in
  (List.concat (List.map Models.items ps), w', stopped).

End Iterators.

Arguments state {St}.
Arguments log {St}.
Arguments Build_World {St}.
Arguments _fetch_page {St}.
Arguments _limit {St}.
Arguments _offset {St}.
Arguments _exhausted {St}.
Arguments Build_PageIterator {St}.
Arguments __init__ {St}.
Arguments call_fetch {St}.
Arguments __next__ {St}.
Arguments __anext__ {St}.
Arguments pages {St}.
Arguments nexts {St}.
Arguments iter_items_sync {St}.
Arguments iter_items_async {St}.

End Pagination.

(** ** client.py *)

Module Client.

(** Errors other than the package's own that the pipeline lets through. *)
Inductive PyError :=
| JSONDecodeError    (* [response.json()] on a body that is not JSON *)
| ValueError         (* [time.sleep] on a negative duration *)
| OverflowError.     (* [time.sleep] on a duration beyond 64-bit nanoseconds *)

(** How a call of the pipeline ends. *)
Inductive Outcome :=
| Returned (result : Json)
| Raised (exc : Exceptions.exception)
| Failed (err : PyError).

(** What the pipeline does to the outside: the [n]-th physical HTTP call
    (counted from 0) and the waits between two calls. *)
Inductive Event :=
| Send (n : nat)
| Sleep (wait : Q).

Definition is_send (e : Event) : bool :=
  match e with Send _ => true | Sleep _ => false end.

(** Number of physical calls in a trace. *)
Definition calls (tr : list Event) : nat :=
  List.length (List.filter is_send tr).

(** The arguments of one logical request. *)
Record Request := {
  method : string;
  path : string;
  params : option (list (string * string));
  json_body : option Json;
  extra_headers : option (list (string * string))
}.

(** The nanoseconds [time.sleep] makes of its argument: the seconds times
    [10^9], rounded away from zero. *)
Definition sleep_ns (wait : Q) : Z :=
  if Qle_bool 0 wait then Qceiling (wait * 1000000000)
  else Qfloor (wait * 1000000000).

(** [time.sleep(wait)]: [None] when it sleeps and returns, the error when
    it raises.  The nanoseconds must fit a signed 64-bit integer
    ([OverflowError] otherwise) and must not be negative ([ValueError]). *)
Definition time_sleep (wait : Q) : option PyError :=
  let ns := sleep_ns wait in
  if (ns <? - 2 ^ 63) || (2 ^ 63 <=? ns) then Some OverflowError
  else if ns <? 0 then Some ValueError
  else None.

(** [asyncio.sleep(wait)]: a duration that is not positive returns at
    once, any other is handed to the event loop's timer; it never raises
    on a number. *)
Definition asyncio_sleep (wait : Q) : option PyError := None.

Section Pipeline.

(** [NetSuiteErrorResponse.model_validate]: [None] stands for the
    validation error. *)
Variable model_validate : Json -> option Models.NetSuiteErrorResponse.

(** Python's builtin [float]. *)
Variable py_float : string -> option Q.

(** The f-string ["HTTP {response.status_code}"]. *)
Definition http_message (response : Httpx.Response) : string :=
  "HTTP " +:+ pretty (Httpx.status_code response).

(** The body of the [try] in [_build_exception]. *)
Definition parse_error_response (response : Httpx.Response)
    : option Models.NetSuiteErrorResponse :=
  match Httpx.json response with
  | Some body => model_validate body
  | None => None
  end.

(** [NetSuiteClient._build_exception(response)]. *)
Definition _build_exception (response : Httpx.Response)
    : Exceptions.exception :=
  match parse_error_response response with
  | None =>
      Exceptions.init Exceptions.NetSuiteError (http_message response)
        (Some (Httpx.status_code response)) None None
  | Some error_resp =>
      let exc_class :=
        default Exceptions.NetSuiteError
          (Exceptions.STATUS_EXCEPTION_MAP !! Httpx.status_code response) in
      let status :=
        if Models.status error_resp =? 0 then Httpx.status_code response
        else Models.status error_resp in
      let error_code := Models.error_code error_resp in
      let error_details := Models.error_details error_resp in
      let message :=
        if String.eqb (Models.title error_resp) "" then http_message response
        else Models.title error_resp in
      if decide (exc_class = Exceptions.ConcurrencyLimitError) then
        Exceptions.init_concurrency_limit message
          (Retry.parse_retry_after py_float response)
          (Some status) (Some error_code) (Some error_details)
      else
        Exceptions.init exc_class message
          (Some status) (Some error_code) (Some error_details)
  end.

Section Loop.

(** [time.sleep] in [_request_sync], [asyncio.sleep] in [_request_async]. *)
Variable sleep : Q -> option PyError.

Variable config : Models.NetSuiteConfig.

(** The transport: the response to the [n]-th physical call of a request. *)
Variable transport : Request -> nat -> Httpx.Response.

(** One iteration of the [for] loop either leaves the function or sleeps
    and goes on with [last_exc] set. *)
Inductive Step :=
| Done (o : Outcome)
| Again (wait : Q) (exc : Exceptions.exception).

(** The body of the loop, after the call. *)
Definition attempt_body (attempt : Z) (response : Httpx.Response) : Step :=
  if Httpx.status_code response <? 400 then
    if (Httpx.status_code response =? 204)
       || String.eqb (Httpx.content response) "" then
      Done (Returned empty_dict)
    else
      match Httpx.json response with
      | Some body => Done (Returned body)
      | None => Done (Failed JSONDecodeError)
      end
  else
    let exc := _build_exception response in
    if (Httpx.status_code response =? 429)
       && (attempt <? Models.max_retries config) then
      let retry_after := Retry.parse_retry_after py_float response in
      Again (Retry.calculate_backoff attempt retry_after
               (Models.retry_backoff_factor config)) exc
    else if (500 <=? Httpx.status_code response)
            && (attempt <? Models.max_retries config) then
      Again (Retry.calculate_backoff attempt None
               (Models.retry_backoff_factor config)) exc
    else Done (Raised exc).

(** The [for attempt in range(...)] loop with [remaining] iterations left,
    [n] physical calls made so far, and the statement after the loop. *)
Fixpoint request_loop (req : Request) (remaining : nat) (attempt : Z)
    (n : nat) (last_exc : option Exceptions.exception)
    : Outcome * list Event :=
  match remaining with
  | O =>
      (Raised (default
                 (Exceptions.init Exceptions.NetSuiteError
                    "Max retries exceeded" None None None)
                 last_exc), [])
  | S remaining' =>
      let response := transport req n in
      match attempt_body attempt response with
      | Done o => (o, [Send n])
      | Again wait exc =>
          match sleep wait with
          | None =>
              let '(o, tr) :=
                request_loop req remaining' (attempt + 1) (S n) (Some exc) in
              (o, Send n :: Sleep wait :: tr)
          | Some err => (Failed err, [Send n])
          end
      end
  end.

Definition request (req : Request) : Outcome * list Event :=
  request_loop req (Z.to_nat (Models.max_retries config + 1)) 0 0%nat None.

End Loop.

(** [NetSuiteClient._request_sync]. *)
Definition _request_sync := request time_sleep.

(** [NetSuiteClient._request_async]. *)
Definition _request_async := request asyncio_sleep.

End Pipeline.

End Client.

(** ** auth/oauth2.py *)

Module OAuth2.

(** The mutable part of [OAuth2Auth]: the cached bearer token and the
    instant at which it expires. *)
Record OAuth2Auth := {
  _access_token : option string;
  _expires_at : Q
}.

(** [OAuth2Auth.__init__]: no token, expiry 0.0. *)
Definition init : OAuth2Auth :=
  {| _access_token := None; _expires_at := 0 |}.

(** [_is_token_valid], with the reading of the clock [time.time()] passed
    in as [now]. *)
Definition _is_token_valid (self : OAuth2Auth) (now : Q) : bool :=
  match _access_token self with
  | Some _ => Qltb now (_expires_at self - 60)
  | None => false
  end.

(** [_store_token]: [data] is the decoded token response, given by its
    [access_token] and its optional [expires_in]. *)
Definition _store_token
    (self : OAuth2Auth) (now : Q) (access_token : string)
    (expires_in : option Z) : OAuth2Auth :=
  {| _access_token := Some access_token;
     _expires_at := (now + inject_Z (default 3600%Z expires_in))%Q |}.

End OAuth2.

(** ** hashlib, hmac and base64, as the signing strategy uses them *)

Module Sha256.

(** SHA-256 (FIPS 180-4).  Bytes are integers in [0, 256), words integers
    in [0, 2^32) with the wrap-around written out. *)
Definition bytes_of (s : string) : list Z :=
  List.map (fun c => Z.of_N (N_of_ascii c)) (list_ascii_of_string s).

Definition wrap (x : Z) : Z := x mod 2 ^ 32.
Definition add32 (x y : Z) : Z := wrap (x + y).
Definition rotr (n x : Z) : Z :=
  Z.lor (Z.shiftr x n) (wrap (Z.shiftl x (32 - n))).
Definition not32 (x : Z) : Z := 2 ^ 32 - 1 - x.

Definition Ch (x y z : Z) : Z := Z.lxor (Z.land x y) (Z.land (not32 x) z).
Definition Maj (x y z : Z) : Z :=
  Z.lxor (Z.lxor (Z.land x y) (Z.land x z)) (Z.land y z).
Definition Sigma0 (x : Z) : Z :=
  Z.lxor (Z.lxor (rotr 2 x) (rotr 13 x)) (rotr 22 x).
Definition Sigma1 (x : Z) : Z :=
  Z.lxor (Z.lxor (rotr 6 x) (rotr 11 x)) (rotr 25 x).
Definition sigma0 (x : Z) : Z :=
  Z.lxor (Z.lxor (rotr 7 x) (rotr 18 x)) (Z.shiftr x 3).
Definition sigma1 (x : Z) : Z :=
  Z.lxor (Z.lxor (rotr 17 x) (rotr 19 x)) (Z.shiftr x 10).

(** The integer part of the [e]-th root of [n], found bit by bit from
    bit [k - 1] down. *)
Fixpoint iroot (e : Z) (k : nat) (n r : Z) : Z :=
  match k with
  | O => r
  | S k' =>
      let r' := r + 2 ^ Z.of_nat k' in
      iroot e k' n (if r' ^ e <=? n then r' else r)
  end.

Definition is_prime (p : Z) : bool :=
  List.forallb (fun d => negb (p mod d =? 0)) (seqZ 2 (p - 2)).

(** The first 64 primes. *)
Definition primes : list Z :=
  Eval vm_compute in List.filter is_prime (seqZ 2 310).

(** The round constants: the first 32 bits of the fractional parts of the
    cube roots of the first 64 primes. *)
Definition K : list Z :=
  Eval vm_compute in
    List.map (fun p => wrap (iroot 3 40 (p * 2 ^ 96) 0)) primes.

(** The initial hash value: the first 32 bits of the fractional parts of
    the square roots of the first 8 primes. *)
Definition H0 : list Z :=
  Eval vm_compute in
    List.map (fun p => wrap (iroot 2 40 (p * 2 ^ 64) 0)) (List.firstn 8 primes).

(** Big-endian bytes of a number: the [n] low-order bytes of [x]. *)
Fixpoint be_bytes (n : nat) (x : Z) : list Z :=
  match n with
  | O => []
  | S n' => be_bytes n' (Z.shiftr x 8) ++ [Z.land x 255]
  end.

Definition be_word (bs : list Z) : Z :=
  List.fold_left (fun acc b => Z.lor (Z.shiftl acc 8) b) bs 0.

(** The padding: a one bit, zeros up to 56 modulo 64, the length in bits. *)
Definition pad (msg : list Z) : list Z :=
  let len := Z.of_nat (List.length msg) in
  let zeros := Z.to_nat ((55 - len) mod 64) in
  msg ++ [128] ++ List.repeat 0 zeros ++ be_bytes 8 (8 * len).

(** Cut a list into chunks of [n] elements; [fuel] bounds their number. *)
Fixpoint chunks {A} (n : nat) (fuel : nat) (l : list A) : list (list A) :=
  match fuel with
  | O => []
  | S fuel' =>
      match l with
      | [] => []
      | _ => List.firstn n l :: chunks n fuel' (List.skipn n l)
      end
  end.

(** The message schedule: [w] holds the 16 last words, oldest first. *)
Fixpoint schedule (n : nat) (w : list Z) : list Z :=
  match n with
  | O => []
  | S n' =>
      let next :=
        add32 (add32 (sigma1 (List.nth 14 w 0)) (List.nth 9 w 0))
              (add32 (sigma0 (List.nth 1 w 0)) (List.nth 0 w 0)) in
      next :: schedule n' (List.tl w ++ [next])
  end.

Definition round (st : list Z) (kw : Z * Z) : list Z :=
  match st with
  | [a; b; c; d; e; f; g; h] =>
      let t1 := add32 (add32 (add32 h (Sigma1 e)) (Ch e f g))
                      (add32 (fst kw) (snd kw)) in
      let t2 := add32 (Sigma0 a) (Maj a b c) in
      [add32 t1 t2; a; b; c; add32 d t1; e; f; g]
  | _ => st
  end.

Definition compress (h : list Z) (block : list Z) : list Z :=
  let w16 := List.map be_word (chunks 4 16 block) in
  let w := w16 ++ schedule 48 w16 in
  let st := List.fold_left round (List.combine K w) h in
  List.map (fun p => add32 (fst p) (snd p)) (List.combine h st).

(** [hashlib.sha256(msg).digest()]. *)
Definition sha256 (msg : list Z) : list Z :=
  let padded := pad msg in
  let blocks := chunks 64 (List.length padded) padded in
  List.concat (List.map (be_bytes 4) (List.fold_left compress blocks H0)).

End Sha256.


(** HMAC (RFC 2104) over SHA-256. *)
Module Hmac.

Definition block_size : nat := 64.

(** [hmac.new(key, msg, hashlib.sha256).digest()]. *)
Definition hmac_sha256 (key msg : list Z) : list Z :=
  let key' :=
    if (block_size <? List.length key)%nat then Sha256.sha256 key else key in
  let padded :=
    key' ++ List.repeat 0 (block_size - List.length key') in
  let ipad := List.map (Z.lxor 54) padded in
  let opad := List.map (Z.lxor 92) padded in
  Sha256.sha256 (opad ++ Sha256.sha256 (ipad ++ msg)).

End Hmac.

(** Base64 (RFC 4648), standard alphabet, padded. *)
Module Base64.

Definition alphabet : string :=
  "ABCDEFGHIJKLMNOPQRSTUVWXYZabcdefghijklmnopqrstuvwxyz0123456789+/".

Definition digit (n : Z) : ascii :=
  match String.get (Z.to_nat n) alphabet with
  | Some c => c
  | None => "="%char
  end.

(** [base64.b64encode]. *)
Fixpoint b64encode (bs : list Z) : string :=
  match bs with
  | [] => ""
  | [a] =>
      String (digit (Z.shiftr a 2))
        (String (digit (Z.shiftl (Z.land a 3) 4)) "==")
  | [a; b] =>
      String (digit (Z.shiftr a 2))
        (String (digit (Z.lor (Z.shiftl (Z.land a 3) 4) (Z.shiftr b 4)))
           (String (digit (Z.shiftl (Z.land b 15) 2)) "="))
  | a :: b :: c :: r =>
      String (digit (Z.shiftr a 2))
        (String (digit (Z.lor (Z.shiftl (Z.land a 3) 4) (Z.shiftr b 4)))
           (String (digit (Z.lor (Z.shiftl (Z.land b 15) 2) (Z.shiftr c 6)))
              (String (digit (Z.land c 63)) (b64encode r))))
  end.

End Base64.

(** ** auth/tba.py *)

Module TBA.

(** [models.TBAConfig]. *)
Record TBAConfig := {
  consumer_key : string;
  consumer_secret : string;
  token_key : string;
  token_secret : string
}.

(** What the signing strategy reads of an [httpx.URL]: its components, the
    query being given as [url.params.multi_items()] gives it, that is the
    key/value pairs of the query string in their order, repeated keys
    included. *)
Record URL := {
  scheme : string;
  authority : string;
  path : string;
  params : list (string * string);
  fragment : option string
}.

(** [httpx.Request]. *)
Record Request := {
  method : string;
  url : URL;
  headers : Httpx.Headers;
  content : string
}.

Record TBAAuth := {
  _config : TBAConfig;
  _realm : string
}.

(** [str(url.copy_with(query=None, fragment=None))]. *)
Definition base_url (u : URL) : string :=
  scheme u +:+ "://" +:+ authority u +:+ path u.

(** The characters [quote] never encodes: letters, digits and [_.-~]. *)
Definition unreserved (c : ascii) : bool :=
  let n := N_of_ascii c in
  (((65 <=? n) && (n <=? 90)) || ((97 <=? n) && (n <=? 122))
   || ((48 <=? n) && (n <=? 57))
   || (n =? 95) || (n =? 46) || (n =? 45) || (n =? 126))%N.

(** An upper-case hexadecimal digit. *)
Definition hex_digit (n : N) : ascii :=
  if (n <? 10)%N then ascii_of_N (48 + n) else ascii_of_N (55 + n).

(** [_percent_encode(s)], that is [quote(s, safe="")], on the UTF-8 bytes
    of [s]. *)
Fixpoint _percent_encode (s : string) : string :=
  match s with
  | EmptyString => EmptyString
  | String c r =>
      if unreserved c then String c (_percent_encode r)
      else
        String "%"
          (String (hex_digit (N_of_ascii c / 16))
             (String (hex_digit (N_of_ascii c mod 16)) (_percent_encode r)))
  end.

Definition ascii_upper (c : ascii) : ascii :=
  let n := N_of_ascii c in
  if ((97 <=? n) && (n <=? 122))%N then ascii_of_N (n - 32) else c.

(** [str.upper] on an HTTP method (ASCII). *)
Fixpoint upper (s : string) : string :=
  match s with
  | EmptyString => EmptyString
  | String c r => String (ascii_upper c) (upper r)
  end.

(** A [dict[str, str]] in insertion order. *)
Definition Dict := list (string * string).

(** [d[key] = value]: an existing key keeps its place. *)
Fixpoint dict_set (key value : string) (d : Dict) : Dict :=
  match d with
  | [] => [(key, value)]
  | (k, v) :: r =>
      if String.eqb k key then (k, value) :: r
      else (k, v) :: dict_set key value r
  end.

(** Order of tuples of strings: by the first component, then the second. *)
Definition item_leb (x y : string * string) : bool :=
  match String.compare (fst x) (fst y) with
  | Lt => true
  | Gt => false
  | Eq => String.leb (snd x) (snd y)
  end.

Fixpoint insert_sorted (x : string * string) (l : Dict) : Dict :=
  match l with
  | [] => [x]
  | y :: r => if item_leb x y then x :: l else y :: insert_sorted x r
  end.

(** [sorted(d.items())]. *)
Definition sorted (d : Dict) : Dict := List.fold_right insert_sorted [] d.

(** [urlencode(items, quote_via=quote)]. *)
Definition urlencode (items : Dict) : string :=
  String.concat "&"
    (List.map
       (fun kv => _percent_encode (fst kv) +:+ "=" +:+ _percent_encode (snd kv))
       items).

(** [int(x)] on a float: truncation towards zero. *)
Definition py_int (x : Q) : Z := Z.quot (Qnum x) (Z.pos (Qden x)).

(** The [oauth_params] dictionary of [auth_flow], before the signature is
    added. *)
Definition oauth_params (self : TBAAuth) (nonce timestamp : string) : Dict :=
  [("oauth_consumer_key", consumer_key (_config self));
   ("oauth_nonce", nonce);
   ("oauth_signature_method", "HMAC-SHA256");
   ("oauth_timestamp", timestamp);
   ("oauth_token", token_key (_config self));
   ("oauth_version", "1.0")].

(** [all_params]: the OAuth parameters, then every query parameter
    assigned in turn. *)
Definition all_params (request : Request) (oauth : Dict) : Dict :=
  List.fold_left (fun d kv => dict_set (fst kv) (snd kv) d)
    (params (url request)) oauth.

(** [base_string] in [_compute_signature]. *)
Definition base_string (request : Request) (oauth : Dict) : string :=
  String.concat "&"
    [_percent_encode (upper (method request));
     _percent_encode (base_url (url request));
     _percent_encode (urlencode (sorted (all_params request oauth)))].

(** [signing_key] in [_compute_signature]. *)
Definition signing_key (self : TBAAuth) : string :=
  _percent_encode (consumer_secret (_config self)) +:+ "&"
  +:+ _percent_encode (token_secret (_config self)).

(** [TBAAuth._compute_signature(request, oauth_params)]. *)
Definition _compute_signature (self : TBAAuth) (request : Request)
    (oauth : Dict) : string :=
  Base64.b64encode
    (Hmac.hmac_sha256 (Sha256.bytes_of (signing_key self))
       (Sha256.bytes_of (base_string request oauth))).

Definition dq : string := String "034"%char EmptyString.

(** [TBAAuth._build_header(oauth_params)]. *)
Definition _build_header (self : TBAAuth) (oauth : Dict) : string :=
  "OAuth " +:+
  String.concat ", "
    (("realm=" +:+ dq +:+ _percent_encode (_realm self) +:+ dq)
     :: List.map
          (fun kv => _percent_encode (fst kv) +:+ "=" +:+ dq
                     +:+ _percent_encode (snd kv) +:+ dq)
          (sorted oauth)).

(** The signature [auth_flow] computes for a request, the nonce
    ([secrets.token_hex(16)]) and the clock ([time.time()]) being given. *)
Definition oauth_signature (self : TBAAuth) (nonce : string) (now : Q)
    (request : Request) : string :=
  _compute_signature self request
    (oauth_params self nonce (pretty (py_int now))).

(** The value [auth_flow] gives to the [Authorization] header. *)
Definition authorization (self : TBAAuth) (nonce : string) (now : Q)
    (request : Request) : string :=
  let oauth := oauth_params self nonce (pretty (py_int now)) in
  let signature := _compute_signature self request oauth in
  _build_header self (dict_set "oauth_signature" signature oauth).

(** [TBAAuth.auth_flow(request)]: the request it yields. *)
Definition auth_flow (self : TBAAuth) (nonce : string) (now : Q)
    (request : Request) : Request :=
  {| method := method request;
     url := url request;
     headers :=
       Httpx.set "Authorization" (authorization self nonce now request)
         (headers request);
     content := content request |}.

End TBA.

(** ** models.py and client.py: whom to talk to and how to sign *)

Module Config.

(** [models.OAuth2Config]; the path of the key file is the text of the
    path. *)
Record OAuth2Config := {
  client_id : string;
  certificate_id : string;
  private_key_path : string;
  scopes : list string;
  algorithm : string
}.

(** The fields of [NetSuiteConfig] that name the account, the credentials
    and the endpoint (the retry fields are those of
    [Models.NetSuiteConfig]). *)
Record NetSuiteConfig := {
  account_id : string;
  tba : option TBA.TBAConfig;
  oauth2 : option OAuth2Config;
  base_url : option string
}.

(** [s.replace("_", "-")]. *)
Fixpoint replace_underscore (s : string) : string :=
  match s with
  | EmptyString => EmptyString
  | String c r =>
      String (if Ascii.eqb c "_" then "-"%char else c) (replace_underscore r)
  end.

(** [account_id.lower().replace("_", "-")], the host label of the account.
    [lower] is Python's on ASCII text; letters outside ASCII, which Python
    lowers too, are left as they are. *)
Definition acct (account_id : string) : string :=
  replace_underscore (Httpx.lower account_id).

(** [s.rstrip("/")]. *)
Fixpoint rstrip_slash (s : string) : string :=
  match s with
  | EmptyString => EmptyString
  | String c r =>
      match rstrip_slash r with
      | EmptyString => if Ascii.eqb c "/" then EmptyString else String c ""
      | r' => String c r'
      end
  end.

(** [NetSuiteConfig.computed_base_url]: an override that is [None] or empty
    does not count. *)
Definition computed_base_url (self : NetSuiteConfig) : string :=
  match base_url self with
  | Some (String c r) => rstrip_slash (String c r)
  | _ => "https://" +:+ acct (account_id self) +:+ ".suitetalk.api.netsuite.com"
  end.

(** What a validator or a constructor ends in. *)
Inductive Checked (A : Type) :=
| Ok (a : A)
| ValueError (msg : string)
| OSError.
Arguments Ok {A}.
Arguments ValueError {A}.
Arguments OSError {A}.

(** [NetSuiteConfig._check_auth], the validator run after construction. *)
Definition _check_auth (self : NetSuiteConfig) : Checked NetSuiteConfig :=
  match tba self, oauth2 self with
  | None, None => ValueError "Exactly one of tba or oauth2 must be provided"
  | Some _, Some _ => ValueError "Only one of tba or oauth2 may be provided"
  | _, _ => Ok self
  end.

(** [OAuth2Auth] as [__init__] leaves it: the configuration, the account,
    the text of the key file, and the token cache. *)
Record OAuth2Strategy := {
  _config : OAuth2Config;
  _account_id : string;
  _private_key : string;
  cache : OAuth2.OAuth2Auth
}.

(** The signing strategy of a client. *)
Inductive Auth :=
| UseTBA (auth : TBA.TBAAuth)
| UseOAuth2 (auth : OAuth2Strategy).

Section Files.

(** [Path.read_text()]: [None] when the file cannot be read. *)
Variable read_text : string -> option string.

(** [OAuth2Auth.__init__(config, account_id)]. *)
Definition OAuth2Auth_init (config : OAuth2Config) (account_id : string)
    : Checked OAuth2Strategy :=
  match read_text (private_key_path config) with
  | Some key =>
      Ok {| _config := config; _account_id := account_id;
            _private_key := key; cache := OAuth2.init |}
  | None => OSError
  end.

(** [NetSuiteClient._build_auth(config)]. *)
Definition _build_auth (config : NetSuiteConfig) : Checked Auth :=
  match tba config with
  | Some t =>
      Ok (UseTBA {| TBA._config := t; TBA._realm := account_id config |})
  | None =>
      match oauth2 config with
      | Some o =>
          match OAuth2Auth_init o (account_id config) with
          | Ok a => Ok (UseOAuth2 a)
          | ValueError m => ValueError m
          | OSError => OSError
          end
      | None => ValueError "No auth config provided"
      end
  end.

End Files.

(** [OAuth2Auth._token_url]. *)
Definition _token_url (self : OAuth2Strategy) : string :=
  "https://" +:+ acct (_account_id self) +:+ ".suitetalk.api.netsuite.com"
  +:+ "/services/rest/auth/oauth2/v1/token".

End Config.

(** ** auth/oauth2.py: the authorisation flow *)

Module OAuth2Flow.

(** The claims and the header of the assertion [_build_jwt] signs. *)
Record JwtPayload := {
  iss : string;
  scope : list string;
  aud : string;
  exp : Z;
  iat : Z;
  jti : string
}.

Record JwtHeaders := {
  typ : string;
  kid : string
}.

(** The arguments [_build_token_request] gives to [httpx.Request]. *)
Record TokenRequest := {
  token_method : string;
  token_url : string;
  token_data : list (string * string);
  token_headers : list (string * string)
}.

(** What the flow hands to httpx to send. *)
Inductive Yielded :=
| Exchange (t : TokenRequest)
| Send (r : TBA.Request).

(** The token response as [_store_token] reads it: the flow is modelled
    for responses that decode to an object with a text under
    [access_token]; [expires_in] is the integer [int(...)] makes of the
    field when it is there. *)
Record TokenData := {
  access_token : string;
  expires_in : option Z
}.

(** The readings of the clock and the random identifier one run of the flow
    uses: [time.time()] in [_is_token_valid], in [_build_jwt] and in
    [_store_token], and [uuid.uuid4()]. *)
Record Readings := {
  now_check : Q;
  now_jwt : Q;
  now_store : Q;
  uuid4 : string
}.

Section Flow.

(** [jwt.encode(payload, key, algorithm=..., headers=...)]. *)
Variable jwt_encode : JwtPayload -> string -> string -> JwtHeaders -> string.

(** [OAuth2Auth._build_jwt]. *)
Definition _build_jwt (self : Config.OAuth2Strategy) (rd : Readings)
    : string :=
  let now := TBA.py_int (now_jwt rd) in
  jwt_encode
    {| iss := Config.client_id (Config._config self);
       scope := Config.scopes (Config._config self);
       aud := Config._token_url self;
       exp := now + 3600;
       iat := now;
       jti := uuid4 rd |}
    (Config._private_key self)
    (Config.algorithm (Config._config self))
    {| typ := "JWT"; kid := Config.certificate_id (Config._config self) |}.

(** [OAuth2Auth._build_token_request]. *)
Definition _build_token_request (self : Config.OAuth2Strategy)
    (rd : Readings) : TokenRequest :=
  {| token_method := "POST";
     token_url := Config._token_url self;
     token_data :=
       [("grant_type", "client_credentials");
        ("client_assertion_type",
         "urn:ietf:params:oauth:client-assertion-type:jwt-bearer");
        ("client_assertion", _build_jwt self rd)];
     token_headers :=
       [("Content-Type", "application/x-www-form-urlencoded")] |}.

(** The f-string ["Bearer {self._access_token}"]. *)
Definition bearer (cache : OAuth2.OAuth2Auth) : string :=
  "Bearer " +:+ default "None" (OAuth2._access_token cache).

(** [request.headers["Authorization"] = ...]. *)
Definition with_bearer (cache : OAuth2.OAuth2Auth) (request : TBA.Request)
    : TBA.Request :=
  {| TBA.method := TBA.method request;
     TBA.url := TBA.url request;
     TBA.headers :=
       Httpx.set "Authorization" (bearer cache) (TBA.headers request);
     TBA.content := TBA.content request |}.

(** [OAuth2Auth.sync_auth_flow(request)], run to its end by httpx: the
    requests it yields in order and the strategy it leaves.  [token] is
    the response httpx sends back into the generator after an exchange.
    [async_auth_flow] takes the same steps under the asynchronous lock. *)
Definition sync_auth_flow (self : Config.OAuth2Strategy) (rd : Readings)
    (token : TokenData) (request : TBA.Request)
    : list Yielded * Config.OAuth2Strategy :=
  if OAuth2._is_token_valid (Config.cache self) (now_check rd) then
    ([Send (with_bearer (Config.cache self) request)], self)
  else
    let cache' :=
      OAuth2._store_token (Config.cache self) (now_store rd)
        (access_token token) (expires_in token) in
    ([Exchange (_build_token_request self rd);
      Send (with_bearer cache' request)],
     {| Config._config := Config._config self;
        Config._account_id := Config._account_id self;
        Config._private_key := Config._private_key self;
        Config.cache := cache' |}).

End Flow.

End OAuth2Flow.

(** ** Responses of the test suite *)

Module Fixtures.

(** The double quote, and a JSON string literal without escapes. *)
Definition dq : string := String "034"%char EmptyString.
Definition quoted (s : string) : string := dq +:+ s +:+ dq.

(** A compact JSON object whose values are given as JSON text. *)
Fixpoint members (kvs : list (string * string)) : string :=
  match kvs with
  | [] => ""
  | [(k, v)] => quoted k +:+ ":" +:+ v
  | (k, v) :: r => quoted k +:+ ":" +:+ v +:+ "," +:+ members r
  end.
Definition object (kvs : list (string * string)) : string :=
  "{" +:+ members kvs +:+ "}".

(** [httpx.Response(status, json=body)]. *)
Definition json_response (status : Z) (hs : Httpx.Headers)
    (text : string) (body : Json) : Httpx.Response :=
  {| Httpx.status_code := status;
     Httpx.headers := hs ++ [("content-type", "application/json")];
     Httpx.content := text;
     Httpx.json := Some body |}.

(** [httpx.Response(status, text=...)] with a body that is not JSON. *)
Definition text_response (status : Z) (hs : Httpx.Headers)
    (text : string) : Httpx.Response :=
  {| Httpx.status_code := status;
     Httpx.headers := hs ++ [("content-type", "text/plain; charset=utf-8")];
     Httpx.content := text;
     Httpx.json := None |}.

(** [httpx.Response(status)]: no body. *)
Definition empty_response (status : Z) (hs : Httpx.Headers)
    : Httpx.Response :=
  {| Httpx.status_code := status;
     Httpx.headers := hs;
     Httpx.content := "";
     Httpx.json := None |}.

(** [test_exceptions.py], [test_400_validation_error]. *)
Definition resp_400 : Httpx.Response :=
  json_response 400 []
    (object
       [("type", quoted "error");
        ("title", quoted "Invalid field value");
        ("status", "400");
        ("o:errorCode", quoted "INVALID_FIELD");
        ("o:errorDetails",
         "[" +:+ object [("detail", quoted "Field 'email' is required");
                         ("o:errorCode", quoted "MISSING_FIELD")] +:+ "]")])
    (JDict
       [("type", JStr "error");
        ("title", JStr "Invalid field value");
        ("status", JInt 400);
        ("o:errorCode", JStr "INVALID_FIELD");
        ("o:errorDetails",
         JList [JDict [("detail", JStr "Field 'email' is required");
                       ("o:errorCode", JStr "MISSING_FIELD")]])]).

(** [test_exceptions.py], [test_429_concurrency_limit]. *)
Definition resp_429 : Httpx.Response :=
  json_response 429 [("Retry-After", "5")]
    (object [("type", quoted "error");
             ("title", quoted "Request limit exceeded");
             ("status", "429")])
    (JDict [("type", JStr "error");
            ("title", JStr "Request limit exceeded");
            ("status", JInt 429)]).

(** A 429 response with the same header and no body. *)
Definition resp_429_empty : Httpx.Response :=
  empty_response 429 [("Retry-After", "5")].

(** [test_exceptions.py], [test_malformed_json_fallback]. *)
Definition resp_502 : Httpx.Response := text_response 502 [] "Bad Gateway".

(** [test_client.py], [test_500_retries_then_raises]. *)
Definition resp_500 : Httpx.Response :=
  json_response 500 []
    (object [("type", quoted "error");
             ("title", quoted "Server error");
             ("status", "500")])
    (JDict [("type", JStr "error");
            ("title", JStr "Server error");
            ("status", JInt 500)]).

(** A 500 response whose body is plain text. *)
Definition resp_500_text : Httpx.Response :=
  text_response 500 [] "Internal Server Error".

(** [test_client.py], [test_204_returns_empty_dict]. *)
Definition resp_204 : Httpx.Response := empty_response 204 [].

(** [test_client.py], [test_successful_get]. *)
Definition resp_200 : Httpx.Response :=
  json_response 200 []
    (object [("id", "42"); ("companyName", quoted "Acme")])
    (JDict [("id", JInt 42); ("companyName", JStr "Acme")]).

(** A 200 response whose body is an HTML page. *)
Definition resp_200_html : Httpx.Response :=
  text_response 200 [] "<html><body>Service unavailable</body></html>".

(** The configuration of [conftest.py] ([tba_config]) with the retry
    settings of [test_500_retries_then_raises]. *)
Definition config_one_retry : Models.NetSuiteConfig :=
  {| Models.account_id := "123456";
     Models.timeout := 30;
     Models.max_retries := 1;
     Models.retry_backoff_factor := 0 |}.

(** The default retry settings. *)
Definition config_default : Models.NetSuiteConfig :=
  {| Models.account_id := "123456";
     Models.timeout := 30;
     Models.max_retries := 3;
     Models.retry_backoff_factor := 1 |}.

Definition get_customer (id : string) : Client.Request :=
  {| Client.method := "GET";
     Client.path := "/services/rest/record/v1/customer/" +:+ id;
     Client.params := None;
     Client.json_body := None;
     Client.extra_headers := None |}.

(** A route that answers every call with the same response. *)
Definition always (r : Httpx.Response) : Client.Request -> nat -> Httpx.Response :=
  fun _ _ => r.

(** [test_pagination.py], [_make_page]. *)
Definition _make_page (items : list Json) (has_more : bool) (offset : Z)
    : Models.PaginatedResponse :=
  {| Models.count := Some (Z.of_nat (List.length items));
     Models.has_more := has_more;
     Models.items := items;
     Models.total_results := None;
     Models.links := [];
     Models.offset := offset |}.

Definition record_id (n : Z) : Json := JDict [("id", JInt n)].

(** [TestIterItemsSync.test_flattens_multiple_pages]: the callback keeps
    no state. *)
Definition fetch_two_pages : Pagination.FetchPage unit :=
  fun limit offset st =>
    if offset =? 0 then (_make_page [record_id 1; record_id 2] true 0, st)
    else (_make_page [record_id 3] false 0, st).

(** [TestSyncPageIterator.test_empty_first_page]. *)
Definition fetch_nothing : Pagination.FetchPage unit :=
  fun limit offset st => (_make_page [] false 0, st).

(** A callback that hands out the pages of a script in order, whatever the
    arguments, and an empty last page once the script is used up. *)
Definition fetch_script : Pagination.FetchPage (list Models.PaginatedResponse) :=
  fun limit offset st =>
    match st with
    | page :: rest => (page, rest)
    | [] => (_make_page [] false offset, [])
    end.

(** [test_tba.py], [_make_auth]. *)
Definition tba_auth : TBA.TBAAuth :=
  {| TBA._config :=
       {| TBA.consumer_key := "ck_abc";
          TBA.consumer_secret := "cs_secret";
          TBA.token_key := "tk_xyz";
          TBA.token_secret := "ts_secret" |};
     TBA._realm := "123456" |}.

(** [httpx.Request(method, "https://123456.suitetalk.api.netsuite.com" + path
    + "?" + query, content=body)]. *)
Definition tba_request (method path : string)
    (query : list (string * string)) (body : string) : TBA.Request :=
  {| TBA.method := method;
     TBA.url :=
       {| TBA.scheme := "https";
          TBA.authority := "123456.suitetalk.api.netsuite.com";
          TBA.path := path;
          TBA.params := query;
          TBA.fragment := None |};
     TBA.headers := [("host", "123456.suitetalk.api.netsuite.com")];
     TBA.content := body |}.

Definition customer_path : string := "/services/rest/record/v1/customer".
Definition invoice_path : string := "/services/rest/record/v1/invoice".

(** A 429 response that asks for a negative wait. *)
Definition resp_429_negative : Httpx.Response :=
  empty_response 429 [("Retry-After", "-1")].

(** A 504 response with a structured error payload. *)
Definition resp_504 : Httpx.Response :=
  json_response 504 []
    (object [("title", quoted "Gateway Timeout"); ("status", "504")])
    (JDict [("title", JStr "Gateway Timeout"); ("status", JInt 504)]).


(** A configuration with a negative retry count. *)
Definition config_negative_retries : Models.NetSuiteConfig :=
  {| Models.account_id := "123456";
     Models.timeout := 30;
     Models.max_retries := -1;
     Models.retry_backoff_factor := 1 |}.

(** A callback that always reports more, with no items: the answer of a
    server that never sets [hasMore] to false. *)
Definition fetch_endless : Pagination.FetchPage unit :=
  fun limit offset st => (_make_page [] true offset, st).

(** An OAuth 2.0 configuration with the default scopes and algorithm, a
    key file that exists, an assertion encoder that only joins the issuer
    and the identifier, and the readings of two runs of the flow. *)
Definition oauth2_config : Config.OAuth2Config :=
  {| Config.client_id := "client";
     Config.certificate_id := "cert";
     Config.private_key_path := "key.pem";
     Config.scopes := ["restlets"; "rest_webservices"];
     Config.algorithm := "ES256" |}.

Definition sandbox_config : Config.NetSuiteConfig :=
  {| Config.account_id := "123456_SB1";
     Config.tba := None;
     Config.oauth2 := Some oauth2_config;
     Config.base_url := Some "https://proxy.example.com//" |}.

Definition key_files (path : string) : option string :=
  if String.eqb path "key.pem" then Some "PRIVATE KEY" else None.

Definition plain_jwt (p : OAuth2Flow.JwtPayload) (key alg : string)
    (h : OAuth2Flow.JwtHeaders) : string :=
  OAuth2Flow.iss p +:+ "." +:+ OAuth2Flow.jti p.

Definition sandbox_strategy : Config.OAuth2Strategy :=
  {| Config._config := oauth2_config;
     Config._account_id := "123456_SB1";
     Config._private_key := "PRIVATE KEY";
     Config.cache := OAuth2.init |}.

Definition readings_at (t : Q) (id : string) : OAuth2Flow.Readings :=
  {| OAuth2Flow.now_check := t;
     OAuth2Flow.now_jwt := t;
     OAuth2Flow.now_store := t;
     OAuth2Flow.uuid4 := id |}.

(** [RestApi._record_path("customer", i)]: the path of the customer record
    with the internal id [i]. *)
Definition customer_record (i : nat) : string :=
  customer_path +:+ "/" +:+ pretty i.

Definition customers_request : TBA.Request :=
  tba_request "GET" customer_path [] "".

Definition token_of (tok : string) (e : option Z) : OAuth2Flow.TokenData :=
  {| OAuth2Flow.access_token := tok; OAuth2Flow.expires_in := e |}.

End Fixtures.

(** ** Specification-side definitions *)

(** The status mapping as the specification lists it. *)
Definition kind_of_status (s : Z) : Exceptions.exc_class :=
  if s =? 400 then Exceptions.ValidationError
  else if s =? 401 then Exceptions.AuthenticationError
  else if s =? 403 then Exceptions.AuthorizationError
  else if s =? 404 then Exceptions.NotFoundError
  else if s =? 429 then Exceptions.ConcurrencyLimitError
  else if (s =? 500) || (s =? 502) || (s =? 503) then Exceptions.ServerError
  else Exceptions.NetSuiteError.

(** The condition under which the pipeline sleeps and tries again. *)
Definition retry_condition (config : Models.NetSuiteConfig) (attempt : Z)
    (response : Httpx.Response) : Prop :=
  (Httpx.status_code response = 429 \/ 500 <= Httpx.status_code response)
  /\ attempt < Models.max_retries config.

(** The wait before the next attempt: the parsed header counts for a 429
    only. *)
Definition retry_wait (py_float : string -> option Q)
    (config : Models.NetSuiteConfig) (attempt : Z)
    (response : Httpx.Response) : Q :=
  Retry.calculate_backoff attempt
    (if Httpx.status_code response =? 429
     then Retry.parse_retry_after py_float response else None)
    (Models.retry_backoff_factor config).

(** The longest and the most negative duration whose nanoseconds fit a
    signed 64-bit integer: [(2^63 - 1) / 10^9] and [- 2^63 / 10^9]
    seconds. *)
Definition sleep_max : Q := 9223372036854775807 # 1000000000.
Definition sleep_min : Q := - 9223372036854775808 # 1000000000.

(** What a response with a status below 400 makes the pipeline do. *)
Definition success_result (response : Httpx.Response) : Client.Outcome :=
  if (Httpx.status_code response =? 204)
     || String.eqb (Httpx.content response) ""
  then Client.Returned empty_dict
  else match Httpx.json response with
       | Some body => Client.Returned body
       | None => Client.Failed Client.JSONDecodeError
       end.

(** In a log, only the last call can have returned a final page. *)
Definition final_is_last (l : list Pagination.Fetch) : Prop :=
  forall i c, l !! i = Some c ->
    Models.has_more (Pagination.fetch_page c) = false -> S i = List.length l.

(** The invariant of an iterator and the log of its calls. *)
Definition log_inv {St} (self : Pagination.PageIterator St)
    (w : Pagination.World St) : Prop :=
  final_is_last (Pagination.log w)
  /\ (Pagination._exhausted self = false ->
      forall c, In c (Pagination.log w) ->
        Models.has_more (Pagination.fetch_page c) = true).

(** The value of a hexadecimal digit (upper case). *)
Definition unhex_digit (c : ascii) : N :=
  let n := N_of_ascii c in
  if (n <? 58)%N then (n - 48)%N else (n - 55)%N.

(** Decoding of percent-encoded text: the inverse of
    [TBA._percent_encode]. *)
Fixpoint percent_decode (s : string) : string :=
  match s with
  | EmptyString => EmptyString
  | String c r =>
      if Ascii.eqb c "%" then
        match r with
        | String h (String l r') =>
            String (ascii_of_N (16 * unhex_digit h + unhex_digit l))
              (percent_decode r')
        | _ => String c (percent_decode r)
        end
      else String c (percent_decode r)
  end.

(** The character [c] does not occur in [s]. *)
Fixpoint free_of (c : ascii) (s : string) : Prop :=
  match s with
  | EmptyString => True
  | String a r => a <> c /\ free_of c r
  end.

(** The piece of [urlencode] for one key/value pair. *)
Definition urlencode_item (kv : string * string) : string :=
  TBA._percent_encode (fst kv) +:+ "=" +:+ TBA._percent_encode (snd kv).

(** What a response that is not retried makes of the request. *)
Definition decided_outcome
    (model_validate : Json -> option Models.NetSuiteErrorResponse)
    (py_float : string -> option Q) (response : Httpx.Response)
    : Client.Outcome :=
  if Httpx.status_code response <? 400 then success_result response
  else Client.Raised (Client._build_exception model_validate py_float response).

(** The trace of a run that is decided by call [n + k]: the calls from [n]
    on, each but the last followed by its wait. *)
Fixpoint retried_trace (py_float : string -> option Q)
    (config : Models.NetSuiteConfig)
    (transport : Client.Request -> nat -> Httpx.Response)
    (req : Client.Request) (k : nat) (attempt : Z) (n : nat)
    : list Client.Event :=
  match k with
  | O => [Client.Send n]
  | S k' =>
      Client.Send n
      :: Client.Sleep (retry_wait py_float config attempt (transport req n))
      :: retried_trace py_float config transport req k' (attempt + 1) (S n)
  end.

(** The time slept in a trace. *)
Fixpoint total_sleep (tr : list Client.Event) : Q :=
  match tr with
  | [] => 0
  | Client.Sleep w :: r => (w + total_sleep r)%Q
  | Client.Send _ :: r => total_sleep r
  end.

(** A fetched page is handed on unless it is empty and final. *)
Definition yieldable (page : Models.PaginatedResponse) : bool :=
  negb (Pagination.no_items page && negb (Models.has_more page)).

(** The pages of a log of fetches. *)
Definition fetched_pages (l : list Pagination.Fetch)
    : list Models.PaginatedResponse :=
  List.map Pagination.fetch_page l.

(** Every character of [s] passes the test [p]. *)
Fixpoint all_chars (p : ascii -> bool) (s : string) : bool :=
  match s with
  | EmptyString => true
  | String c r => p c && all_chars p r
  end.

(** [d.get(key)] on a dictionary in insertion order. *)
Fixpoint dict_lookup (key : string) (d : TBA.Dict) : option string :=
  match d with
  | [] => None
  | (k, v) :: r => if String.eqb k key then Some v else dict_lookup key r
  end.

(** The keys of a dictionary, in insertion order. *)
Definition dict_keys (d : TBA.Dict) : list string := List.map fst d.

(** Keys in strictly ascending order. *)
Definition key_lt (x y : string * string) : Prop :=
  String.compare (fst x) (fst y) = Lt.

(** A query string that names no parameter twice and no parameter of the
    OAuth dictionary. *)
Definition plain_query (oauth : TBA.Dict) (request : TBA.Request) : Prop :=
  List.NoDup (dict_keys (TBA.params (TBA.url request)))
  /\ forall k, In k (dict_keys (TBA.params (TBA.url request))) ->
       ~ In k (dict_keys oauth).

(** All the byte strings of length [n]. *)
Fixpoint byte_strings (n : nat) : list (list Z) :=
  match n with
  | O => [[]]
  | S k =>
      List.flat_map (fun b => List.map (cons b) (byte_strings k)) (seqZ 0 256)
  end.

(** One parameter of the [Authorization] header: [name="value"], the
    value percent-encoded. *)
Definition header_part (name value : string) : string :=
  name +:+ "=" +:+ TBA.dq +:+ TBA._percent_encode value +:+ TBA.dq.

(** The text of [n] slashes. *)
Fixpoint slashes (n : nat) : string :=
  match n with
  | O => EmptyString
  | S k => String "/" (slashes k)
  end.

(** The last character of a text, if it has one. *)
Fixpoint last_char (s : string) : option ascii :=
  match s with
  | EmptyString => None
  | String c EmptyString => Some c
  | String _ r => last_char r
  end.

(** What the host label makes of one character of the account id: an
    upper-case ASCII letter becomes the lower-case one, an underscore a
    hyphen, any other character stays. *)
Definition host_char (c : ascii) : ascii :=
  let n := N_of_ascii c in
  if ((65 <=? n) && (n <=? 90))%N then ascii_of_N (n + 32)
  else if Ascii.eqb c "_" then "-"%char
  else c.

(** A character of ASCII. *)
Definition is_ascii (c : ascii) : bool := (N_of_ascii c <? 128)%N.

(** What a host label of an account may hold: no upper-case ASCII letter
    and no underscore. *)
Definition label_char (c : ascii) : bool :=
  let n := N_of_ascii c in
  negb ((65 <=? n) && (n <=? 90))%N && negb (Ascii.eqb c "_").

(** The token exchanges among the requests a flow yields. *)
Fixpoint exchanges (ys : list OAuth2Flow.Yielded) : nat :=
  match ys with
  | [] => O
  | OAuth2Flow.Exchange _ :: r => S (exchanges r)
  | OAuth2Flow.Send _ :: r => exchanges r
  end.

(** The requests a flow sends to the API, in order. *)
Fixpoint sent (ys : list OAuth2Flow.Yielded) : list TBA.Request :=
  match ys with
  | [] => []
  | OAuth2Flow.Exchange _ :: r => sent r
  | OAuth2Flow.Send q :: r => q :: sent r
  end.

(** * Properties *)

(** ** Numbers *)

Lemma Qltb_lt (a b : Q) : Qltb a b = true <-> (a < b)%Q.
Proof.
  unfold Qltb. rewrite negb_true_iff.
  destruct (Qle_bool b a) eqn:E.
  - apply Qle_bool_iff in E. split; [discriminate | intros H; lra].
  - split; [intros _ | reflexivity].
    destruct (Qlt_le_dec a b) as [L | L]; [exact L |].
    apply Qle_bool_iff in L. congruence.
Qed.

Lemma Qltb_ge (a b : Q) : Qltb a b = false <-> (b <= a)%Q.
Proof.
  unfold Qltb. rewrite negb_false_iff. apply Qle_bool_iff.
Qed.

(** ** Backoff *)

Lemma pow2_gt (n : Z) : 0 <= n -> n < 2 ^ n.
Proof.
  intros Hn. pattern n. apply natlike_ind; [reflexivity | | exact Hn].
  intros x Hx IH. rewrite Z.pow_succ_r by exact Hx. lia.
Qed.

Lemma backoff_unbounded (f B : Q) :
  (0 < f)%Q -> exists a, 0 <= a /\ (B < Retry.calculate_backoff a None f)%Q.
Proof.
  intros Hf.
  set (n := Z.max 0 (Qceiling (B / f))).
  exists n. split; [lia |].
  unfold Retry.calculate_backoff, py_pow2.
  replace (0 <=? n) with true by (symmetry; apply Z.leb_le; lia).
  assert (Hc : (B / f <= inject_Z n)%Q).
  { apply Qle_trans with (inject_Z (Qceiling (B / f))).
    - apply Qle_ceiling.
    - rewrite <- Zle_Qle. lia. }
  assert (Hp : (inject_Z n < inject_Z (2 ^ n))%Q).
  { rewrite <- Zlt_Qlt. apply pow2_gt. lia. }
  assert (Hb : (B == (B / f) * f)%Q).
  { field. intros E. rewrite E in Hf. lra. }
  rewrite Hb at 1.
  rewrite (Qmult_comm f).
  apply Qmult_lt_compat_r; [exact Hf |].
  eapply Qle_lt_trans; eassumption.
Qed.

(** C7.  For every attempt index [a >= 0] and factor [f > 0], the backoff
    without a hint is [f * 2^a], it is never capped (it exceeds every bound
    for some attempt), and with a hint [h] the result is [h] whatever [a] and
    [f] are. *)
Theorem calculate_backoff_spec (a : Z) (f : Q) :
  0 <= a -> (0 < f)%Q ->
  Retry.calculate_backoff a None f = (f * inject_Z (2 ^ a))%Q
  /\ (forall h a' f', Retry.calculate_backoff a' (Some h) f' = h)
  /\ (forall B, exists a', 0 <= a' /\ (B < Retry.calculate_backoff a' None f)%Q).
Proof.
  intros Ha Hf. split; [| split].
  - unfold Retry.calculate_backoff, py_pow2.
    replace (0 <=? a) with true by (symmetry; apply Z.leb_le; exact Ha).
    reflexivity.
  - reflexivity.
  - intros B. apply backoff_unbounded. exact Hf.
Qed.

Lemma calculate_backoff_spec_witness :
  0 <= 2 /\ (0 < 1 # 2)%Q /\
  Retry.calculate_backoff 2 None (1 # 2) = ((1 # 2) * inject_Z (2 ^ 2))%Q.
Proof.
  split; [lia |]. split; [reflexivity |].
  apply (calculate_backoff_spec 2 (1 # 2)); [lia | reflexivity].
Defined.

(** ** Token cache *)

(** C3.  The validity check is true exactly when a token is present and the
    clock is strictly before the expiry minus 60 seconds; a cached token with
    expiry [E] is valid at [E - 61] and not valid at [E - 59]. *)
Theorem is_token_valid_spec :
  (forall self now,
     OAuth2._is_token_valid self now = true <->
     (exists t, OAuth2._access_token self = Some t)
     /\ (now < OAuth2._expires_at self - 60)%Q)
  /\ (forall tok E,
        let self := {| OAuth2._access_token := Some tok;
                       OAuth2._expires_at := E |} in
        OAuth2._is_token_valid self (E - 61) = true
        /\ OAuth2._is_token_valid self (E - 59) = false).
Proof.
  split.
  - intros [tok E] now. unfold OAuth2._is_token_valid. simpl.
    destruct tok as [t |].
    + rewrite Qltb_lt. split; [intros H; split; [eauto | exact H] | tauto].
    + split; [discriminate | intros [[t Ht] _]; discriminate].
  - intros tok E. simpl. unfold OAuth2._is_token_valid. simpl. split.
    + apply Qltb_lt. lra.
    + apply Qltb_ge. lra.
Qed.

(** ** Error classifier *)

Lemma status_map_lookup (s : Z) :
  default Exceptions.NetSuiteError (Exceptions.STATUS_EXCEPTION_MAP !! s)
  = kind_of_status s.
Proof.
  unfold Exceptions.STATUS_EXCEPTION_MAP, kind_of_status.
  repeat (rewrite lookup_insert; case_decide; [subst s; reflexivity | ]).
  rewrite lookup_empty. simpl.
  repeat match goal with
         | H : ?c <> s |- _ =>
             let E := fresh in
             destruct (Z.eqb_spec s c) as [E | _]; [congruence | clear H]
         end.
  reflexivity.
Qed.

Example float_of_decimal_tests :
  float_of_decimal "5" = Some 5%Q
  /\ float_of_decimal "2.5" = Some (2 + 5 / 10)%Q
  /\ float_of_decimal "not-a-number" = None.
Proof. repeat split. Qed.

Section Classifier.

Variable model_validate : Json -> option Models.NetSuiteErrorResponse.
Variable py_float : string -> option Q.

Abbreviation build := (Client._build_exception model_validate py_float).
Abbreviation parse := (Client.parse_error_response model_validate).

Lemma build_exception_parsed response error_resp :
  parse response = Some error_resp ->
  Exceptions.cls (build response)
    = default Exceptions.NetSuiteError
        (Exceptions.STATUS_EXCEPTION_MAP !! Httpx.status_code response)
  /\ Exceptions.message (build response)
     = (if String.eqb (Models.title error_resp) ""
        then Client.http_message response else Models.title error_resp)
  /\ Exceptions.error_code (build response)
     = Some (Models.error_code error_resp)
  /\ Exceptions.error_details (build response)
     = Models.error_details error_resp.
Proof.
  intros Hp. unfold Client._build_exception. rewrite Hp.
  case_decide as Hc; simpl; [rewrite Hc |]; repeat split; reflexivity.
Qed.

Lemma build_exception_unparsed response :
  parse response = None ->
  build response
  = {| Exceptions.cls := Exceptions.NetSuiteError;
       Exceptions.message := "HTTP " +:+ pretty (Httpx.status_code response);
       Exceptions.status := Some (Httpx.status_code response);
       Exceptions.error_code := None;
       Exceptions.error_details := [];
       Exceptions.retry_after := None |}.
Proof.
  intros Hp. unfold Client._build_exception. rewrite Hp. reflexivity.
Qed.

Lemma build_exception_retry_after response :
  Exceptions.retry_after (build response)
  = if decide (Exceptions.cls (build response)
               = Exceptions.ConcurrencyLimitError)
    then Some (Retry.parse_retry_after py_float response) else None.
Proof.
  unfold Client._build_exception.
  destruct (parse response) as [e |]; simpl.
  - case_decide as Hc; simpl; [reflexivity |].
    rewrite decide_False by exact Hc. reflexivity.
  - reflexivity.
Qed.

(** C4.  When the body parses as a structured error payload, the class of
    the error is the one the status mapping gives (400 Validation, 401
    Authentication, 403 Authorization, 404 NotFound, 429 ConcurrencyLimit,
    500/502/503 Server, any other status the generic class), and its message
    is the payload's title when that is not empty and ["HTTP <status>"]
    otherwise.  This holds for every status, in particular from 400 on. *)
Theorem build_exception_typed response error_resp :
  Client.parse_error_response model_validate response = Some error_resp ->
  Exceptions.cls (Client._build_exception model_validate py_float
       response)
    = kind_of_status (Httpx.status_code response)
  /\ Exceptions.message (Client._build_exception model_validate py_float
       response)
     = (if decide (Models.title error_resp = "")
        then "HTTP " +:+ pretty (Httpx.status_code response)
        else Models.title error_resp).
Proof.
  intros Hp.
  destruct (build_exception_parsed _ _ Hp) as (Hc & Hm & _).
  split.
  - rewrite Hc. apply status_map_lookup.
  - rewrite Hm. unfold Client.http_message.
    destruct (String.eqb_spec (Models.title error_resp) "") as [E | E].
    + rewrite decide_True by exact E. reflexivity.
    + rewrite decide_False by exact E. reflexivity.
Qed.

(** C5.  When the body does not parse as a structured error payload, the
    error is of the generic class, with the raw status, the message
    ["HTTP <status>"], no provider error code, no detail entries and no
    retry-after attribute; for status 502 this is a generic error with status
    502 and no code, not a Server error. *)
Theorem build_exception_fallback response :
  Client.parse_error_response model_validate response = None ->
  Client._build_exception model_validate py_float response
  = {| Exceptions.cls := Exceptions.NetSuiteError;
       Exceptions.message := "HTTP " +:+ pretty (Httpx.status_code response);
       Exceptions.status := Some (Httpx.status_code response);
       Exceptions.error_code := None;
       Exceptions.error_details := [];
       Exceptions.retry_after := None |}
  /\ (Httpx.status_code response = 502 ->
      Exceptions.cls (Client._build_exception model_validate py_float
       response) <> Exceptions.ServerError
      /\ Exceptions.message (Client._build_exception model_validate py_float
       response) = "HTTP 502"
      /\ Exceptions.status (Client._build_exception model_validate py_float
       response) = Some 502
      /\ Exceptions.error_code (Client._build_exception model_validate py_float
       response) = None).
Proof.
  intros Hp. rewrite (build_exception_unparsed _ Hp).
  split; [reflexivity |]. intros ->. simpl.
  repeat split; discriminate.
Qed.

(** C6, as amended.  Only an error of the ConcurrencyLimit class carries a
    retry-after attribute, and its value is the parsed header; the header
    parses to what [float] makes of it when it is present, and to none when
    it is absent or [float] rejects it; a 429 response whose body parses as
    a structured error payload and whose header is [Retry-After: 5] gives a
    ConcurrencyLimit error with retry-after 5.0. *)
Theorem retry_after_attached response :
  (Exceptions.retry_after (Client._build_exception model_validate py_float
       response) <> None <->
   Exceptions.cls (Client._build_exception model_validate py_float
       response) = Exceptions.ConcurrencyLimitError)
  /\ (Exceptions.cls (Client._build_exception model_validate py_float
       response) = Exceptions.ConcurrencyLimitError ->
      Exceptions.retry_after (Client._build_exception model_validate py_float
       response)
      = Some (Retry.parse_retry_after py_float response))
  /\ (Httpx.get "Retry-After" (Httpx.headers response) = None ->
      Retry.parse_retry_after py_float response = None)
  /\ (forall raw,
        Httpx.get "Retry-After" (Httpx.headers response) = Some raw ->
        Retry.parse_retry_after py_float response = py_float raw)
  /\ (forall error_resp,
        Httpx.status_code response = 429 ->
        Client.parse_error_response model_validate response = Some error_resp ->
        Httpx.get "Retry-After" (Httpx.headers response) = Some "5" ->
        py_float "5" = Some 5%Q ->
        Exceptions.cls (Client._build_exception model_validate py_float
       response) = Exceptions.ConcurrencyLimitError
        /\ Exceptions.retry_after (Client._build_exception model_validate py_float
       response) = Some (Some 5%Q)).
Proof.
  pose proof (build_exception_retry_after response) as Hr.
  split; [split |]; [| | split; [| split; [| split]]].
  - intros Hne. rewrite Hr in Hne. case_decide; [assumption | congruence].
  - intros Hc. rewrite Hr, decide_True by exact Hc. discriminate.
  - intros Hc. rewrite Hr, decide_True by exact Hc. reflexivity.
  - intros Hh. unfold Retry.parse_retry_after. rewrite Hh. reflexivity.
  - intros raw Hh. unfold Retry.parse_retry_after. rewrite Hh. reflexivity.
  - intros error_resp Hs Hp Hh Hf.
    destruct (build_exception_parsed _ _ Hp) as (Hc & _).
    assert (Hk : Exceptions.cls (build response)
                 = Exceptions.ConcurrencyLimitError).
    { rewrite Hc, Hs. reflexivity. }
    split; [exact Hk |].
    rewrite Hr, decide_True by exact Hk.
    unfold Retry.parse_retry_after. rewrite Hh, Hf. reflexivity.
Qed.

End Classifier.

Lemma build_exception_typed_witness :
  Client.parse_error_response Models.validate_error_response Fixtures.resp_400
  <> None
  /\ Exceptions.cls
       (Client._build_exception Models.validate_error_response
          float_of_decimal Fixtures.resp_400)
     = Exceptions.ValidationError
  /\ Exceptions.message
       (Client._build_exception Models.validate_error_response
          float_of_decimal Fixtures.resp_400)
     = "Invalid field value".
Proof.
  split; [discriminate |].
  exact (build_exception_typed Models.validate_error_response
           float_of_decimal Fixtures.resp_400 _ eq_refl).
Defined.

Lemma build_exception_fallback_witness :
  Client.parse_error_response Models.validate_error_response Fixtures.resp_502
  = None
  /\ Exceptions.cls
       (Client._build_exception Models.validate_error_response
          float_of_decimal Fixtures.resp_502)
     <> Exceptions.ServerError
  /\ Exceptions.status
       (Client._build_exception Models.validate_error_response
          float_of_decimal Fixtures.resp_502)
     = Some 502.
Proof.
  split; [reflexivity |].
  destruct (build_exception_fallback Models.validate_error_response
              float_of_decimal Fixtures.resp_502 eq_refl) as [_ H].
  destruct (H eq_refl) as (Hc & _ & Hs & _).
  split; [exact Hc | exact Hs].
Defined.

(** C6 as stated fails: a 429 response carrying [Retry-After: 5] whose body
    is not a structured error payload (here: no body) gives the generic
    error, which has no retry-after attribute. *)
Lemma retry_after_counterexample :
  let exc :=
    Client._build_exception Models.validate_error_response float_of_decimal
      Fixtures.resp_429_empty in
  Httpx.status_code Fixtures.resp_429_empty = 429
  /\ Httpx.get "Retry-After" (Httpx.headers Fixtures.resp_429_empty)
     = Some "5"
  /\ float_of_decimal "5" = Some 5%Q
  /\ Exceptions.cls exc <> Exceptions.ConcurrencyLimitError
  /\ Exceptions.retry_after exc <> Some (Some 5%Q).
Proof.
  repeat split; discriminate.
Qed.

Lemma retry_after_attached_witness :
  Httpx.status_code Fixtures.resp_429 = 429
  /\ Client.parse_error_response Models.validate_error_response
       Fixtures.resp_429 <> None
  /\ Httpx.get "Retry-After" (Httpx.headers Fixtures.resp_429) = Some "5"
  /\ float_of_decimal "5" = Some 5%Q
  /\ Exceptions.retry_after
       (Client._build_exception Models.validate_error_response
          float_of_decimal Fixtures.resp_429)
     = Some (Some 5%Q).
Proof.
  split; [reflexivity |]. split; [discriminate |].
  split; [reflexivity |]. split; [reflexivity |].
  destruct (retry_after_attached Models.validate_error_response
              float_of_decimal Fixtures.resp_429) as (_ & _ & _ & _ & H).
  exact (proj2 (H _ eq_refl eq_refl eq_refl eq_refl)).
Defined.

(** ** Request pipeline *)

Section PipelineFacts.

Variable model_validate : Json -> option Models.NetSuiteErrorResponse.
Variable py_float : string -> option Q.
Variable sleep : Q -> option Client.PyError.
Variable config : Models.NetSuiteConfig.
Variable transport : Client.Request -> nat -> Httpx.Response.
Variable req : Client.Request.

Abbreviation build := (Client._build_exception model_validate py_float).
Abbreviation body := (Client.attempt_body model_validate py_float config).
Abbreviation loop :=
  (Client.request_loop model_validate py_float sleep config transport req).

Lemma attempt_body_success attempt response :
  Httpx.status_code response < 400 ->
  body attempt response = Client.Done (success_result response).
Proof.
  intros Hs. unfold Client.attempt_body, success_result.
  replace (Httpx.status_code response <? 400) with true
    by (symmetry; apply Z.ltb_lt; exact Hs).
  destruct ((Httpx.status_code response =? 204)
            || String.eqb (Httpx.content response) ""); [reflexivity |].
  destruct (Httpx.json response); reflexivity.
Qed.

Lemma attempt_body_again attempt response wait exc :
  body attempt response = Client.Again wait exc ->
  retry_condition config attempt response
  /\ wait = retry_wait py_float config attempt response
  /\ exc = build response.
Proof.
  unfold Client.attempt_body, retry_condition, retry_wait.
  destruct (Z.ltb_spec (Httpx.status_code response) 400) as [Hlt | Hge].
  { destruct (_ || _); [discriminate |].
    destruct (Httpx.json response); discriminate. }
  destruct (Z.eqb_spec (Httpx.status_code response) 429) as [E | E];
    destruct (Z.ltb_spec attempt (Models.max_retries config)) as [La | La];
    destruct (Z.leb_spec 500 (Httpx.status_code response)) as [L5 | L5];
    simpl; intros H; inversion H; subst; clear H;
    (split; [split; [tauto | lia] | split; reflexivity]).
Qed.

Lemma attempt_body_retry attempt response :
  retry_condition config attempt response ->
  body attempt response
  = Client.Again (retry_wait py_float config attempt response)
      (build response).
Proof using Type.
  intros [Hs Ha]. unfold Client.attempt_body, retry_wait.
  replace (Httpx.status_code response <? 400) with false
    by (symmetry; apply Z.ltb_ge; lia).
  replace (attempt <? Models.max_retries config) with true
    by (symmetry; apply Z.ltb_lt; exact Ha).
  destruct (Z.eqb_spec (Httpx.status_code response) 429) as [E | E];
    [reflexivity |].
  replace (500 <=? Httpx.status_code response) with true
    by (symmetry; apply Z.leb_le; lia).
  reflexivity.
Qed.

Lemma attempt_body_raise attempt response :
  400 <= Httpx.status_code response ->
  ~ retry_condition config attempt response ->
  body attempt response = Client.Done (Client.Raised (build response)).
Proof.
  intros Hs Hn. unfold Client.attempt_body, retry_condition in *.
  replace (Httpx.status_code response <? 400) with false
    by (symmetry; apply Z.ltb_ge; exact Hs).
  destruct (Z.eqb_spec (Httpx.status_code response) 429) as [E | E];
    destruct (Z.ltb_spec attempt (Models.max_retries config)) as [La | La];
    destruct (Z.leb_spec 500 (Httpx.status_code response)) as [L5 | L5];
    simpl; try reflexivity; exfalso; apply Hn; split; auto.
Qed.

Lemma request_loop_zero attempt n last :
  loop 0%nat attempt n last
  = (Client.Raised
       (default (Exceptions.init Exceptions.NetSuiteError
                   "Max retries exceeded" None None None) last), []).
Proof. reflexivity. Qed.

Lemma request_loop_calls_pos remaining attempt n last :
  (0 < remaining)%nat ->
  (0 < Client.calls (snd (loop remaining attempt n last)))%nat.
Proof.
  destruct remaining as [| r]; [lia |]. intros _. simpl.
  destruct (body attempt (transport req n)) as [o | w e]; [cbn; lia |].
  destruct (sleep w); [cbn; lia |].
  destruct (loop r (attempt + 1) (S n) (Some e)) as [o tr].
  cbn. lia.
Qed.

(** A trace is calls and waits in turn, and ends with a call, when the
    iterations left cover the attempts left. *)
Lemma request_loop_length remaining : forall attempt n last,
  Models.max_retries config < attempt + Z.of_nat remaining ->
  List.length (snd (loop remaining attempt n last))
  = (2 * Client.calls (snd (loop remaining attempt n last)) - 1)%nat.
Proof.
  induction remaining as [| r IH]; intros attempt n last Hinv;
    [reflexivity |].
  cbn [Client.request_loop].
  destruct (body attempt (transport req n)) as [o | w e] eqn:Hb;
    [reflexivity |].
  destruct (sleep w); [reflexivity |].
  apply attempt_body_again in Hb. destruct Hb as [[_ Hlt] _].
  specialize (IH (attempt + 1) (S n) (Some e) ltac:(lia)).
  pose proof (request_loop_calls_pos r (attempt + 1) (S n) (Some e)
                ltac:(lia)) as Hpos.
  destruct (loop r (attempt + 1) (S n) (Some e)) as [o tr].
  cbn [fst snd] in *.
  change (Client.calls (Client.Send n :: Client.Sleep w :: tr))
    with (S (Client.calls tr)).
  cbn [List.length]. lia.
Qed.

(** The loop, call by call: the [k]-th call of a run that starts at attempt
    [attempt] after [n] earlier calls. *)
Lemma request_loop_spec remaining :
  forall attempt n last,
    let o := fst (loop remaining attempt n last) in
    let tr := snd (loop remaining attempt n last) in
    (Client.calls tr <= remaining)%nat
    /\ forall k, (k < Client.calls tr)%nat ->
         tr !! (2 * k)%nat = Some (Client.Send (n + k))
         /\ match body (attempt + Z.of_nat k) (transport req (n + k)) with
            | Client.Done o' => S k = Client.calls tr /\ o = o'
            | Client.Again w e =>
                match sleep w with
                | None =>
                    tr !! (2 * k + 1)%nat = Some (Client.Sleep w)
                    /\ ((S k < Client.calls tr)%nat
                        \/ (S k = Client.calls tr /\ S k = remaining
                            /\ o = Client.Raised e))
                | Some err =>
                    S k = Client.calls tr /\ o = Client.Failed err
                end
            end.
Proof.
  induction remaining as [| r IH]; intros attempt n last o tr.
  { split; [reflexivity |]. intros k Hk. cbn in Hk. lia. }
  subst o tr. cbn [Client.request_loop].
  destruct (body attempt (transport req n)) as [o0 | w e] eqn:Hb.
  { cbn [fst snd]. split; [cbn; lia |]. intros k Hk. cbn in Hk.
    assert (k = 0)%nat as -> by lia.
    replace (attempt + Z.of_nat 0) with attempt by lia.
    replace (n + 0)%nat with n by lia.
    rewrite Hb. cbn. auto. }
  destruct (sleep w) as [err |] eqn:Hw.
  1:{ cbn [fst snd]. split; [cbn; lia |]. intros k Hk. cbn in Hk.
      assert (k = 0)%nat as -> by lia.
      replace (attempt + Z.of_nat 0) with attempt by lia.
      replace (n + 0)%nat with n by lia.
      rewrite Hb, Hw. cbn. auto. }
  specialize (IH (attempt + 1) (S n) (Some e)).
  pose proof (request_loop_calls_pos r (attempt + 1) (S n) (Some e)) as Hpos.
  destruct (loop r (attempt + 1) (S n) (Some e)) as [o' tr'] eqn:Hl.
  cbn [fst snd] in *. destruct IH as [IHc IHk].
  assert (Hcalls : Client.calls (Client.Send n :: Client.Sleep w :: tr')
                   = S (Client.calls tr')) by reflexivity.
  rewrite Hcalls. split; [lia |].
  intros [| k] Hk.
  - replace (attempt + Z.of_nat 0) with attempt by lia.
    replace (n + 0)%nat with n by lia.
    rewrite Hb, Hw. cbn [Nat.mul Nat.add lookup list_lookup].
    split; [reflexivity |]. split; [reflexivity |].
    destruct r as [| r'].
    + right. rewrite request_loop_zero in Hl. inversion Hl; subst.
      cbn. auto.
    + left. specialize (Hpos ltac:(lia)). lia.
  - destruct (IHk k ltac:(lia)) as [Hs Hm].
    replace (attempt + Z.of_nat (S k)) with (attempt + 1 + Z.of_nat k) by lia.
    replace (n + S k)%nat with (S n + k)%nat by lia.
    replace (2 * S k)%nat with (S (S (2 * k))) by lia.
    split; [exact Hs |].
    destruct (body (attempt + 1 + Z.of_nat k) (transport req (S n + k)))
      as [o1 | w1 e1].
    + destruct Hm as [<- ->]. auto.
    + destruct (sleep w1).
      * destruct Hm as [<- ->]. auto.
      * destruct Hm as [Hsl Hm]. split; [exact Hsl |].
        destruct Hm as [Hm | (Hm1 & Hm2 & Hm3)]; [left; lia | right].
        repeat split; [lia | lia | exact Hm3].
Qed.

Abbreviation run :=
  (Client.request model_validate py_float sleep config transport req).

Hypothesis retries_not_negative : 0 <= Models.max_retries config.

Lemma request_calls_bound :
  Z.of_nat (Client.calls (snd run)) <= Models.max_retries config + 1.
Proof using retries_not_negative.
  unfold Client.request.
  destruct (request_loop_spec
              (Z.to_nat (Models.max_retries config + 1)) 0 0%nat None)
    as [Hc _].
  lia.
Qed.

Lemma request_calls_pos : (0 < Client.calls (snd run))%nat.
Proof using retries_not_negative.
  unfold Client.request. apply request_loop_calls_pos. lia.
Qed.

(** The [k]-th call of a request. *)
Lemma request_call k :
  (k < Client.calls (snd run))%nat ->
  snd run !! (2 * k)%nat = Some (Client.Send k)
  /\ match body (Z.of_nat k) (transport req k) with
     | Client.Done o' => S k = Client.calls (snd run) /\ fst run = o'
     | Client.Again w e =>
         match sleep w with
         | None =>
             snd run !! (2 * k + 1)%nat = Some (Client.Sleep w)
             /\ (S k < Client.calls (snd run))%nat
         | Some err =>
             S k = Client.calls (snd run) /\ fst run = Client.Failed err
         end
     end.
Proof using retries_not_negative.
  intros Hk. unfold Client.request in *.
  destruct (request_loop_spec
              (Z.to_nat (Models.max_retries config + 1)) 0 0%nat None)
    as [_ Hs].
  specialize (Hs k Hk). cbn [Nat.add] in Hs.
  replace (0 + Z.of_nat k) with (Z.of_nat k) in Hs by lia.
  destruct Hs as [Hsend Hm]. split; [exact Hsend |].
  destruct (body (Z.of_nat k) (transport req k)) as [o' | w e] eqn:Hb;
    [exact Hm |].
  destruct (sleep w); [exact Hm |].
  destruct Hm as [Hsl [Hm | (Hm1 & Hm2 & _)]]; [auto |].
  apply attempt_body_again in Hb. destruct Hb as [[_ Hlt] _]. lia.
Qed.

(** The trace of a request: calls and waits in turn, ending with a call. *)
Lemma request_length :
  List.length (snd run) = (2 * Client.calls (snd run) - 1)%nat.
Proof using retries_not_negative.
  unfold Client.request. apply request_loop_length. lia.
Qed.

(** A call that meets the retry condition is followed by its wait and the
    next call, unless the sleep itself raises. *)
Lemma request_retried k :
  (k < Client.calls (snd run))%nat ->
  retry_condition config (Z.of_nat k) (transport req k) ->
  match sleep (retry_wait py_float config (Z.of_nat k) (transport req k)) with
  | None => (S k < Client.calls (snd run))%nat
  | Some err => S k = Client.calls (snd run) /\ fst run = Client.Failed err
  end.
Proof using retries_not_negative.
  intros Hk Hr. destruct (request_call k Hk) as [_ Hm].
  rewrite (attempt_body_retry _ _ Hr) in Hm.
  destruct (sleep _); tauto.
Qed.

Lemma request_retry_only k :
  (S k < Client.calls (snd run))%nat ->
  retry_condition config (Z.of_nat k) (transport req k)
  /\ snd run !! (2 * k + 1)%nat
     = Some (Client.Sleep
               (retry_wait py_float config (Z.of_nat k) (transport req k))).
Proof using retries_not_negative.
  intros Hk. destruct (request_call k ltac:(lia)) as [_ Hm].
  destruct (body (Z.of_nat k) (transport req k)) as [o' | w e] eqn:Hb.
  - lia.
  - apply attempt_body_again in Hb. destruct Hb as (Hr & -> & _).
    destruct (sleep _); [lia |]. tauto.
Qed.

Lemma request_raises k :
  (k < Client.calls (snd run))%nat ->
  400 <= Httpx.status_code (transport req k) ->
  ~ retry_condition config (Z.of_nat k) (transport req k) ->
  S k = Client.calls (snd run)
  /\ fst run = Client.Raised (build (transport req k)).
Proof using retries_not_negative.
  intros Hk Hs Hn. destruct (request_call k Hk) as [_ Hm].
  rewrite (attempt_body_raise _ _ Hs Hn) in Hm. exact Hm.
Qed.

Lemma request_succeeds k :
  (k < Client.calls (snd run))%nat ->
  Httpx.status_code (transport req k) < 400 ->
  S k = Client.calls (snd run)
  /\ fst run = success_result (transport req k).
Proof using retries_not_negative.
  intros Hk Hs. destruct (request_call k Hk) as [_ Hm].
  rewrite (attempt_body_success _ _ Hs) in Hm. exact Hm.
Qed.

Lemma attempt_body_500 attempt response :
  Httpx.status_code response = 500 ->
  body attempt response
  = if attempt <? Models.max_retries config
    then Client.Again
           (Retry.calculate_backoff attempt None
              (Models.retry_backoff_factor config)) (build response)
    else Client.Done (Client.Raised (build response)).
Proof using Type.
  intros Hs. unfold Client.attempt_body. rewrite Hs.
  change (500 <? 400) with false. change (500 =? 429) with false.
  change (500 <=? 500) with true. reflexivity.
Qed.

(** Two calls answered with status 500 under [max_retries = 1], when the
    first wait is accepted by [sleep]. *)
Lemma request_two_500 :
  Models.max_retries config = 1 ->
  sleep (Retry.calculate_backoff 0 None (Models.retry_backoff_factor config))
    = None ->
  Httpx.status_code (transport req 0) = 500 ->
  Httpx.status_code (transport req 1) = 500 ->
  run = (Client.Raised (build (transport req 1%nat)),
         [Client.Send 0;
          Client.Sleep (Retry.calculate_backoff 0 None
                          (Models.retry_backoff_factor config));
          Client.Send 1]).
Proof using Type.
  intros HN Hsl H0 H1. unfold Client.request. rewrite HN.
  change (Z.to_nat (1 + 1)) with 2%nat.
  cbn [Client.request_loop].
  rewrite (attempt_body_500 _ _ H0), (attempt_body_500 _ _ H1), HN.
  change (0 <? 1) with true. change (0 + 1 <? 1) with false.
  cbv iota beta. rewrite Hsl. reflexivity.
Qed.

End PipelineFacts.

(** [time.sleep] takes the durations from 0 to [sleep_max]. *)
Lemma time_sleep_accepts (w : Q) :
  (0 <= w)%Q -> (w <= sleep_max)%Q -> Client.time_sleep w = None.
Proof.
  intros H0 Hm. unfold Client.time_sleep, Client.sleep_ns.
  replace (Qle_bool 0 w) with true by (symmetry; apply Qle_bool_iff; exact H0).
  set (ns := Qceiling (w * 1000000000)).
  assert (Hlo : 0 <= ns).
  { subst ns. rewrite <- (Qceiling_Z 0). apply Qceiling_resp_le.
    change (inject_Z 0) with 0%Q. lra. }
  assert (Hhi : ns <= 9223372036854775807).
  { subst ns. rewrite <- (Qceiling_Z 9223372036854775807).
    apply Qceiling_resp_le. unfold sleep_max in Hm.
    change (inject_Z 9223372036854775807) with 9223372036854775807%Q. lra. }
  change (- 2 ^ 63) with (-9223372036854775808).
  change (2 ^ 63) with 9223372036854775808.
  destruct (Z.ltb_spec ns (- 9223372036854775808)); [lia |].
  destruct (Z.leb_spec 9223372036854775808 ns); [lia |].
  destruct (Z.ltb_spec ns 0); [lia |]. reflexivity.
Qed.

(** [time.sleep] raises on every negative duration: [ValueError] down to
    [sleep_min], [OverflowError] below. *)
Lemma time_sleep_negative (w : Q) :
  (w < 0)%Q ->
  Client.time_sleep w
  = Some (if Qle_bool sleep_min w then Client.ValueError
          else Client.OverflowError).
Proof.
  intros Hneg. unfold Client.time_sleep, Client.sleep_ns.
  replace (Qle_bool 0 w) with false.
  2:{ symmetry. apply not_true_is_false. intros H.
      apply Qle_bool_iff in H. lra. }
  set (ns := Qfloor (w * 1000000000)).
  pose proof (Qfloor_le (w * 1000000000)) as Hfl. fold ns in Hfl.
  pose proof (Qlt_floor (w * 1000000000)) as Hlt. fold ns in Hlt.
  assert (Hn : ns < 0).
  { apply Z.lt_nge. intros H0. rewrite Zle_Qle in H0.
    change (inject_Z 0) with 0%Q in H0. lra. }
  change (- 2 ^ 63) with (-9223372036854775808).
  change (2 ^ 63) with 9223372036854775808.
  destruct (Z.leb_spec 9223372036854775808 ns); [lia |].
  cbn [orb]. rewrite orb_false_r.
  destruct (Z.ltb_spec ns (- 9223372036854775808)) as [Ho | Ho].
  - replace (Qle_bool sleep_min w) with false; [reflexivity |].
    symmetry. apply not_true_is_false. intros Hle.
    apply Qle_bool_iff in Hle. unfold sleep_min in Hle.
    assert (Hz : (inject_Z (ns + 1) <= inject_Z (- 9223372036854775808))%Q)
      by (rewrite <- Zle_Qle; lia).
    change (inject_Z (- 9223372036854775808))
      with (- 9223372036854775808)%Q in Hz. lra.
  - replace (Qle_bool sleep_min w) with true.
    + destruct (Z.ltb_spec ns 0); [reflexivity | lia].
    + symmetry. apply Qle_bool_iff. unfold sleep_min.
      rewrite Zle_Qle in Ho.
      change (inject_Z (- 9223372036854775808))
        with (- 9223372036854775808)%Q in Ho. lra.
Qed.

Lemma time_sleep_zero_factor (f : Q) :
  (f == 0)%Q -> Client.time_sleep (Retry.calculate_backoff 0 None f) = None.
Proof.
  intros Hf.
  assert (Hw : (Retry.calculate_backoff 0 None f == 0)%Q).
  { unfold Retry.calculate_backoff, py_pow2. cbn [Z.leb Z.compare Z.pow
      Z.pow_pos Pos.iter Z.mul Pos.mul]. rewrite Hf. lra. }
  apply time_sleep_accepts; unfold sleep_max; lra.
Qed.

Lemma server_error_iff_parsed model_validate py_float response :
  Httpx.status_code response = 500 ->
  Exceptions.cls (Client._build_exception model_validate py_float
       response)
  = Exceptions.ServerError
  <-> Client.parse_error_response model_validate response <> None.
Proof.
  intros Hs.
  destruct (Client.parse_error_response model_validate response) as [e |] eqn:Hp.
  - destruct (build_exception_parsed model_validate py_float _ _ Hp)
      as (Hc & _).
    rewrite Hc, Hs. split; [discriminate | reflexivity].
  - rewrite (build_exception_unparsed model_validate py_float _ Hp). simpl.
    split; [discriminate | congruence].
Qed.

(** C1, as amended.  With [max_retries = N >= 0], in [_request_sync] and in
    [_request_async] alike: at least one and at most [N + 1] physical calls
    are made, and the run is the calls in turn, each but the last followed
    by exactly one wait and nothing after the last; a call is followed by a
    wait and another call only when its status is 429 or at least 500 and
    its attempt index is below [N], the wait being the backoff of that
    attempt (with the parsed [Retry-After] for a 429); a call whose status
    is at least 400 and which does not meet that condition is the last
    event of the run, and the error classified from its response is raised;
    a call that meets the condition is followed by its wait and the next
    call, unless [time.sleep] refuses the wait, which ends the blocking
    pipeline with the error of [time.sleep].  When every response has
    status 500, [N] is 1 and the backoff factor is 0, exactly two calls are
    made and the error classified from the second response is raised; it is
    a Server error exactly when the body of that response parses as a
    structured error payload. *)
Theorem request_retry_spec model_validate py_float config transport req :
  0 <= Models.max_retries config ->
  forall run,
    In run
      [Client._request_sync model_validate py_float config transport req;
       Client._request_async model_validate py_float config transport req] ->
    (0 < Client.calls (snd run))%nat
    /\ Z.of_nat (Client.calls (snd run)) <= Models.max_retries config + 1
    /\ List.length (snd run) = (2 * Client.calls (snd run) - 1)%nat
    /\ (forall k, (k < Client.calls (snd run))%nat ->
          snd run !! (2 * k)%nat = Some (Client.Send k))
    /\ (forall k, (S k < Client.calls (snd run))%nat ->
          retry_condition config (Z.of_nat k) (transport req k)
          /\ snd run !! (2 * k + 1)%nat
             = Some (Client.Sleep
                       (retry_wait py_float config (Z.of_nat k)
                          (transport req k))))
    /\ (forall k, (k < Client.calls (snd run))%nat ->
          400 <= Httpx.status_code (transport req k) ->
          ~ retry_condition config (Z.of_nat k) (transport req k) ->
          S k = Client.calls (snd run)
          /\ fst run
             = Client.Raised
                 (Client._build_exception model_validate py_float
                    (transport req k)))
    /\ (forall k, (k < Client.calls (snd run))%nat ->
          retry_condition config (Z.of_nat k) (transport req k) ->
          (S k < Client.calls (snd run))%nat
          \/ (run = Client._request_sync model_validate py_float config
                      transport req
              /\ S k = Client.calls (snd run)
              /\ exists err,
                   Client.time_sleep
                     (retry_wait py_float config (Z.of_nat k)
                        (transport req k)) = Some err
                   /\ fst run = Client.Failed err))
    /\ (Models.max_retries config = 1 ->
        (Models.retry_backoff_factor config == 0)%Q ->
        (forall n, Httpx.status_code (transport req n) = 500) ->
        Client.calls (snd run) = 2%nat
        /\ fst run
           = Client.Raised
               (Client._build_exception model_validate py_float
                  (transport req 1%nat))
        /\ (Exceptions.cls
              (Client._build_exception model_validate py_float
                 (transport req 1%nat)) = Exceptions.ServerError
            <-> Client.parse_error_response model_validate (transport req 1%nat)
                <> None)).
Proof.
  intros HN run Hrun.
  assert (Hsl : exists sleep,
             run = Client.request model_validate py_float sleep config
                     transport req
             /\ (forall f, (f == 0)%Q ->
                   sleep (Retry.calculate_backoff 0 None f) = None)
             /\ (forall w err, sleep w = Some err ->
                   run = Client._request_sync model_validate py_float config
                           transport req
                   /\ Client.time_sleep w = Some err)).
  { destruct Hrun as [<- | [<- | []]].
    - exists Client.time_sleep. split; [reflexivity |].
      split; [apply time_sleep_zero_factor | auto].
    - exists Client.asyncio_sleep. split; [reflexivity |].
      split; [reflexivity | discriminate]. }
  destruct Hsl as (sleep & Hrun' & Hzero & Hfail).
  rewrite Hrun' in *. clear Hrun.
  split; [apply request_calls_pos; exact HN |].
  split; [apply request_calls_bound; exact HN |].
  split; [apply request_length; exact HN |].
  split; [intros k Hk; apply request_call; assumption |].
  split; [intros k Hk; apply request_retry_only; assumption |].
  split; [intros k Hk Hs Hn; apply request_raises; assumption |].
  split.
  - intros k Hk Hr.
    pose proof (request_retried model_validate py_float sleep config
                  transport req HN k Hk Hr) as Hm.
    destruct (sleep _) as [err |] eqn:Hw; [right | left; exact Hm].
    destruct (Hfail _ _ Hw) as [Hsync Hts].
    destruct Hm as [Hlast Ho]. rewrite <- Hsync. eauto.
  - intros H1 Hf H500.
    rewrite (request_two_500 model_validate py_float sleep config transport
               req H1 (Hzero _ Hf) (H500 0%nat) (H500 1%nat)).
    split; [reflexivity |]. split; [reflexivity |].
    apply server_error_iff_parsed. apply H500.
Qed.

Lemma request_retry_spec_witness :
  let run :=
    Client._request_sync Models.validate_error_response float_of_decimal
      Fixtures.config_one_retry (Fixtures.always Fixtures.resp_500)
      (Fixtures.get_customer "1") in
  0 <= Models.max_retries Fixtures.config_one_retry
  /\ Client.calls (snd run) = 2%nat
  /\ fst run
     = Client.Raised
         (Client._build_exception Models.validate_error_response
            float_of_decimal Fixtures.resp_500).
Proof.
  intros run. split; [cbn; lia |].
  destruct (request_retry_spec Models.validate_error_response
              float_of_decimal Fixtures.config_one_retry
              (Fixtures.always Fixtures.resp_500) (Fixtures.get_customer "1")
              ltac:(cbn; lia) run (or_introl eq_refl))
    as (_ & _ & _ & _ & _ & _ & _ & H).
  destruct (H eq_refl (Qeq_refl 0) (fun _ => eq_refl)) as (Hc & Ho & _).
  exact (conj Hc Ho).
Defined.

(** C1 as stated fails in its last part: with [max_retries = 1], backoff
    factor 0 and every response of status 500, two calls are made, but when
    the body of the response is not a structured error payload the error
    raised is the generic one, not a Server error. *)
Lemma request_retry_counterexample :
  let run :=
    Client._request_sync Models.validate_error_response float_of_decimal
      Fixtures.config_one_retry (Fixtures.always Fixtures.resp_500_text)
      (Fixtures.get_customer "1") in
  Models.max_retries Fixtures.config_one_retry = 1
  /\ Models.retry_backoff_factor Fixtures.config_one_retry = 0%Q
  /\ (forall n,
        Httpx.status_code
          (Fixtures.always Fixtures.resp_500_text
             (Fixtures.get_customer "1") n) = 500)
  /\ Client.calls (snd run) = 2%nat
  /\ exists exc,
       fst run = Client.Raised exc
       /\ Exceptions.cls exc = Exceptions.NetSuiteError
       /\ Exceptions.cls exc <> Exceptions.ServerError.
Proof.
  repeat split.
  eexists. split; [reflexivity |]. split; [reflexivity | discriminate].
Qed.

(** C9, as amended.  In [_request_sync] and [_request_async], with
    [max_retries >= 0], a call is always made, and a call answered with a
    status below 400 is the last one: the result is the empty object (not
    null) when the status is 204 or the body is empty; otherwise it is the
    decoded body when the body is JSON, and the decoder's error gets out when
    it is not. *)
Theorem request_success_spec model_validate py_float config transport req :
  0 <= Models.max_retries config ->
  forall run,
    In run
      [Client._request_sync model_validate py_float config transport req;
       Client._request_async model_validate py_float config transport req] ->
    (0 < Client.calls (snd run))%nat
    /\ empty_dict <> JNull
    /\ forall k, (k < Client.calls (snd run))%nat ->
         let response := transport req k in
         Httpx.status_code response < 400 ->
         S k = Client.calls (snd run)
         /\ (Httpx.status_code response = 204
             \/ Httpx.content response = "" ->
             fst run = Client.Returned empty_dict)
         /\ (Httpx.status_code response <> 204 ->
             Httpx.content response <> "" ->
             fst run = match Httpx.json response with
                       | Some body => Client.Returned body
                       | None => Client.Failed Client.JSONDecodeError
                       end).
Proof.
  intros HN run Hrun.
  assert (Hsl : exists sleep,
             run = Client.request model_validate py_float sleep config
                     transport req).
  { destruct Hrun as [<- | [<- | []]]; eexists; reflexivity. }
  destruct Hsl as (sleep & ->).
  split; [apply request_calls_pos; exact HN |].
  split; [discriminate |].
  intros k Hk response Hs.
  destruct (request_succeeds model_validate py_float sleep config transport
              req HN k Hk Hs) as [Hlast Ho].
  split; [exact Hlast |]. rewrite Ho. unfold success_result.
  fold response. split.
  - intros [H204 | Hempty].
    + rewrite H204. reflexivity.
    + rewrite Hempty. rewrite orb_true_r. reflexivity.
  - intros H204 Hcontent.
    destruct (Z.eqb_spec (Httpx.status_code response) 204); [contradiction |].
    destruct (String.eqb_spec (Httpx.content response) "");
      [contradiction | reflexivity].
Qed.

Lemma request_success_spec_witness :
  let run :=
    Client._request_sync Models.validate_error_response float_of_decimal
      Fixtures.config_default (Fixtures.always Fixtures.resp_204)
      (Fixtures.get_customer "42") in
  0 <= Models.max_retries Fixtures.config_default
  /\ Httpx.status_code Fixtures.resp_204 < 400
  /\ fst run = Client.Returned empty_dict.
Proof.
  intros run. split; [cbn; lia |]. split; [cbn; lia |].
  destruct (request_success_spec Models.validate_error_response
              float_of_decimal Fixtures.config_default
              (Fixtures.always Fixtures.resp_204) (Fixtures.get_customer "42")
              ltac:(cbn; lia) run (or_introl eq_refl)) as (_ & _ & H).
  destruct (H 0%nat ltac:(vm_compute; lia) ltac:(vm_compute; reflexivity))
    as (_ & He & _).
  apply He. left. reflexivity.
Defined.

(** C9 as stated fails: a response of status 200 whose body is not empty
    and is not JSON does not make the pipeline succeed; the decoder's error
    gets out after one call. *)
Lemma request_success_counterexample :
  let run :=
    Client._request_sync Models.validate_error_response float_of_decimal
      Fixtures.config_default (Fixtures.always Fixtures.resp_200_html)
      (Fixtures.get_customer "42") in
  Httpx.status_code Fixtures.resp_200_html < 400
  /\ snd run = [Client.Send 0]
  /\ fst run = Client.Failed Client.JSONDecodeError
  /\ forall result, fst run <> Client.Returned result.
Proof.
  repeat split. intros result. discriminate.
Qed.

(** ** Pagination *)

Section PaginationFacts.

Import Pagination.

Variable St : Type.

Lemma anext_is_next : @__anext__ St = @__next__ St.
Proof. reflexivity. Qed.

(** One step of a live iterator. *)
Lemma next_live (self : PageIterator St) w :
  _exhausted self = false ->
  let page := (_fetch_page self (_limit self) (_offset self) (state w)).1 in
  let st := (_fetch_page self (_limit self) (_offset self) (state w)).2 in
  let r := __next__ self w in
  r.2 = {| state := st;
           log := log w ++ [{| fetch_limit := _limit self;
                               fetch_offset := _offset self;
                               fetch_page := page |}] |}
  /\ _fetch_page r.1.2 = _fetch_page self
  /\ _limit r.1.2 = _limit self
  /\ _offset r.1.2
     = (if Models.has_more page then _offset self + _limit self
        else _offset self)
  /\ _exhausted r.1.2 = negb (Models.has_more page)
  /\ r.1.1 = (if no_items page && negb (Models.has_more page)
              then None else Some page).
Proof.
  intros He page st r. subst r. unfold __next__, call_fetch. rewrite He.
  subst page st.
  destruct (_fetch_page self (_limit self) (_offset self) (state w))
    as [page st].
  cbn [fst snd].
  destruct (Models.has_more page); destruct (no_items page); cbn; auto 10.
Qed.

(** An exhausted iterator stops without calling the callback. *)
Lemma next_exhausted (self : PageIterator St) w :
  _exhausted self = true -> __next__ self w = (None, self, w).
Proof. intros He. unfold __next__. rewrite He. reflexivity. Qed.

Lemma no_items_nil page : no_items page = true <-> Models.items page = [].
Proof.
  unfold no_items. destruct (Models.items page); split; congruence.
Qed.

Lemma next_yield (self : PageIterator St) w page :
  (__next__ self w).1.1 = Some page ->
  ~ (Models.items page = [] /\ Models.has_more page = false).
Proof.
  destruct (_exhausted self) eqn:He.
  { rewrite (next_exhausted _ _ He). discriminate. }
  destruct (next_live self w He) as (_ & _ & _ & _ & _ & Hr).
  rewrite Hr. clear Hr.
  set (p := (_fetch_page self (_limit self) (_offset self) (state w)).1).
  destruct (no_items p) eqn:Hn; destruct (Models.has_more p) eqn:Hm;
    cbn; intros H; inversion H; subst page; intros [Hi Hf];
    try congruence.
  apply no_items_nil in Hi. congruence.
Qed.

Lemma nexts_yield n : forall (self : PageIterator St) w page,
  In page (nexts __next__ n self w).1.1 ->
  ~ (Models.items page = [] /\ Models.has_more page = false).
Proof.
  induction n as [| n IH]; intros self w page; cbn [nexts].
  { intros []. }
  pose proof (next_yield self w) as Hy.
  destruct (__next__ self w) as [[r self'] w'].
  specialize (IH self' w').
  destruct (nexts __next__ n self' w') as [[ps self''] w''].
  cbn [fst snd] in *. destruct r as [p |]; [| apply IH].
  intros [<- | Hin]; [apply Hy; reflexivity | apply IH; exact Hin].
Qed.

Lemma pages_yield fuel : forall (self : PageIterator St) w page,
  In page (pages __next__ fuel self w).1.1.1 ->
  ~ (Models.items page = [] /\ Models.has_more page = false).
Proof.
  induction fuel as [| fuel IH]; intros self w page; cbn [pages].
  { intros []. }
  pose proof (next_yield self w) as Hy.
  destruct (__next__ self w) as [[r self'] w'].
  destruct r as [p |]; [| intros []].
  specialize (IH self' w').
  destruct (pages __next__ fuel self' w') as [[[ps self''] w''] stopped].
  cbn [fst snd] in *.
  intros [<- | Hin]; [apply Hy; reflexivity | apply IH; exact Hin].
Qed.

Lemma next_inv (self : PageIterator St) w :
  log_inv self w -> log_inv (__next__ self w).1.2 (__next__ self w).2.
Proof.
  intros [Hf Hl].
  destruct (_exhausted self) eqn:He.
  { rewrite (next_exhausted _ _ He). cbn. split; [exact Hf |].
    rewrite He. discriminate. }
  specialize (Hl eq_refl).
  destruct (next_live self w He) as (Hw & _ & _ & _ & Hex & _).
  rewrite Hw. unfold log_inv. rewrite Hex. cbn [log].
  set (c := {| fetch_limit := _limit self; fetch_offset := _offset self;
               fetch_page :=
                 (_fetch_page self (_limit self) (_offset self) (state w)).1 |}).
  split.
  - intros i c' Hi Hm. rewrite length_app. cbn.
    destruct (decide (i < List.length (log w))%nat) as [Hlt | Hge].
    + rewrite lookup_app_l in Hi by exact Hlt.
      apply list_elem_of_lookup_2, list_elem_of_In, Hl in Hi. congruence.
    + apply lookup_lt_Some in Hi. rewrite length_app in Hi. cbn in Hi. lia.
  - intros Hm c' Hin. apply in_app_iff in Hin.
    destruct Hin as [Hin | [<- | []]]; [apply Hl; exact Hin |].
    cbn. apply negb_false_iff in Hm. exact Hm.
Qed.

Lemma nexts_inv n : forall (self : PageIterator St) w,
  log_inv self w -> final_is_last (log (nexts __next__ n self w).2).
Proof.
  induction n as [| n IH]; intros self w Hinv; cbn [nexts].
  { exact (proj1 Hinv). }
  pose proof (next_inv self w Hinv) as Hstep.
  destruct (__next__ self w) as [[r self'] w'].
  specialize (IH self' w' Hstep).
  destruct (nexts __next__ n self' w') as [[ps self''] w''].
  exact IH.
Qed.

Lemma init_inv fetch limit offset (st : St) :
  log_inv (__init__ fetch limit offset) {| state := st; log := [] |}.
Proof.
  split.
  - intros i c Hi. cbn in Hi. discriminate.
  - intros _ c [].
Qed.

End PaginationFacts.

Section PaginationClaims.

Import Pagination.

Variable St : Type.

(** The step of a live iterator as an equation. *)
Lemma next_eq (self : PageIterator St) w page st :
  _exhausted self = false ->
  _fetch_page self (_limit self) (_offset self) (state w) = (page, st) ->
  __next__ self w
  = (if no_items page && negb (Models.has_more page) then None
     else Some page,
     {| _fetch_page := _fetch_page self;
        _limit := _limit self;
        _offset := if Models.has_more page then _offset self + _limit self
                   else _offset self;
        _exhausted := negb (Models.has_more page) |},
     {| state := st;
        log := log w ++ [{| fetch_limit := _limit self;
                            fetch_offset := _offset self;
                            fetch_page := page |}] |}).
Proof.
  intros He Hf. unfold __next__, call_fetch. rewrite He, Hf.
  destruct (Models.has_more page); destruct (no_items page); reflexivity.
Qed.

Lemma pages_two (fetch : FetchPage St) limit s0 s1 s2 p1 p2 fuel :
  fetch limit 0 s0 = (p1, s1) ->
  Models.has_more p1 = true ->
  fetch limit (0 + limit) s1 = (p2, s2) ->
  Models.items p2 <> [] ->
  Models.has_more p2 = false ->
  pages __next__ (3 + fuel) (__init__ fetch limit 0)
    {| state := s0; log := [] |}
  = ([p1; p2],
     {| _fetch_page := fetch; _limit := limit; _offset := 0 + limit;
        _exhausted := true |},
     {| state := s2;
        log := [{| fetch_limit := limit; fetch_offset := 0;
                   fetch_page := p1 |};
                {| fetch_limit := limit; fetch_offset := 0 + limit;
                   fetch_page := p2 |}] |},
     true).
Proof.
  intros H1 Hm1 H2 Hi2 Hm2.
  change (3 + fuel)%nat with (S (S (S fuel))). cbn [pages].
  rewrite (next_eq (__init__ fetch limit 0) {| state := s0; log := [] |}
             p1 s1 eq_refl H1).
  rewrite Hm1, andb_false_r. cbn [negb state log app _fetch_page _limit
    _offset _exhausted __init__].
  rewrite (next_eq
             {| _fetch_page := fetch; _limit := limit; _offset := 0 + limit;
                _exhausted := false |}
             {| state := s1;
                log := [{| fetch_limit := limit; fetch_offset := 0;
                           fetch_page := p1 |}] |}
             p2 s2 eq_refl H2).
  assert (Hn : no_items p2 = false).
  { destruct (no_items p2) eqn:E; [| reflexivity].
    apply no_items_nil in E. contradiction. }
  rewrite Hm2, Hn. cbn [andb negb state log app _fetch_page _limit
    _offset _exhausted].
  rewrite next_exhausted by reflexivity. reflexivity.
Qed.

Lemma pages_none (fetch : FetchPage St) limit s0 s1 p fuel :
  fetch limit 0 s0 = (p, s1) ->
  Models.items p = [] ->
  Models.has_more p = false ->
  pages __next__ (S fuel) (__init__ fetch limit 0)
    {| state := s0; log := [] |}
  = ([],
     {| _fetch_page := fetch; _limit := limit; _offset := 0;
        _exhausted := true |},
     {| state := s1;
        log := [{| fetch_limit := limit; fetch_offset := 0;
                   fetch_page := p |}] |},
     true).
Proof.
  intros H1 Hi Hm. cbn [pages].
  rewrite (next_eq (__init__ fetch limit 0) {| state := s0; log := [] |}
             p s1 eq_refl H1).
  apply no_items_nil in Hi. rewrite Hi, Hm. reflexivity.
Qed.

(** C8.  The iterator starts at offset 0; a live iterator calls the callback
    with its limit and offset, and moves the offset on by the limit exactly
    when the page reports more.  When the first call returns the items
    [i1, i2] with more available and the second the item [i3] with no more,
    the flattened items are [i1, i2, i3], the iteration then ends, and the
    offsets requested are 0 and the limit.  When the first page has no items
    and reports no more, no page is yielded. *)
Theorem pagination_spec (fetch : FetchPage St) (limit : Z) :
  _offset (__init__ fetch limit 0) = 0
  /\ _exhausted (__init__ fetch limit 0) = false
  /\ (forall (self : PageIterator St) w,
        _exhausted self = false ->
        let page :=
          (_fetch_page self (_limit self) (_offset self) (state w)).1 in
        log (__next__ self w).2
        = log w ++ [{| fetch_limit := _limit self;
                       fetch_offset := _offset self;
                       fetch_page := page |}]
        /\ _limit (__next__ self w).1.2 = _limit self
        /\ _offset (__next__ self w).1.2
           = (if Models.has_more page then _offset self + _limit self
              else _offset self)
        /\ _exhausted (__next__ self w).1.2 = negb (Models.has_more page))
  /\ (forall s0 s1 s2 p1 p2 i1 i2 i3 fuel,
        fetch limit 0 s0 = (p1, s1) ->
        Models.items p1 = [i1; i2] -> Models.has_more p1 = true ->
        fetch limit limit s1 = (p2, s2) ->
        Models.items p2 = [i3] -> Models.has_more p2 = false ->
        let r := iter_items_sync fetch limit (3 + fuel)
                   {| state := s0; log := [] |} in
        r.1.1 = [i1; i2; i3]
        /\ r.2 = true
        /\ List.map fetch_offset (log r.1.2) = [0; limit])
  /\ (forall s0 s1 p fuel,
        fetch limit 0 s0 = (p, s1) ->
        Models.items p = [] -> Models.has_more p = false ->
        let r := pages __next__ (S fuel) (__init__ fetch limit 0)
                   {| state := s0; log := [] |} in
        r.1.1.1 = [] /\ r.2 = true).
Proof.
  split; [reflexivity |]. split; [reflexivity |]. split; [| split].
  - intros self w He page.
    destruct (next_live St self w He) as (Hw & _ & Hl & Ho & Hx & _).
    rewrite Hw. cbn [log]. auto.
  - intros s0 s1 s2 p1 p2 i1 i2 i3 fuel H1 Hi1 Hm1 H2 Hi2 Hm2 r.
    subst r. unfold iter_items_sync.
    rewrite (pages_two fetch limit s0 s1 s2 p1 p2 fuel H1 Hm1 H2
               ltac:(rewrite Hi2; discriminate) Hm2).
    cbn. rewrite Hi1, Hi2. auto.
  - intros s0 s1 p fuel H1 Hi Hm r. subst r.
    rewrite (pages_none fetch limit s0 s1 p fuel H1 Hi Hm). auto.
Qed.

(** C10.  For [SyncPageIterator] and [AsyncPageIterator] alike and for any
    callback: wherever the iterator stands, a fetched page that has no items
    and reports no more makes it stop there without yielding the page; no
    page it ever yields is both empty and final; and in the log of the calls
    it makes, only the last can have returned a page reporting no more: the
    callback is not invoked again after such a page. *)
Theorem page_iterator_stops_at_final (next : Next St) :
  In next [__next__; __anext__] ->
  (forall self w page st,
     _exhausted self = false ->
     _fetch_page self (_limit self) (_offset self) (state w) = (page, st) ->
     Models.items page = [] -> Models.has_more page = false ->
     (next self w).1.1 = None /\ _exhausted (next self w).1.2 = true)
  /\ (forall n self w page,
        In page (nexts next n self w).1.1 ->
        ~ (Models.items page = [] /\ Models.has_more page = false))
  /\ (forall fuel self w page,
        In page (pages next fuel self w).1.1.1 ->
        ~ (Models.items page = [] /\ Models.has_more page = false))
  /\ (forall self w,
        _exhausted self = true -> next self w = (None, self, w))
  /\ (forall self w,
        _exhausted self = false ->
        Models.has_more
          (_fetch_page self (_limit self) (_offset self) (state w)).1 = false ->
        _exhausted (next self w).1.2 = true)
  /\ (forall n fetch limit offset st i c,
        let w := (nexts next n (__init__ fetch limit offset)
                    {| state := st; log := [] |}).2 in
        log w !! i = Some c ->
        Models.has_more (fetch_page c) = false ->
        S i = List.length (log w)).
Proof.
  intros Hnext.
  assert (next = __next__) as ->.
  { destruct Hnext as [<- | [<- | []]]; reflexivity. }
  split; [| split; [| split; [| split; [| split]]]].
  - intros self w page st He Hf Hi Hm.
    rewrite (next_eq self w page st He Hf).
    apply no_items_nil in Hi. rewrite Hi, Hm. auto.
  - intros n self w page. apply nexts_yield.
  - intros fuel self w page. apply pages_yield.
  - intros self w. apply next_exhausted.
  - intros self w He Hm.
    destruct (next_live St self w He) as (_ & _ & _ & _ & Hx & _).
    rewrite Hx, Hm. reflexivity.
  - intros n fetch limit offset st i c w.
    exact (nexts_inv St n _ _ (init_inv St fetch limit offset st) i c).
Qed.

End PaginationClaims.

Lemma pagination_spec_witness :
  let r := Pagination.iter_items_sync Fixtures.fetch_two_pages 10 3
             {| Pagination.state := tt; Pagination.log := [] |} in
  Fixtures.fetch_two_pages 10 0 tt
  = (Fixtures._make_page [Fixtures.record_id 1; Fixtures.record_id 2] true 0,
     tt)
  /\ r.1.1 = [Fixtures.record_id 1; Fixtures.record_id 2; Fixtures.record_id 3]
  /\ r.2 = true
  /\ List.map Pagination.fetch_offset (Pagination.log r.1.2) = [0; 10].
Proof.
  intros r. split; [reflexivity |].
  destruct (pagination_spec unit Fixtures.fetch_two_pages 10)
    as (_ & _ & _ & H & _).
  exact (H tt tt tt _ _ _ _ _ 0%nat eq_refl eq_refl eq_refl eq_refl eq_refl
           eq_refl).
Defined.

Lemma page_iterator_stops_at_final_witness :
  let script :=
    [Fixtures._make_page [Fixtures.record_id 1] true 0;
     Fixtures._make_page [] false 10] in
  let w0 := {| Pagination.state := script; Pagination.log := [] |} in
  let first :=
    Pagination.__next__ (Pagination.__init__ Fixtures.fetch_script 10 0) w0 in
  Pagination._exhausted first.1.2 = false
  /\ (Pagination.__next__ first.1.2 first.2).1.1 = None
  /\ Pagination._exhausted (Pagination.__next__ first.1.2 first.2).1.2 = true.
Proof.
  intros script w0 first. split; [reflexivity |].
  destruct (page_iterator_stops_at_final (list Models.PaginatedResponse)
              Pagination.__next__ (or_introl eq_refl)) as (H & _).
  exact (H first.1.2 first.2 _ _ eq_refl eq_refl eq_refl eq_refl).
Defined.

(** ** Token-based signing *)

Section TBAFacts.

Import TBA.

Ltac byte_cases c := destruct c as [[] [] [] [] [] [] [] []].

Lemma hex_roundtrip (c : ascii) :
  ascii_of_N (16 * unhex_digit (hex_digit (N_of_ascii c / 16))
              + unhex_digit (hex_digit (N_of_ascii c mod 16))) = c.
Proof. byte_cases c; reflexivity. Qed.

Lemma unreserved_not_percent (c : ascii) :
  unreserved c = true -> Ascii.eqb c "%" = false.
Proof.
  intros U. destruct (Ascii.eqb_spec c "%") as [-> | _];
    [discriminate U | reflexivity].
Qed.

Lemma decode_encode (s : string) : percent_decode (_percent_encode s) = s.
Proof.
  induction s as [| c r IH]; [reflexivity |].
  cbn [_percent_encode]. destruct (unreserved c) eqn:U.
  - cbn [percent_decode]. rewrite (unreserved_not_percent c U), IH.
    reflexivity.
  - cbn [percent_decode].
    change (Ascii.eqb "%" "%") with true. cbv iota.
    rewrite hex_roundtrip, IH. reflexivity.
Qed.

Lemma percent_encode_inj (s t : string) :
  _percent_encode s = _percent_encode t -> s = t.
Proof.
  intros H. rewrite <- (decode_encode s), <- (decode_encode t), H.
  reflexivity.
Qed.

(** Neither [&] nor [=] occurs in percent-encoded text. *)
Lemma encoded_byte_free (c sep : ascii) :
  sep = "&"%char \/ sep = "="%char ->
  (unreserved c = true -> c <> sep)
  /\ hex_digit (N_of_ascii c / 16) <> sep
  /\ hex_digit (N_of_ascii c mod 16) <> sep.
Proof.
  intros [-> | ->]; byte_cases c; (split; [| split]); discriminate.
Qed.

Lemma percent_encode_free (sep : ascii) (s : string) :
  sep = "&"%char \/ sep = "="%char -> free_of sep (_percent_encode s).
Proof.
  intros Hsep. induction s as [| c r IH]; [exact I |].
  destruct (encoded_byte_free c sep Hsep) as (Hu & Hh & Hl).
  cbn [_percent_encode]. destruct (unreserved c) eqn:U; cbn [free_of].
  - split; [apply Hu; reflexivity | exact IH].
  - split; [destruct Hsep as [-> | ->]; discriminate |].
    split; [exact Hh |]. split; [exact Hl | exact IH].
Qed.

Lemma free_of_app sep (a b : string) :
  free_of sep a -> free_of sep b -> free_of sep (a +:+ b).
Proof.
  induction a as [| c r IH]; cbn; [tauto |].
  intros [Hc Hr] Hb. split; [exact Hc | apply IH; assumption].
Qed.

(** Two texts cut at the first separator. *)
Lemma app_sep_inj sep (a a' b b' : string) :
  free_of sep a -> free_of sep a' ->
  a +:+ String sep b = a' +:+ String sep b' -> a = a' /\ b = b'.
Proof.
  revert a'. induction a as [| c r IH]; intros [| c' r']; cbn.
  - intros _ _ H. inversion H. auto.
  - intros _ [Hc _] H. inversion H. congruence.
  - intros [Hc _] _ H. inversion H. congruence.
  - intros [_ Hr] [_ Hr'] H. inversion H; subst.
    destruct (IH r' Hr Hr' ltac:(assumption)) as [-> ->]. auto.
Qed.

Lemma free_no_sep sep (s a b : string) :
  free_of sep s -> s <> a +:+ String sep b.
Proof.
  revert s. induction a as [| c r IH]; intros [| c' r']; cbn;
    try discriminate.
  - intros [Hc _] H. inversion H. congruence.
  - intros [_ Hr] H. inversion H; subst. exact (IH _ Hr eq_refl).
Qed.

Lemma concat_cons2 sep (x y : string) (l : list string) :
  String.concat (String sep "") (x :: y :: l)
  = x +:+ String sep (String.concat (String sep "") (y :: l)).
Proof. reflexivity. Qed.

(** Joining texts that are not empty and free of the separator loses
    nothing. *)
Lemma concat_sep_inj sep (l : list string) : forall l',
  Forall (fun x => free_of sep x /\ x <> "") l ->
  Forall (fun x => free_of sep x /\ x <> "") l' ->
  String.concat (String sep "") l = String.concat (String sep "") l' ->
  l = l'.
Proof.
  induction l as [| x r IH]; intros [| x' r'] Hl Hl' H.
  - reflexivity.
  - exfalso. inversion Hl' as [| ? ? [_ Hne] _]; subst.
    destruct r' as [| y' r'']; [cbn in H; congruence |].
    rewrite concat_cons2 in H. destruct x'; [congruence | discriminate].
  - exfalso. inversion Hl as [| ? ? [_ Hne] _]; subst.
    destruct r as [| y r'']; [cbn in H; congruence |].
    rewrite concat_cons2 in H. destruct x; [congruence | discriminate].
  - inversion Hl as [| ? ? [Hx _] Hr]; subst.
    inversion Hl' as [| ? ? [Hx' _] Hr']; subst.
    destruct r as [| y r1]; destruct r' as [| y' r1'].
    + cbn in H. congruence.
    + exfalso. rewrite concat_cons2 in H. cbn [String.concat] in H.
      exact (free_no_sep sep x x' _ Hx H).
    + exfalso. rewrite concat_cons2 in H. cbn [String.concat] in H.
      exact (free_no_sep sep x' x _ Hx' (eq_sym H)).
    + rewrite !concat_cons2 in H.
      destruct (app_sep_inj sep _ _ _ _ Hx Hx' H) as [-> Hrest].
      f_equal. apply IH; assumption.
Qed.

Lemma urlencode_item_ok (kv : string * string) :
  free_of "&" (urlencode_item kv) /\ urlencode_item kv <> "".
Proof.
  unfold urlencode_item. split.
  - apply free_of_app; [apply percent_encode_free; auto |].
    cbn. split; [discriminate | apply percent_encode_free; auto].
  - destruct (_percent_encode kv.1); discriminate.
Qed.

Lemma urlencode_item_inj (kv kv' : string * string) :
  urlencode_item kv = urlencode_item kv' -> kv = kv'.
Proof.
  unfold urlencode_item. intros H.
  destruct (app_sep_inj "=" _ _ _ _
              (percent_encode_free "=" kv.1 ltac:(auto))
              (percent_encode_free "=" kv'.1 ltac:(auto)) H) as [Hk Hv].
  apply percent_encode_inj in Hk. apply percent_encode_inj in Hv.
  destruct kv, kv'. cbn in *. congruence.
Qed.

Lemma urlencode_items_ok (l : Dict) :
  Forall (fun x => free_of "&" x /\ x <> "") (List.map urlencode_item l).
Proof.
  induction l as [| kv r IH]; cbn [List.map]; constructor;
    [apply urlencode_item_ok | exact IH].
Qed.

Lemma urlencode_inj (l l' : Dict) : urlencode l = urlencode l' -> l = l'.
Proof.
  unfold urlencode. intros H.
  apply (concat_sep_inj "&") in H.
  - revert l' H. induction l as [| x r IH]; intros [| x' r'] H;
      try discriminate; [reflexivity |].
    cbn in H. inversion H as [[Hx Hr]].
    apply (urlencode_item_inj x x') in Hx. rewrite Hx, (IH r' Hr).
    reflexivity.
  - apply urlencode_items_ok.
  - apply urlencode_items_ok.
Qed.

Lemma base_string_eq (request : Request) (oauth : Dict) :
  base_string request oauth
  = _percent_encode (upper (method request))
    +:+ String "&"
          (_percent_encode (base_url (url request))
           +:+ String "&"
                 (_percent_encode
                    (urlencode (sorted (all_params request oauth))))).
Proof. reflexivity. Qed.

(** The base string holds exactly the upper-cased method, the URL without
    query and fragment, and the sorted merged parameters. *)
Lemma base_string_inj (r1 r2 : Request) (o1 o2 : Dict) :
  base_string r1 o1 = base_string r2 o2 <->
  upper (method r1) = upper (method r2)
  /\ base_url (url r1) = base_url (url r2)
  /\ sorted (all_params r1 o1) = sorted (all_params r2 o2).
Proof.
  rewrite !base_string_eq. split.
  - intros H.
    apply app_sep_inj in H; try (apply percent_encode_free; auto).
    destruct H as [Hm H].
    apply app_sep_inj in H; try (apply percent_encode_free; auto).
    destruct H as [Hu Hp].
    apply percent_encode_inj in Hm, Hu, Hp. apply urlencode_inj in Hp.
    auto.
  - intros (-> & -> & ->). reflexivity.
Qed.

Lemma base_url_path (u1 u2 : URL) :
  scheme u1 = scheme u2 -> authority u1 = authority u2 ->
  base_url u1 = base_url u2 -> path u1 = path u2.
Proof.
  unfold base_url. intros -> -> H.
  repeat apply String.app_inj in H. exact H.
Qed.

End TBAFacts.

(** After [headers[key] = value], the header reads [value]. *)
Lemma header_remove_all key (h : Httpx.Headers) :
  List.filter
    (fun kv => String.eqb (Httpx.lower (fst kv)) (Httpx.lower key))
    (Httpx.remove_all key h) = [].
Proof.
  induction h as [| [k v] r IH]; [reflexivity |]. cbn [Httpx.remove_all].
  destruct (String.eqb (Httpx.lower k) (Httpx.lower key)) eqn:E;
    [exact IH |].
  cbn [List.filter fst]. rewrite E. exact IH.
Qed.

Lemma header_get_set key value (h : Httpx.Headers) :
  Httpx.get key (Httpx.set key value h) = Some value.
Proof.
  unfold Httpx.get.
  assert (H : List.filter
                (fun kv => String.eqb (Httpx.lower (fst kv)) (Httpx.lower key))
                (Httpx.set key value h) = [(key, value)]).
  { induction h as [| [k v] r IH]; cbn [Httpx.set].
    - cbn [List.filter fst]. rewrite String.eqb_refl. reflexivity.
    - destruct (String.eqb (Httpx.lower k) (Httpx.lower key)) eqn:E.
      + cbn [List.filter fst]. rewrite String.eqb_refl, header_remove_all.
        reflexivity.
      + cbn [List.filter fst]. rewrite E. exact IH. }
  rewrite H. reflexivity.
Qed.

(** Known answers: SHA-256 of [abc] (FIPS 180-4), HMAC-SHA256 of RFC 4231
    test case 2, Base64 of RFC 4648, and percent-encoding as in
    [test_tba.py]. *)
Example crypto_known_answers :
  Base64.b64encode (Sha256.sha256 (Sha256.bytes_of "abc"))
  = "ungWv48Bz+pBQUDeXa4iI7ADYaOWF3qctBD/YfIAFa0="
  /\ Base64.b64encode
       (Hmac.hmac_sha256 (Sha256.bytes_of "Jefe")
          (Sha256.bytes_of "what do ya want for nothing?"))
     = "W9zBRr9gdU5qBCQmCJV1x1oAPwidJzmDnexYuWTsOEM="
  /\ Base64.b64encode (Sha256.bytes_of "foobar") = "Zm9vYmFy"
  /\ Base64.b64encode (Sha256.bytes_of "fooba") = "Zm9vYmE="
  /\ TBA._percent_encode "a b" = "a%20b"
  /\ TBA._percent_encode "a+b" = "a%2Bb"
  /\ TBA._percent_encode "a&b=c" = "a%26b%3Dc".
Proof. vm_compute. repeat split. Qed.

(** [test_tba.py]: with the nonce and the clock fixed, [customer] and
    [invoice] get different headers, and so do [customer] and
    [customer?limit=10]. *)
Example tba_test_suite :
  let sign := TBA.authorization Fixtures.tba_auth "fixednonce" 1700000000 in
  TBA.oauth_signature Fixtures.tba_auth "fixednonce" 1700000000
    (Fixtures.tba_request "GET" Fixtures.customer_path [] "")
  = "rfEmICd+eiK4a4amkv+rk8dlQHPkMWAehJCIH2LJjy4="
  /\ sign (Fixtures.tba_request "GET" Fixtures.customer_path [] "")
     <> sign (Fixtures.tba_request "GET" Fixtures.invoice_path [] "")
  /\ sign (Fixtures.tba_request "GET" Fixtures.customer_path [] "")
     <> sign (Fixtures.tba_request "GET" Fixtures.customer_path
                [("limit", "10")] "").
Proof. vm_compute. repeat split; discriminate. Qed.

(** * Further properties *)

(** ** Request pipeline: how a run unfolds *)

Section PipelineRuns.

Variable model_validate : Json -> option Models.NetSuiteErrorResponse.
Variable py_float : string -> option Q.
Variable config : Models.NetSuiteConfig.
Variable transport : Client.Request -> nat -> Httpx.Response.
Variable req : Client.Request.

Abbreviation build := (Client._build_exception model_validate py_float).
Abbreviation body := (Client.attempt_body model_validate py_float config).
Abbreviation decided := (decided_outcome model_validate py_float).
Abbreviation wait_of := (retry_wait py_float config).

Lemma attempt_body_decided attempt response :
  ~ retry_condition config attempt response ->
  body attempt response = Client.Done (decided response).
Proof.
  intros Hn. unfold decided_outcome.
  destruct (Z.ltb_spec (Httpx.status_code response) 400) as [Hlt | Hge].
  - apply attempt_body_success. exact Hlt.
  - apply attempt_body_raise; assumption.
Qed.

(** A loop whose first [k] calls are retried and whose next call is not. *)
Lemma request_loop_decided sleep k : forall remaining attempt n last,
  (k < remaining)%nat ->
  (forall j, (j < k)%nat ->
     retry_condition config (attempt + Z.of_nat j) (transport req (n + j))
     /\ sleep (wait_of (attempt + Z.of_nat j) (transport req (n + j))) = None) ->
  ~ retry_condition config (attempt + Z.of_nat k) (transport req (n + k)) ->
  Client.request_loop model_validate py_float sleep config transport req
    remaining attempt n last
  = (decided (transport req (n + k)),
     retried_trace py_float config transport req k attempt n).
Proof.
  induction k as [| k IH]; intros remaining attempt n last Hk Hre Hde;
    destruct remaining as [| r]; try lia; cbn [Client.request_loop].
  - replace (attempt + Z.of_nat 0) with attempt in Hde by lia.
    replace (n + 0)%nat with n in * by lia.
    rewrite (attempt_body_decided _ _ Hde). reflexivity.
  - destruct (Hre 0%nat ltac:(lia)) as [Hr Hs].
    replace (attempt + Z.of_nat 0) with attempt in Hr, Hs by lia.
    replace (n + 0)%nat with n in Hr, Hs by lia.
    rewrite (attempt_body_retry model_validate py_float config _ _ Hr), Hs.
    rewrite (IH r (attempt + 1) (S n) (Some (build (transport req n)))).
    + replace (S n + k)%nat with (n + S k)%nat by lia. reflexivity.
    + lia.
    + intros j Hj. specialize (Hre (S j) ltac:(lia)).
      replace (attempt + 1 + Z.of_nat j) with (attempt + Z.of_nat (S j))
        by lia.
      replace (S n + j)%nat with (n + S j)%nat by lia. exact Hre.
    + replace (attempt + 1 + Z.of_nat k) with (attempt + Z.of_nat (S k))
        by lia.
      replace (S n + k)%nat with (n + S k)%nat by lia. exact Hde.
Qed.

(** A request whose first [k] calls are retried and whose next call is
    not. *)
Lemma request_decided sleep k :
  (forall j, (j < k)%nat ->
     retry_condition config (Z.of_nat j) (transport req j)
     /\ sleep (wait_of (Z.of_nat j) (transport req j)) = None) ->
  ~ retry_condition config (Z.of_nat k) (transport req k) ->
  Z.of_nat k <= Models.max_retries config ->
  Client.request model_validate py_float sleep config transport req
  = (decided (transport req k),
     retried_trace py_float config transport req k 0 0).
Proof.
  intros Hre Hde Hk. unfold Client.request.
  rewrite (request_loop_decided sleep k).
  - reflexivity.
  - lia.
  - intros j Hj. cbn [Nat.add].
    replace (0 + Z.of_nat j) with (Z.of_nat j) by lia. apply Hre. exact Hj.
  - cbn [Nat.add]. replace (0 + Z.of_nat k) with (Z.of_nat k) by lia.
    exact Hde.
Qed.

Lemma retried_trace_calls k : forall attempt n,
  Client.calls (retried_trace py_float config transport req k attempt n)
  = S k.
Proof.
  induction k as [| k IH]; intros attempt n; [reflexivity |].
  cbn [retried_trace]. change (Client.calls (?a :: Client.Sleep ?w :: ?t))
    with (S (Client.calls t)). rewrite IH. reflexivity.
Qed.

Lemma py_pow2_nonneg (a : Z) : (0 <= py_pow2 a)%Q.
Proof.
  unfold py_pow2. destruct (0 <=? a).
  - change 0%Q with (inject_Z 0). rewrite <- Zle_Qle. apply Z.pow_nonneg. lia.
  - apply Qinv_le_0_compat.
    change 0%Q with (inject_Z 0). rewrite <- Zle_Qle. apply Z.pow_nonneg. lia.
Qed.

(** The backoff of an attempt below [max_retries] lies between 0 and the
    backoff of attempt [max_retries]. *)
Lemma backoff_in_range (f : Q) (N attempt : Z) :
  (0 <= f)%Q -> (f * inject_Z (2 ^ N) <= sleep_max)%Q ->
  0 <= attempt < N ->
  (0 <= Retry.calculate_backoff attempt None f <= sleep_max)%Q.
Proof.
  intros Hf Hmax Ha. unfold Retry.calculate_backoff, py_pow2.
  replace (0 <=? attempt) with true by (symmetry; apply Z.leb_le; lia).
  assert (H0 : (0 <= inject_Z (2 ^ attempt))%Q).
  { change 0%Q with (inject_Z 0). rewrite <- Zle_Qle.
    apply Z.pow_nonneg. lia. }
  assert (Hle : (inject_Z (2 ^ attempt) <= inject_Z (2 ^ N))%Q).
  { rewrite <- Zle_Qle. apply Z.pow_le_mono_r; lia. }
  split.
  - apply Qmult_le_0_compat; assumption.
  - eapply Qle_trans; [| exact Hmax].
    rewrite !(Qmult_comm f). apply Qmult_le_compat_r; assumption.
Qed.



End PipelineRuns.

(** The two flavours are the loop run with a sleep that takes every wait
    from 0 to [sleep_max]. *)
Lemma flavour_sleep model_validate py_float config transport req run :
  In run
    [Client._request_sync model_validate py_float config transport req;
     Client._request_async model_validate py_float config transport req] ->
  exists sleep,
    run = Client.request model_validate py_float sleep config transport req
    /\ forall w, (0 <= w <= sleep_max)%Q -> sleep w = None.
Proof.
  intros [<- | [<- | []]].
  - exists Client.time_sleep. split; [reflexivity |].
    intros w [H0 Hm]. apply time_sleep_accepts; assumption.
  - exists Client.asyncio_sleep. split; [reflexivity | reflexivity].
Qed.

(** A run of either flavour whose first [k] calls are retried, with waits
    that [time.sleep] takes, and whose next call is not. *)
Lemma flavour_decided model_validate py_float config transport req k run :
  In run
    [Client._request_sync model_validate py_float config transport req;
     Client._request_async model_validate py_float config transport req] ->
  (forall j, (j < k)%nat ->
     retry_condition config (Z.of_nat j) (transport req j)
     /\ (0 <= retry_wait py_float config (Z.of_nat j) (transport req j)
         <= sleep_max)%Q) ->
  ~ retry_condition config (Z.of_nat k) (transport req k) ->
  Z.of_nat k <= Models.max_retries config ->
  run = (decided_outcome model_validate py_float (transport req k),
         retried_trace py_float config transport req k 0 0).
Proof.
  intros Hrun Hre Hde Hk.
  destruct (flavour_sleep _ _ _ _ _ _ Hrun) as (sleep & -> & Hsl).
  apply request_decided; [| exact Hde | exact Hk].
  intros j Hj. destruct (Hre j Hj) as [Hr Hw].
  split; [exact Hr | apply Hsl; exact Hw].
Qed.







(** With a negative [max_retries] no HTTP call is made at all: the loop
    body never runs and the generic error "Max retries exceeded", without
    status, is raised. *)
Theorem request_negative_retries
    model_validate py_float config transport req :
  Models.max_retries config < 0 ->
  forall run,
    In run
      [Client._request_sync model_validate py_float config transport req;
       Client._request_async model_validate py_float config transport req] ->
    snd run = []
    /\ fst run
       = Client.Raised
           {| Exceptions.cls := Exceptions.NetSuiteError;
              Exceptions.message := "Max retries exceeded";
              Exceptions.status := None;
              Exceptions.error_code := None;
              Exceptions.error_details := [];
              Exceptions.retry_after := None |}.
Proof.
  intros HN run Hrun.
  assert (Hz : Z.to_nat (Models.max_retries config + 1) = 0%nat) by lia.
  destruct Hrun as [<- | [<- | []]];
    unfold Client._request_sync, Client._request_async, Client.request;
    rewrite Hz; split; reflexivity.
Qed.

Lemma request_negative_retries_witness :
  Client._request_sync Models.validate_error_response float_of_decimal
    Fixtures.config_negative_retries (Fixtures.always Fixtures.resp_200)
    (Fixtures.get_customer "42")
  = (Client.Raised
       (Exceptions.init Exceptions.NetSuiteError "Max retries exceeded"
          None None None), []).
Proof.
  destruct (request_negative_retries Models.validate_error_response
              float_of_decimal Fixtures.config_negative_retries
              (Fixtures.always Fixtures.resp_200) (Fixtures.get_customer "42")
              ltac:(vm_compute; reflexivity) _ (or_introl eq_refl))
    as [Ht Ho].
  apply injective_projections; [exact Ho | exact Ht].
Defined.

(** A [Retry-After] header that parses to a negative number makes the
    blocking pipeline fail on the first 429 (when a retry is left):
    [time.sleep] refuses the wait, so its error gets out after one call
    instead of a retry or the classified error, a [ValueError] down to
    [sleep_min] and an [OverflowError] below.  The cooperative pipeline
    goes on to a second call. *)
Theorem request_negative_retry_after
    model_validate py_float config transport req (h : Q) :
  Httpx.status_code (transport req 0%nat) = 429 ->
  0 < Models.max_retries config ->
  Retry.parse_retry_after py_float (transport req 0%nat) = Some h ->
  (h < 0)%Q ->
  ((sleep_min <= h)%Q ->
   Client._request_sync model_validate py_float config transport req
   = (Client.Failed Client.ValueError, [Client.Send 0]))
  /\ ((h < sleep_min)%Q ->
      Client._request_sync model_validate py_float config transport req
      = (Client.Failed Client.OverflowError, [Client.Send 0]))
  /\ (2 <= Client.calls
             (snd (Client._request_async model_validate py_float config
                     transport req)))%nat.
Proof.
  intros Hs HN Hp Hh.
  assert (Hr : retry_condition config 0 (transport req 0%nat)).
  { split; [left; exact Hs | exact HN]. }
  assert (Hw : retry_wait py_float config 0 (transport req 0%nat) = h).
  { unfold retry_wait. rewrite Hs, Hp. reflexivity. }
  assert (Hn : exists r,
             Z.to_nat (Models.max_retries config + 1) = S r /\ (0 < r)%nat).
  { exists (Z.to_nat (Models.max_retries config)). lia. }
  destruct Hn as (r & Hn & Hpos).
  unfold Client._request_sync, Client._request_async, Client.request.
  rewrite Hn. cbn [Client.request_loop].
  rewrite (attempt_body_retry model_validate py_float config _ _ Hr), Hw.
  rewrite (time_sleep_negative h Hh).
  split; [| split].
  - intros Hmin. apply Qle_bool_iff in Hmin. rewrite Hmin. reflexivity.
  - intros Hmin.
    replace (Qle_bool sleep_min h) with false; [reflexivity |].
    symmetry. apply not_true_is_false. intros H.
    apply Qle_bool_iff in H. lra.
  - unfold Client.asyncio_sleep at 1. cbv iota.
    apply (request_loop_calls_pos model_validate py_float
             Client.asyncio_sleep config transport req r (0 + 1) 1%nat
             (Some (Client._build_exception model_validate py_float
                      (transport req 0%nat)))) in Hpos.
    destruct (Client.request_loop model_validate py_float
                Client.asyncio_sleep config transport req r (0 + 1) 1%nat
                (Some (Client._build_exception model_validate py_float
                         (transport req 0%nat)))) as [o tr].
    cbn [snd] in Hpos |- *.
    change (Client.calls (Client.Send 0 :: Client.Sleep h :: tr))
      with (S (Client.calls tr)). lia.
Qed.

Lemma request_negative_retry_after_witness :
  Client._request_sync Models.validate_error_response float_of_decimal
    Fixtures.config_default (Fixtures.always Fixtures.resp_429_negative)
    (Fixtures.get_customer "42")
  = (Client.Failed Client.ValueError, [Client.Send 0]).
Proof.
  destruct (request_negative_retry_after Models.validate_error_response
              float_of_decimal Fixtures.config_default
              (Fixtures.always Fixtures.resp_429_negative)
              (Fixtures.get_customer "42") (- (1))%Q
              ltac:(vm_compute; reflexivity) ltac:(vm_compute; reflexivity)
              ltac:(vm_compute; reflexivity) ltac:(vm_compute; reflexivity))
    as (H & _ & _).
  apply H. vm_compute. discriminate.
Defined.

Lemma inject_pow2_succ (a : Z) :
  0 <= a -> (inject_Z (2 ^ (a + 1)) == 2 * inject_Z (2 ^ a))%Q.
Proof.
  intros Ha. rewrite Z.pow_add_r by lia. rewrite inject_Z_mult.
  change (inject_Z (2 ^ 1)) with 2%Q. ring.
Qed.

(** The time slept over [k] retries on statuses that are not 429, from
    attempt [a] on. *)
Lemma retried_trace_sleep (py_float : string -> option Q)
    (config : Models.NetSuiteConfig)
    (transport : Client.Request -> nat -> Httpx.Response)
    (req : Client.Request) (k : nat) :
  forall (a : Z) (n : nat),
    0 <= a ->
    (forall j, (j < k)%nat ->
       Httpx.status_code (transport req (n + j)%nat) <> 429) ->
    (total_sleep (retried_trace py_float config transport req k a n)
     == Models.retry_backoff_factor config * inject_Z (2 ^ a)
        * (inject_Z (2 ^ Z.of_nat k) - 1))%Q.
Proof.
  induction k as [| k IH]; intros a n Ha Hs.
  - cbn [retried_trace total_sleep]. change (inject_Z (2 ^ Z.of_nat 0)) with 1%Q.
    ring.
  - cbn [retried_trace total_sleep].
    rewrite (IH (a + 1) (S n)); [| lia |].
    + unfold retry_wait.
      specialize (Hs 0%nat ltac:(lia)). replace (n + 0)%nat with n in Hs by lia.
      replace (Httpx.status_code (transport req n) =? 429) with false
        by (symmetry; apply Z.eqb_neq; exact Hs).
      unfold Retry.calculate_backoff, py_pow2.
      replace (0 <=? a) with true by (symmetry; apply Z.leb_le; exact Ha).
      replace (Z.of_nat (S k)) with (Z.of_nat k + 1) by lia.
      rewrite (inject_pow2_succ a Ha), (inject_pow2_succ (Z.of_nat k)) by lia.
      ring.
    + intros j Hj. specialize (Hs (S j) ltac:(lia)).
      replace (S n + j)%nat with (n + S j)%nat by lia. exact Hs.
Qed.

(** A run in which every response has a status of at least 500, under
    [max_retries = N] and a backoff in the range of [time.sleep]: all the
    [N] retries are made and call [N] decides. *)
Lemma flavour_all_server_errors model_validate py_float config transport req
    (N : nat) run :
  Models.max_retries config = Z.of_nat N ->
  (0 <= Models.retry_backoff_factor config)%Q ->
  (Models.retry_backoff_factor config * inject_Z (2 ^ Z.of_nat N)
   <= sleep_max)%Q ->
  (forall j, 500 <= Httpx.status_code (transport req j)) ->
  In run
    [Client._request_sync model_validate py_float config transport req;
     Client._request_async model_validate py_float config transport req] ->
  run = (Client.Raised
           (Client._build_exception model_validate py_float (transport req N)),
         retried_trace py_float config transport req N 0 0).
Proof.
  intros HN Hf Hmax Hs Hrun.
  rewrite (flavour_decided _ _ _ _ _ N run Hrun).
  - unfold decided_outcome.
    replace (Httpx.status_code (transport req N) <? 400) with false;
      [reflexivity |].
    symmetry. apply Z.ltb_ge. specialize (Hs N). lia.
  - intros j Hj. split; [split; [right; apply Hs | lia] |].
    unfold retry_wait.
    replace (Httpx.status_code (transport req j) =? 429) with false
      by (symmetry; apply Z.eqb_neq; specialize (Hs j); lia).
    apply (backoff_in_range _ (Z.of_nat N)); [exact Hf | exact Hmax | lia].
  - intros [_ Hlt]. lia.
  - lia.
Qed.

(** Giving up on a server that keeps failing takes [f * (2^N - 1)] seconds
    of sleep: under [max_retries = N] and a backoff factor [f >= 0] with
    [f * 2^N] at most [sleep_max], when all the responses have a status of
    at least 500, the waits of the run add up to that (7 seconds with the
    defaults [N = 3], [f = 1.0]). *)
Theorem request_total_backoff
    model_validate py_float config transport req (N : nat) :
  Models.max_retries config = Z.of_nat N ->
  (0 <= Models.retry_backoff_factor config)%Q ->
  (Models.retry_backoff_factor config * inject_Z (2 ^ Z.of_nat N)
   <= sleep_max)%Q ->
  (forall j, 500 <= Httpx.status_code (transport req j)) ->
  forall run,
    In run
      [Client._request_sync model_validate py_float config transport req;
       Client._request_async model_validate py_float config transport req] ->
    (total_sleep (snd run)
     == Models.retry_backoff_factor config * (inject_Z (2 ^ Z.of_nat N) - 1))%Q.
Proof.
  intros HN Hf Hmax Hs run Hrun.
  rewrite (flavour_all_server_errors _ _ _ _ _ N run HN Hf Hmax Hs Hrun).
  cbn [snd]. rewrite retried_trace_sleep.
  - change (inject_Z (2 ^ 0)) with 1%Q. ring.
  - lia.
  - intros j _. specialize (Hs (0 + j)%nat). lia.
Qed.

Lemma request_total_backoff_witness :
  (total_sleep
     (snd (Client._request_sync Models.validate_error_response
             float_of_decimal Fixtures.config_default
             (Fixtures.always Fixtures.resp_500) (Fixtures.get_customer "1")))
   == 7)%Q.
Proof.
  eapply Qeq_trans.
  - apply (request_total_backoff Models.validate_error_response
             float_of_decimal Fixtures.config_default
             (Fixtures.always Fixtures.resp_500) (Fixtures.get_customer "1")
             3%nat).
    + reflexivity.
    + vm_compute. discriminate.
    + vm_compute. discriminate.
    + intros j. vm_compute. discriminate.
    + left. reflexivity.
  - reflexivity.
Defined.

(** ** Error classifier: which responses give a Server error *)

Lemma server_error_statuses (s : Z) :
  kind_of_status s = Exceptions.ServerError <-> s = 500 \/ s = 502 \/ s = 503.
Proof.
  unfold kind_of_status.
  destruct (Z.eqb_spec s 400); [split; [discriminate | lia] |].
  destruct (Z.eqb_spec s 401); [split; [discriminate | lia] |].
  destruct (Z.eqb_spec s 403); [split; [discriminate | lia] |].
  destruct (Z.eqb_spec s 404); [split; [discriminate | lia] |].
  destruct (Z.eqb_spec s 429); [split; [discriminate | lia] |].
  destruct (Z.eqb_spec s 500); destruct (Z.eqb_spec s 502);
    destruct (Z.eqb_spec s 503);
    cbn [orb]; split; intros; try discriminate; try lia; auto.
Qed.

Lemma other_server_status_generic model_validate py_float response :
  500 <= Httpx.status_code response ->
  Httpx.status_code response <> 500 ->
  Httpx.status_code response <> 502 ->
  Httpx.status_code response <> 503 ->
  Exceptions.cls (Client._build_exception model_validate py_float response)
  = Exceptions.NetSuiteError.
Proof.
  intros H5 H500 H502 H503.
  destruct (Client.parse_error_response model_validate response)
    as [e |] eqn:Hp.
  - destruct (build_exception_parsed model_validate py_float _ _ Hp)
      as (Hc & _).
    rewrite Hc, status_map_lookup. unfold kind_of_status.
    repeat match goal with
           | |- context [?a =? ?b] => destruct (Z.eqb_spec a b); [lia |]
           end.
    reflexivity.
  - rewrite (build_exception_unparsed model_validate py_float _ Hp).
    reflexivity.
Qed.

(** The error built from a response is of class [ServerError] exactly when
    the body parses as a structured error payload and the status is 500, 502
    or 503.  Every other status from 500 on (501, 504, ...) is retried by
    both pipelines like them, but the error the request ends in is the
    generic [NetSuiteError]: under [max_retries = N], with a backoff in the
    range of [time.sleep], a server that answers every call with such a
    status is called [N + 1] times and the error raised is of the generic
    class. *)
Theorem server_error_only_for_500_502_503
    model_validate py_float config transport req :
  (forall response,
     Exceptions.cls (Client._build_exception model_validate py_float response)
     = Exceptions.ServerError
     <-> Client.parse_error_response model_validate response <> None
         /\ (Httpx.status_code response = 500
             \/ Httpx.status_code response = 502
             \/ Httpx.status_code response = 503))
  /\ (forall N : nat,
        Models.max_retries config = Z.of_nat N ->
        (0 <= Models.retry_backoff_factor config)%Q ->
        (Models.retry_backoff_factor config * inject_Z (2 ^ Z.of_nat N)
         <= sleep_max)%Q ->
        (forall j,
           500 <= Httpx.status_code (transport req j)
           /\ Httpx.status_code (transport req j) <> 500
           /\ Httpx.status_code (transport req j) <> 502
           /\ Httpx.status_code (transport req j) <> 503) ->
        forall run,
          In run
            [Client._request_sync model_validate py_float config transport req;
             Client._request_async model_validate py_float config transport
               req] ->
          Client.calls (snd run) = S N
          /\ exists exc,
               fst run = Client.Raised exc
               /\ Exceptions.cls exc = Exceptions.NetSuiteError).
Proof.
  split.
  - intros response.
    destruct (Client.parse_error_response model_validate response)
      as [e |] eqn:Hp.
    + destruct (build_exception_parsed model_validate py_float _ _ Hp)
        as (Hc & _).
      rewrite Hc, status_map_lookup, server_error_statuses.
      split; [intros H; split; [discriminate | exact H] | tauto].
    + rewrite (build_exception_unparsed model_validate py_float _ Hp).
      cbn [Exceptions.cls].
      split; [discriminate | intros [H _]; congruence].
  - intros N HN Hf Hmax Hs run Hrun.
    rewrite (flavour_all_server_errors _ _ _ _ _ N run HN Hf Hmax
               (fun j => proj1 (Hs j)) Hrun).
    cbn [fst snd]. split; [apply retried_trace_calls |].
    eexists. split; [reflexivity |].
    destruct (Hs N) as (H5 & H500 & H502 & H503).
    apply other_server_status_generic; assumption.
Qed.

Lemma server_error_only_for_500_502_503_witness :
  let run :=
    Client._request_sync Models.validate_error_response float_of_decimal
      Fixtures.config_default (Fixtures.always Fixtures.resp_504)
      (Fixtures.get_customer "42") in
  Client.calls (snd run) = 4%nat
  /\ exists exc,
       fst run = Client.Raised exc
       /\ Exceptions.cls exc = Exceptions.NetSuiteError.
Proof.
  intros run.
  destruct (server_error_only_for_500_502_503 Models.validate_error_response
              float_of_decimal Fixtures.config_default
              (Fixtures.always Fixtures.resp_504)
              (Fixtures.get_customer "42")) as [_ H].
  apply (H 3%nat).
  - reflexivity.
  - vm_compute. discriminate.
  - vm_compute. discriminate.
  - intros j. vm_compute. repeat split; discriminate.
  - left. reflexivity.
Defined.

(** ** Pagination: what is fetched and what is yielded *)

Section PaginationRuns.

Import Pagination.

Variable St : Type.

Lemma nexts_exhausted n : forall (self : PageIterator St) w,
  _exhausted self = true -> nexts __next__ n self w = ([], self, w).
Proof.
  induction n as [| n IH]; intros self w He; [reflexivity |].
  cbn [nexts]. rewrite (next_exhausted St self w He), (IH self w He).
  reflexivity.
Qed.

(** The calls made and the pages yielded by [n] steps of an iterator. *)
Lemma nexts_log n : forall (self : PageIterator St) w,
  exists l,
    log (nexts __next__ n self w).2 = log w ++ l
    /\ (nexts __next__ n self w).1.1
       = List.filter yieldable (fetched_pages l)
    /\ (forall i c, l !! i = Some c ->
          fetch_limit c = _limit self
          /\ fetch_offset c = _offset self + Z.of_nat i * _limit self)
    /\ (_exhausted self = true -> l = [])
    /\ final_is_last l.
Proof.
  induction n as [| n IH]; intros self w.
  { exists []. cbn [nexts fst snd]. rewrite app_nil_r.
    split; [reflexivity |]. split; [reflexivity |].
    split; [intros i c H; cbn in H; discriminate |].
    split; [reflexivity |]. intros i c H; cbn in H; discriminate. }
  destruct (_exhausted self) eqn:He.
  { exists []. rewrite (nexts_exhausted (S n) self w He). cbn [fst snd].
    rewrite app_nil_r.
    split; [reflexivity |]. split; [reflexivity |].
    split; [intros i c H; cbn in H; discriminate |].
    split; [reflexivity |]. intros i c H; cbn in H; discriminate. }
  cbn [nexts].
  destruct (_fetch_page self (_limit self) (_offset self) (state w))
    as [page st] eqn:Hf.
  rewrite (next_eq St self w page st He Hf).
  set (self1 := {| _fetch_page := _fetch_page self; _limit := _limit self;
                   _offset := if Models.has_more page
                              then _offset self + _limit self
                              else _offset self;
                   _exhausted := negb (Models.has_more page) |}).
  set (c0 := {| fetch_limit := _limit self; fetch_offset := _offset self;
                fetch_page := page |}).
  set (w1 := {| state := st; log := log w ++ [c0] |}).
  destruct (IH self1 w1) as (l1 & Hlog & Hps & Hoff & Hex & Hfin).
  destruct (nexts __next__ n self1 w1) as [[ps self2] w2].
  cbn [fst snd] in *.
  exists (c0 :: l1). split; [| split; [| split; [| split]]].
  - rewrite Hlog. subst w1. cbn [log]. rewrite <- app_assoc. reflexivity.
  - cbn [fetched_pages List.map List.filter fetch_page c0].
    unfold yieldable at 1. fold (fetched_pages l1). rewrite <- Hps.
    destruct (no_items page && negb (Models.has_more page)); reflexivity.
  - intros [| i] c Hi.
    + cbn in Hi. inversion Hi; subst c. cbn. split; [reflexivity | lia].
    + cbn in Hi. destruct (Hoff i c Hi) as [Hl Ho].
      split; [exact Hl |]. rewrite Ho. subst self1. cbn [_offset _limit].
      destruct (Models.has_more page) eqn:Hm.
      * rewrite Nat2Z.inj_succ. ring.
      * rewrite (Hex eq_refl) in Hi. discriminate.
  - discriminate.
  - intros [| i] c Hi Hm.
    + cbn in Hi. inversion Hi; subst c. cbn in Hm.
      rewrite Hex by (subst self1; cbn; rewrite Hm; reflexivity).
      reflexivity.
    + cbn in Hi. cbn [List.length]. f_equal. exact (Hfin i c Hi Hm).
Qed.

Lemma next_none_exhausted (self : PageIterator St) w :
  (__next__ self w).1.1 = None -> _exhausted (__next__ self w).1.2 = true.
Proof.
  destruct (_exhausted self) eqn:He.
  { rewrite (next_exhausted St self w He). intros _. exact He. }
  destruct (next_live St self w He) as (_ & _ & _ & _ & Hx & Hr).
  rewrite Hr, Hx.
  destruct (no_items _); destruct (Models.has_more _); cbn;
    congruence.
Qed.

(** A loop over the iterator sees what the same number of [next] calls
    gives: once the iterator has stopped, further calls add nothing. *)
Lemma pages_nexts fuel : forall (self : PageIterator St) w,
  (pages __next__ fuel self w).1 = nexts __next__ fuel self w.
Proof.
  induction fuel as [| fuel IH]; intros self w; [reflexivity |].
  cbn [pages nexts].
  pose proof (next_none_exhausted self w) as Hn.
  destruct (__next__ self w) as [[r self1] w1]. cbn [fst snd] in Hn.
  destruct r as [page |].
  - specialize (IH self1 w1).
    destruct (pages __next__ fuel self1 w1) as [[[ps self2] w2] stopped].
    cbn [fst] in IH. rewrite <- IH. reflexivity.
  - rewrite (nexts_exhausted fuel self1 w1 (Hn eq_refl)). reflexivity.
Qed.

Lemma filter_yieldable_items (l : list Models.PaginatedResponse) :
  List.concat (List.map Models.items (List.filter yieldable l))
  = List.concat (List.map Models.items l).
Proof.
  induction l as [| p r IH]; [reflexivity |]. cbn [List.filter].
  destruct (yieldable p) eqn:Hy; cbn [List.map List.concat].
  - rewrite IH. reflexivity.
  - rewrite IH. unfold yieldable, no_items in Hy.
    destruct (Models.items p); [reflexivity | discriminate].
Qed.

(** Only the last fetched page can be held back. *)
Lemma filter_yieldable_final (l : list Fetch) :
  final_is_last l ->
  List.filter yieldable (fetched_pages l) = fetched_pages l
  \/ exists l' c,
       l = l' ++ [c]
       /\ List.filter yieldable (fetched_pages l) = fetched_pages l'
       /\ Models.items (fetch_page c) = []
       /\ Models.has_more (fetch_page c) = false.
Proof.
  induction l as [| c r IH]; intros Hfin; [left; reflexivity |].
  assert (Hr : final_is_last r).
  { intros i c' Hi Hm. specialize (Hfin (S i) c' Hi Hm). cbn in Hfin. lia. }
  cbn [fetched_pages List.map List.filter]. fold (fetched_pages r).
  destruct (yieldable (fetch_page c)) eqn:Hy.
  - destruct (IH Hr) as [-> | (l' & c' & -> & -> & Hi & Hm)];
      [left; reflexivity |].
    right. exists (c :: l'), c'. auto.
  - unfold yieldable in Hy. apply negb_false_iff, andb_true_iff in Hy.
    destruct Hy as [Hi Hm]. apply negb_true_iff in Hm.
    specialize (Hfin 0%nat c eq_refl Hm). cbn in Hfin.
    destruct r; [| discriminate].
    right. exists [], c. apply no_items_nil in Hi. auto.
Qed.

End PaginationRuns.

(** The [i]-th call of the callback (counted from 0) is made with the limit
    the iterator was built with and the offset [offset + i * limit],
    whatever the callback returns and however long the iteration runs, for
    any number of [next] calls and for a loop over the iterator,
    synchronous or asynchronous.  So with a limit other than 0 no two calls
    ask for the same offset, and with the limit 0 every call asks for the
    offset the iterator started with. *)
Theorem fetch_offsets_progress (St : Type) (next : Pagination.Next St)
    (fetch : Pagination.FetchPage St) (limit offset : Z) (st : St)
    (i : nat) (c : Pagination.Fetch) :
  In next [Pagination.__next__; Pagination.__anext__] ->
  let start := Pagination.__init__ fetch limit offset in
  let w0 := {| Pagination.state := st; Pagination.log := [] |} in
  (forall n,
     Pagination.log (Pagination.nexts next n start w0).2 !! i = Some c ->
     Pagination.fetch_limit c = limit
     /\ Pagination.fetch_offset c = offset + Z.of_nat i * limit)
  /\ (forall fuel,
        Pagination.log (Pagination.pages next fuel start w0).1.2 !! i = Some c ->
        Pagination.fetch_limit c = limit
        /\ Pagination.fetch_offset c = offset + Z.of_nat i * limit)
  /\ (forall fuel j d,
        Pagination.log (Pagination.pages next fuel start w0).1.2 !! i = Some c ->
        Pagination.log (Pagination.pages next fuel start w0).1.2 !! j = Some d ->
        (limit <> 0 ->
         Pagination.fetch_offset c = Pagination.fetch_offset d -> i = j)
        /\ (limit = 0 ->
            Pagination.fetch_offset c = offset
            /\ Pagination.fetch_offset d = offset)).
Proof.
  intros Hnext start w0.
  assert (next = Pagination.__next__) as ->.
  { destruct Hnext as [<- | [<- | []]]; reflexivity. }
  assert (H : forall n k e,
             Pagination.log (Pagination.nexts Pagination.__next__ n start w0).2
               !! k = Some e ->
             Pagination.fetch_limit e = limit
             /\ Pagination.fetch_offset e = offset + Z.of_nat k * limit).
  { intros n k e Hk.
    destruct (nexts_log St n start w0) as (l & Hlog & _ & Hoff & _).
    rewrite Hlog in Hk. cbn [Pagination.log w0 app] in Hk.
    exact (Hoff k e Hk). }
  split; [intros n; apply H |].
  split; [intros fuel; rewrite (pages_nexts St fuel start w0); apply H |].
  intros fuel j d. rewrite (pages_nexts St fuel start w0). intros Hi Hj.
  destruct (H fuel i c Hi) as [_ Hc]. destruct (H fuel j d Hj) as [_ Hd].
  split.
  - intros Hl Heq. rewrite Hc, Hd in Heq.
    assert (Hz : Z.of_nat i * limit = Z.of_nat j * limit) by lia.
    apply Z.mul_reg_r in Hz; [lia | exact Hl].
  - intros Hl. rewrite Hc, Hd, Hl. lia.
Qed.

Lemma fetch_offsets_progress_witness :
  let w :=
    (Pagination.pages Pagination.__next__ 5
       (Pagination.__init__ Fixtures.fetch_endless 25 0)
       {| Pagination.state := tt; Pagination.log := [] |}).1.2 in
  List.map Pagination.fetch_offset (Pagination.log w) = [0; 25; 50; 75; 100]
  /\ forall c, Pagination.log w !! 3%nat = Some c ->
       Pagination.fetch_offset c = 0 + Z.of_nat 3 * 25.
Proof.
  intros w. split; [reflexivity |]. intros c Hc.
  destruct (fetch_offsets_progress unit Pagination.__next__
              Fixtures.fetch_endless 25 0 tt 3%nat c (or_introl eq_refl))
    as (_ & H & _).
  exact (proj2 (H 5%nat Hc)).
Defined.

(** The flattened stream loses nothing and invents nothing: the items
    [iter_items_sync] and [iter_items_async] yield are the items of all the
    pages fetched, in the order of the fetches. *)
Theorem iter_items_yields_all_fetched (St : Type)
    (fetch : Pagination.FetchPage St) (limit : Z) (fuel : nat) (st : St) :
  let w0 := {| Pagination.state := st; Pagination.log := [] |} in
  (Pagination.iter_items_sync fetch limit fuel w0).1.1
  = List.concat
      (List.map Models.items
         (fetched_pages
            (Pagination.log
               (Pagination.iter_items_sync fetch limit fuel w0).1.2)))
  /\ (Pagination.iter_items_async fetch limit fuel w0).1.1
     = List.concat
         (List.map Models.items
            (fetched_pages
               (Pagination.log
                  (Pagination.iter_items_async fetch limit fuel w0).1.2))).
Proof.
  intros w0.
  assert (H : (Pagination.iter_items_sync fetch limit fuel w0).1.1
              = List.concat
                  (List.map Models.items
                     (fetched_pages
                        (Pagination.log
                           (Pagination.iter_items_sync fetch limit fuel
                              w0).1.2)))).
  { unfold Pagination.iter_items_sync.
    pose proof (pages_nexts St fuel (Pagination.__init__ fetch limit 0) w0)
      as Hp.
    destruct (nexts_log St fuel (Pagination.__init__ fetch limit 0) w0)
      as (l & Hlog & Hps & _).
    destruct (Pagination.pages Pagination.__next__ fuel
                (Pagination.__init__ fetch limit 0) w0)
      as [[[ps self] w] stopped].
    cbn [fst snd] in *. rewrite <- Hp in Hlog, Hps. cbn [fst snd] in Hlog, Hps.
    rewrite Hlog, Hps. cbn [Pagination.log w0 app].
    apply filter_yieldable_items. }
  split; exact H.
Qed.

(** A loop over the iterator yields exactly the fetched pages that are
    not both empty and final, in the order fetched; and only the last
    fetched page can be final.  So every fetched page is yielded, except
    that the last one is held back, and never yielded, when it is empty and
    reports no more. *)
Theorem pages_yield_fetched_in_order (St : Type) (next : Pagination.Next St)
    (fetch : Pagination.FetchPage St) (limit offset : Z) (st : St)
    (fuel : nat) :
  In next [Pagination.__next__; Pagination.__anext__] ->
  let r :=
    Pagination.pages next fuel (Pagination.__init__ fetch limit offset)
      {| Pagination.state := st; Pagination.log := [] |} in
  r.1.1.1
  = List.filter
      (fun page =>
         negb (match Models.items page with [] => true | _ => false end
               && negb (Models.has_more page)))
      (fetched_pages (Pagination.log r.1.2))
  /\ (forall i c,
        Pagination.log r.1.2 !! i = Some c ->
        Models.has_more (Pagination.fetch_page c) = false ->
        S i = List.length (Pagination.log r.1.2))
  /\ (r.1.1.1 = fetched_pages (Pagination.log r.1.2)
      \/ exists l' c,
           Pagination.log r.1.2 = l' ++ [c]
           /\ r.1.1.1 = fetched_pages l'
           /\ Models.items (Pagination.fetch_page c) = []
           /\ Models.has_more (Pagination.fetch_page c) = false).
Proof.
  intros Hnext r. subst r.
  assert (next = Pagination.__next__) as ->.
  { destruct Hnext as [<- | [<- | []]]; reflexivity. }
  set (start := Pagination.__init__ fetch limit offset).
  set (w0 := {| Pagination.state := st; Pagination.log := [] |}).
  rewrite (pages_nexts St fuel start w0).
  destruct (nexts_log St fuel start w0) as (l & Hlog & Hps & _ & _ & Hfin).
  rewrite Hlog, Hps. cbn [Pagination.log w0 app].
  split; [reflexivity |]. split; [exact Hfin |].
  apply filter_yieldable_final. exact Hfin.
Qed.

Lemma pages_yield_fetched_in_order_witness :
  let r :=
    Pagination.pages Pagination.__anext__ 4
      (Pagination.__init__ Fixtures.fetch_script 10 0)
      {| Pagination.state :=
           [Fixtures._make_page [Fixtures.record_id 1] true 0;
            Fixtures._make_page [] false 10];
         Pagination.log := [] |} in
  List.length r.1.1.1 = 1%nat
  /\ List.length (Pagination.log r.1.2) = 2%nat
  /\ r.1.1.1
     = List.filter
         (fun page =>
            negb (match Models.items page with [] => true | _ => false end
                  && negb (Models.has_more page)))
         (fetched_pages (Pagination.log r.1.2)).
Proof.
  intros r. split; [reflexivity |]. split; [reflexivity |].
  apply (pages_yield_fetched_in_order (list Models.PaginatedResponse)
           Pagination.__anext__ Fixtures.fetch_script 10 0).
  right. left. reflexivity.
Defined.

(** A callback that reports more on every call keeps the loop going for
    ever, even when its pages are empty: however many steps are run, each
    step fetches and yields one page and the iterator has not stopped. *)
Theorem pages_never_stop_on_endless_callback (St : Type)
    (next : Pagination.Next St) (fetch : Pagination.FetchPage St)
    (limit offset : Z) (st : St) (fuel : nat) :
  In next [Pagination.__next__; Pagination.__anext__] ->
  (forall lim off s, Models.has_more (fetch lim off s).1 = true) ->
  let r :=
    Pagination.pages next fuel (Pagination.__init__ fetch limit offset)
      {| Pagination.state := st; Pagination.log := [] |} in
  r.2 = false
  /\ List.length r.1.1.1 = fuel
  /\ List.length (Pagination.log r.1.2) = fuel.
Proof.
  intros Hnext Hmore r. subst r.
  assert (next = Pagination.__next__) as ->.
  { destruct Hnext as [<- | [<- | []]]; reflexivity. }
  assert (H : forall fuel (self : Pagination.PageIterator St) w,
             Pagination._exhausted self = false ->
             Pagination._fetch_page self = fetch ->
             let r := Pagination.pages Pagination.__next__ fuel self w in
             r.2 = false
             /\ List.length r.1.1.1 = fuel
             /\ List.length (Pagination.log r.1.2)
                = (List.length (Pagination.log w) + fuel)%nat).
  { clear fuel. induction fuel as [| fuel IH]; intros self w He Hf.
    { cbn. auto with arith. }
    cbn zeta. cbn [Pagination.pages].
    destruct (Pagination._fetch_page self (Pagination._limit self)
                (Pagination._offset self) (Pagination.state w))
      as [page s'] eqn:Hp.
    assert (Hm : Models.has_more page = true).
    { specialize (Hmore (Pagination._limit self) (Pagination._offset self)
                    (Pagination.state w)).
      rewrite Hf in Hp. rewrite Hp in Hmore. exact Hmore. }
    rewrite (next_eq St self w page s' He Hp), Hm, andb_false_r.
    cbn [negb].
    match goal with
    | |- context [Pagination.pages _ fuel ?s ?w'] =>
        specialize (IH s w' eq_refl Hf); cbn zeta in IH;
        destruct (Pagination.pages Pagination.__next__ fuel s w')
          as [[[ps self2] w2] stopped]
    end.
    cbn [fst snd List.length Pagination.log] in *.
    destruct IH as (Hs & Hl & Hg). rewrite length_app in Hg. cbn in Hg.
    repeat split; [exact Hs | lia | lia]. }
  specialize (H fuel (Pagination.__init__ fetch limit offset)
                {| Pagination.state := st; Pagination.log := [] |}
                eq_refl eq_refl).
  cbn zeta in H. cbn [Pagination.log List.length Nat.add] in H. exact H.
Qed.

Lemma pages_never_stop_on_endless_callback_witness :
  let r :=
    Pagination.pages Pagination.__next__ 7
      (Pagination.__init__ Fixtures.fetch_endless 10 0)
      {| Pagination.state := tt; Pagination.log := [] |} in
  r.2 = false /\ List.length r.1.1.1 = 7%nat.
Proof.
  intros r.
  destruct (pages_never_stop_on_endless_callback unit Pagination.__next__
              Fixtures.fetch_endless 10 0 tt 7%nat (or_introl eq_refl)
              (fun _ _ _ => eq_refl)) as (Hs & Hl & _).
  exact (conj Hs Hl).
Defined.

(** ** Token-based signing: encoding, parameters, header *)

Section TBARuns.

Import TBA.

Lemma percent_encode_length (s : string) :
  (String.length s <= String.length (_percent_encode s)
   <= 3 * String.length s)%nat.
Proof.
  induction s as [| c r IH]; [cbn; lia |].
  cbn [_percent_encode]. destruct (unreserved c); cbn [String.length]; lia.
Qed.

Lemma percent_encode_alphabet (s : string) :
  all_chars (fun c => unreserved c || Ascii.eqb c "%") (_percent_encode s)
  = true.
Proof.
  induction s as [| c r IH]; [reflexivity |].
  cbn [_percent_encode]. destruct (unreserved c) eqn:U; cbn [all_chars].
  - rewrite U, IH. reflexivity.
  - rewrite IH.
    assert (H : unreserved (hex_digit (N_of_ascii c / 16)) = true
                /\ unreserved (hex_digit (N_of_ascii c mod 16)) = true).
    { clear. destruct c as [[] [] [] [] [] [] [] []]; split; reflexivity. }
    destruct H as [-> ->]. reflexivity.
Qed.

Lemma percent_encode_fixed (s : string) :
  _percent_encode s = s <-> all_chars unreserved s = true.
Proof.
  induction s as [| c r IH]; [split; reflexivity |].
  cbn [_percent_encode all_chars]. destruct (unreserved c) eqn:U.
  - cbn [andb]. rewrite <- IH. split; [intros H; inversion H | intros ->];
      congruence.
  - cbn [andb]. split; [| discriminate].
    intros H. exfalso. inversion H as [[Hc Hr]].
    pose proof (percent_encode_length r) as Hl.
    rewrite <- Hr in Hl at 1. cbn [String.length] in Hl. lia.
Qed.

Lemma dict_lookup_set key k v (d : Dict) :
  dict_lookup key (dict_set k v d)
  = if String.eqb k key then Some v else dict_lookup key d.
Proof.
  induction d as [| [k' v'] r IH]; cbn [dict_set dict_lookup].
  - reflexivity.
  - destruct (String.eqb_spec k' k) as [-> | Hne]; cbn [dict_lookup].
    + destruct (String.eqb k key); reflexivity.
    + rewrite IH. destruct (String.eqb_spec k' key) as [-> | Hne'];
        [| reflexivity].
      destruct (String.eqb_spec k key); [congruence | reflexivity].
Qed.

Lemma dict_lookup_app key (d1 d2 : Dict) :
  dict_lookup key (d1 ++ d2)
  = match dict_lookup key d1 with
    | Some v => Some v
    | None => dict_lookup key d2
    end.
Proof.
  induction d1 as [| [k v] r IH]; [reflexivity |]. cbn [app dict_lookup].
  destruct (String.eqb k key); [reflexivity | exact IH].
Qed.

(** After the merge a key holds its last value in the query, or else the
    value it had. *)
Lemma dict_lookup_merge key (ps : list (string * string)) : forall d : Dict,
  dict_lookup key
    (List.fold_left (fun d kv => dict_set (fst kv) (snd kv) d) ps d)
  = match dict_lookup key (List.rev ps) with
    | Some v => Some v
    | None => dict_lookup key d
    end.
Proof.
  induction ps as [| [k v] r IH]; intros d; [reflexivity |].
  cbn [List.fold_left List.rev fst snd]. rewrite IH, dict_lookup_app.
  destruct (dict_lookup key (List.rev r)); [reflexivity |].
  rewrite dict_lookup_set. cbn [dict_lookup].
  destruct (String.eqb k key); reflexivity.
Qed.

Lemma dict_keys_set k v (d : Dict) :
  dict_keys (dict_set k v d)
  = if in_dec string_dec k (dict_keys d) then dict_keys d
    else dict_keys d ++ [k].
Proof.
  induction d as [| [k' v'] r IH].
  { cbn. destruct (in_dec string_dec k []) as [[] | _]. reflexivity. }
  cbn [dict_set].
  destruct (String.eqb_spec k' k) as [-> | Hne].
  - destruct (in_dec string_dec k (dict_keys ((k, v') :: r))) as [_ | Hn];
      [reflexivity |].
    exfalso. apply Hn. left. reflexivity.
  - change (dict_keys ((k', v') :: dict_set k v r))
      with (k' :: dict_keys (dict_set k v r)).
    change (dict_keys ((k', v') :: r)) with (k' :: dict_keys r).
    rewrite IH.
    destruct (in_dec string_dec k (dict_keys r)) as [Hi | Hi];
      destruct (in_dec string_dec k (k' :: dict_keys r)) as [Hj | Hj];
      try reflexivity.
    + exfalso. apply Hj. right. exact Hi.
    + exfalso. destruct Hj as [Hj | Hj]; [congruence | exact (Hi Hj)].
Qed.

Lemma dict_set_nodup k v (d : Dict) :
  List.NoDup (dict_keys d) -> List.NoDup (dict_keys (dict_set k v d)).
Proof.
  intros Hd. rewrite dict_keys_set.
  destruct (in_dec string_dec k (dict_keys d)) as [Hi | Hi]; [exact Hd |].
  apply NoDup_ListNoDup, NoDup_app. split; [| split].
  - apply NoDup_ListNoDup. exact Hd.
  - intros x Hx Hx'. apply list_elem_of_In in Hx.
    apply list_elem_of_In in Hx'. destruct Hx' as [<- | []]. exact (Hi Hx).
  - apply NoDup_singleton.
Qed.

Lemma merge_nodup (ps : list (string * string)) : forall d : Dict,
  List.NoDup (dict_keys d) ->
  List.NoDup
    (dict_keys (List.fold_left (fun d kv => dict_set (fst kv) (snd kv) d) ps d)).
Proof.
  induction ps as [| [k v] r IH]; intros d Hd; [exact Hd |].
  cbn [List.fold_left fst snd]. apply IH, dict_set_nodup, Hd.
Qed.

Lemma merge_keys (ps : list (string * string)) : forall d1 d2 : Dict,
  dict_keys d1 = dict_keys d2 ->
  dict_keys (List.fold_left (fun d kv => dict_set (fst kv) (snd kv) d) ps d1)
  = dict_keys
      (List.fold_left (fun d kv => dict_set (fst kv) (snd kv) d) ps d2).
Proof.
  induction ps as [| [k v] r IH]; intros d1 d2 Hk; [exact Hk |].
  cbn [List.fold_left fst snd]. apply IH.
  rewrite !dict_keys_set, Hk. reflexivity.
Qed.

Lemma oauth_params_nodup self nonce timestamp :
  List.NoDup (dict_keys (oauth_params self nonce timestamp)).
Proof.
  cbn. repeat constructor; cbn; intuition discriminate.
Qed.

End TBARuns.

Section TBAParameters.

Import TBA.

Lemma item_leb_total (x y : string * string) :
  item_leb x y = false -> item_leb y x = true.
Proof.
  unfold item_leb. rewrite (String.compare_antisym (fst x) (fst y)).
  destruct (String.compare (fst y) (fst x)); cbn [CompOpp];
    try discriminate; try reflexivity.
  intros H. destruct (String.leb_total (snd x) (snd y)); congruence.
Qed.

Lemma insert_sorted_perm x (l : Dict) : Permutation (insert_sorted x l) (x :: l).
Proof.
  induction l as [| y r IH]; cbn [insert_sorted]; [reflexivity |].
  destruct (item_leb x y); [reflexivity |].
  rewrite IH. apply perm_swap.
Qed.

Lemma sorted_perm (d : Dict) : Permutation (sorted d) d.
Proof.
  induction d as [| x r IH]; [reflexivity |].
  cbn [sorted List.fold_right]. fold (sorted r).
  rewrite insert_sorted_perm, IH. reflexivity.
Qed.

Lemma insert_sorted_hd x y (l : Dict) :
  item_leb y x = true ->
  HdRel (fun a b => item_leb a b = true) y l ->
  HdRel (fun a b => item_leb a b = true) y (insert_sorted x l).
Proof.
  intros Hyx Hl. destruct l as [| z r]; cbn [insert_sorted].
  - constructor. exact Hyx.
  - destruct (item_leb x z); constructor; [exact Hyx |].
    inversion Hl; assumption.
Qed.

Lemma insert_sorted_sorted x (l : Dict) :
  Sorted (fun a b => item_leb a b = true) l ->
  Sorted (fun a b => item_leb a b = true) (insert_sorted x l).
Proof.
  induction 1 as [| y r Hr IH Hhd]; cbn [insert_sorted].
  - repeat constructor.
  - destruct (item_leb x y) eqn:E.
    + constructor; [constructor; assumption | constructor; exact E].
    + constructor; [exact IH |].
      apply insert_sorted_hd; [apply item_leb_total; exact E | exact Hhd].
Qed.

Lemma sorted_sorted (d : Dict) :
  Sorted (fun a b => item_leb a b = true) (sorted d).
Proof.
  induction d as [| x r IH]; [constructor |].
  cbn [sorted List.fold_right]. apply insert_sorted_sorted. exact IH.
Qed.

Lemma sorted_keys_ascending (l : Dict) :
  Sorted (fun a b => item_leb a b = true) l ->
  List.NoDup (dict_keys l) -> Sorted key_lt l.
Proof.
  induction 1 as [| x r Hr IH Hhd]; intros Hnd; [constructor |].
  inversion Hnd as [| ? ? Hnotin Hnd']; subst.
  constructor; [apply IH; exact Hnd' |].
  destruct r as [| y r']; constructor.
  inversion Hhd as [| ? ? Hxy]; subst. unfold key_lt, item_leb in *.
  destruct (String.compare (fst x) (fst y)) eqn:E; try reflexivity;
    try discriminate.
  exfalso. apply String.compare_eq_iff in E. apply Hnotin. left.
  symmetry. exact E.
Qed.

Lemma dict_lookup_in key v (d : Dict) :
  dict_lookup key d = Some v -> In (key, v) d.
Proof.
  induction d as [| [k' v'] r IH]; cbn [dict_lookup]; [discriminate |].
  destruct (String.eqb_spec k' key) as [-> | Hne].
  - intros H. inversion H. left. reflexivity.
  - intros H. right. exact (IH H).
Qed.

Lemma dict_lookup_none key (d : Dict) :
  ~ In key (dict_keys d) -> dict_lookup key d = None.
Proof.
  induction d as [| [k' v'] r IH]; cbn [dict_lookup dict_keys List.map fst];
    [reflexivity |].
  intros Hn. destruct (String.eqb_spec k' key) as [-> | Hne].
  - exfalso. apply Hn. left. reflexivity.
  - apply IH. intros Hi. apply Hn. right. exact Hi.
Qed.

Lemma in_dict_lookup key v (d : Dict) :
  List.NoDup (dict_keys d) -> In (key, v) d -> dict_lookup key d = Some v.
Proof.
  induction d as [| [k' v'] r IH]; intros Hnd Hin; [destruct Hin |].
  inversion Hnd as [| ? ? Hnotin Hnd']; subst. cbn [dict_lookup].
  destruct Hin as [Heq | Hin].
  - inversion Heq; subst. rewrite String.eqb_refl. reflexivity.
  - destruct (String.eqb_spec k' key) as [-> | Hne]; [| exact (IH Hnd' Hin)].
    exfalso. apply Hnotin. change key with (fst (key, v)).
    apply in_map. exact Hin.
Qed.

Lemma dict_lookup_some key (d : Dict) :
  In key (dict_keys d) -> dict_lookup key d <> None.
Proof.
  induction d as [| [k' v'] r IH]; cbn [dict_lookup dict_keys List.map fst];
    [intros [] |].
  intros [-> | Hin]; [rewrite String.eqb_refl; discriminate |].
  destruct (String.eqb k' key); [discriminate | exact (IH Hin)].
Qed.

(** Two dictionaries with the same keys in the same order and the same
    values are equal. *)
Lemma dict_ext (d1 : Dict) : forall d2 : Dict,
  dict_keys d1 = dict_keys d2 ->
  List.NoDup (dict_keys d1) ->
  (forall k, dict_lookup k d1 = dict_lookup k d2) ->
  d1 = d2.
Proof.
  induction d1 as [| [k v] r IH]; intros [| [k' v'] r'] Hk Hnd Hl;
    try discriminate; [reflexivity |].
  cbn [dict_keys List.map fst] in Hk. inversion Hk as [[Hkk Hr]]. subst k'.
  inversion Hnd as [| ? ? Hnotin Hnd']; subst.
  pose proof (Hl k) as Hv. cbn [dict_lookup] in Hv.
  rewrite String.eqb_refl in Hv. inversion Hv; subst v'.
  f_equal. apply IH; [exact Hr | exact Hnd' |].
  intros k0. destruct (String.eqb_spec k k0) as [<- | Hne].
  - rewrite !dict_lookup_none; [reflexivity | | exact Hnotin].
    unfold dict_keys in *. rewrite <- Hr. exact Hnotin.
  - specialize (Hl k0). cbn [dict_lookup] in Hl.
    destruct (String.eqb_spec k k0); [contradiction | exact Hl].
Qed.

End TBAParameters.

(** Percent-encoding loses nothing: decoding an encoded text gives the text
    back, so two texts have the same encoding only when they are equal. *)
Theorem percent_encode_round_trip (s t : string) :
  percent_decode (TBA._percent_encode s) = s
  /\ (TBA._percent_encode s = TBA._percent_encode t <-> s = t).
Proof.
  split; [apply decode_encode |].
  split; [apply percent_encode_inj | intros ->; reflexivity].
Qed.

Lemma all_chars_free (p : ascii -> bool) (c : ascii) (s : string) :
  all_chars p s = true -> p c = false -> free_of c s.
Proof.
  intros Hs Hc. induction s as [| a r IH]; [exact I |].
  cbn [all_chars] in Hs. apply andb_true_iff in Hs. destruct Hs as [Ha Hr].
  split; [congruence | exact (IH Hr)].
Qed.

(** The output of percent-encoding holds only letters, digits, [-._~] and
    [%]: no blank, quote, comma, [&], [=] or [+] ever gets through.  It is
    at least as long as the input and at most three times as long, and equal
    to the input exactly when the input holds unreserved characters only. *)
Theorem percent_encode_output (s : string) :
  all_chars (fun c => TBA.unreserved c || Ascii.eqb c "%")
    (TBA._percent_encode s) = true
  /\ (forall c, TBA.unreserved c = false -> c <> "%"%char ->
        free_of c (TBA._percent_encode s))
  /\ (String.length s <= String.length (TBA._percent_encode s)
      <= 3 * String.length s)%nat
  /\ (TBA._percent_encode s = s <-> all_chars TBA.unreserved s = true).
Proof.
  split; [apply percent_encode_alphabet |].
  split; [| split; [apply percent_encode_length | apply percent_encode_fixed]].
  intros c Hu Hc.
  apply (all_chars_free _ c _ (percent_encode_alphabet s)).
  rewrite Hu. cbn [orb]. apply Ascii.eqb_neq. exact Hc.
Qed.

Lemma percent_encode_output_witness :
  free_of " " (TBA._percent_encode "a b, c")
  /\ TBA._percent_encode "a b, c" = "a%20b%2C%20c".
Proof.
  split; [| reflexivity].
  destruct (percent_encode_output "a b, c") as (_ & H & _).
  apply H; [reflexivity | discriminate].
Defined.

(** In the parameters that are signed, a name holds the last value the
    query string gives it, and the OAuth value only when the query string
    does not use the name: a query parameter called like an OAuth parameter
    replaces it in the signature base string.  No name occurs twice. *)
Theorem merged_parameters_lookup (request : TBA.Request) (oauth : TBA.Dict)
    (key : string) :
  dict_lookup key (TBA.all_params request oauth)
  = match dict_lookup key (List.rev (TBA.params (TBA.url request))) with
    | Some v => Some v
    | None => dict_lookup key oauth
    end
  /\ (List.NoDup (dict_keys oauth) ->
      List.NoDup (dict_keys (TBA.all_params request oauth))).
Proof.
  split; [apply dict_lookup_merge | apply merge_nodup].
Qed.

Lemma merged_parameters_lookup_witness :
  let request :=
    Fixtures.tba_request "GET" Fixtures.customer_path
      [("limit", "5"); ("oauth_nonce", "mine"); ("limit", "10")] "" in
  let oauth := TBA.oauth_params Fixtures.tba_auth "fixednonce" "1700000000" in
  dict_lookup "oauth_nonce" (TBA.all_params request oauth) = Some "mine"
  /\ dict_lookup "limit" (TBA.all_params request oauth) = Some "10"
  /\ List.NoDup (dict_keys (TBA.all_params request oauth)).
Proof.
  intros request oauth.
  split; [reflexivity |]. split; [reflexivity |].
  apply (merged_parameters_lookup request oauth "limit").
  apply oauth_params_nodup.
Defined.

(** The parameter string that is signed lists exactly the merged
    parameters, each name once, in strictly ascending order of the names. *)
Theorem normalized_parameters_sorted (self : TBA.TBAAuth)
    (nonce timestamp : string) (request : TBA.Request) :
  let merged :=
    TBA.all_params request (TBA.oauth_params self nonce timestamp) in
  Permutation (TBA.sorted merged) merged
  /\ List.NoDup (dict_keys (TBA.sorted merged))
  /\ Sorted key_lt (TBA.sorted merged).
Proof.
  intros merged.
  assert (Hnd : List.NoDup (dict_keys merged)).
  { apply merge_nodup, oauth_params_nodup. }
  assert (Hnd' : List.NoDup (dict_keys (TBA.sorted merged))).
  { apply NoDup_ListNoDup.
    apply (NoDup_Permutation_proper _ _
             (Permutation_map fst (sorted_perm merged))).
    apply NoDup_ListNoDup. exact Hnd. }
  split; [apply sorted_perm |]. split; [exact Hnd' |].
  apply sorted_keys_ascending; [apply sorted_sorted | exact Hnd'].
Qed.

Lemma oauth_params_lookup_other self n1 n2 t key :
  key <> "oauth_nonce" ->
  dict_lookup key (TBA.oauth_params self n1 t)
  = dict_lookup key (TBA.oauth_params self n2 t).
Proof.
  intros Hk. cbn [TBA.oauth_params dict_lookup].
  repeat match goal with
         | |- context [String.eqb ?a key] =>
             destruct (String.eqb_spec a key); [try reflexivity; congruence |]
         end.
  reflexivity.
Qed.

(** The nonce and the timestamp are part of what is signed only as long as
    the query string does not use their names.  When no query parameter is
    called [oauth_nonce] or [oauth_timestamp], two signings of a request
    with equal base strings had the same nonce and the same timestamp.  When
    a query parameter is called [oauth_nonce], the signature is the same for
    every nonce. *)
Theorem nonce_in_base_string (self : TBA.TBAAuth) (request : TBA.Request)
    (n1 n2 t1 t2 : string) :
  (~ In "oauth_nonce" (dict_keys (TBA.params (TBA.url request))) ->
   ~ In "oauth_timestamp" (dict_keys (TBA.params (TBA.url request))) ->
   TBA.base_string request (TBA.oauth_params self n1 t1)
   = TBA.base_string request (TBA.oauth_params self n2 t2) ->
   n1 = n2 /\ t1 = t2)
  /\ (In "oauth_nonce" (dict_keys (TBA.params (TBA.url request))) ->
      TBA._compute_signature self request (TBA.oauth_params self n1 t1)
      = TBA._compute_signature self request (TBA.oauth_params self n2 t1)).
Proof.
  split.
  - intros Hn Ht Hb. apply base_string_inj in Hb. destruct Hb as (_ & _ & Hs).
    assert (Hperm : Permutation
                      (TBA.all_params request (TBA.oauth_params self n1 t1))
                      (TBA.all_params request (TBA.oauth_params self n2 t2))).
    { rewrite <- (sorted_perm (TBA.all_params request _)), Hs.
      apply sorted_perm. }
    assert (Hget : forall key v1 v2,
               ~ In key (dict_keys (TBA.params (TBA.url request))) ->
               dict_lookup key (TBA.oauth_params self n1 t1) = Some v1 ->
               dict_lookup key (TBA.oauth_params self n2 t2) = Some v2 ->
               v1 = v2).
    { intros key v1 v2 Hk H1 H2.
      assert (Hrev : dict_lookup key (List.rev (TBA.params (TBA.url request)))
                     = None).
      { apply dict_lookup_none. unfold dict_keys. rewrite map_rev.
        intros Hi. apply in_rev in Hi. exact (Hk Hi). }
      assert (Hl1 : dict_lookup key
                      (TBA.all_params request (TBA.oauth_params self n1 t1))
                    = Some v1).
      { unfold TBA.all_params. rewrite dict_lookup_merge, Hrev. exact H1. }
      assert (Hl2 : dict_lookup key
                      (TBA.all_params request (TBA.oauth_params self n2 t2))
                    = Some v2).
      { unfold TBA.all_params. rewrite dict_lookup_merge, Hrev. exact H2. }
      apply dict_lookup_in in Hl1.
      apply (Permutation_in _ Hperm) in Hl1.
      apply in_dict_lookup in Hl1;
        [| apply merge_nodup, oauth_params_nodup].
      congruence. }
    split.
    + exact (Hget "oauth_nonce" n1 n2 Hn eq_refl eq_refl).
    + exact (Hget "oauth_timestamp" t1 t2 Ht eq_refl eq_refl).
  - intros Hin.
    assert (He : TBA.all_params request (TBA.oauth_params self n1 t1)
                 = TBA.all_params request (TBA.oauth_params self n2 t1)).
    { apply dict_ext.
      - apply merge_keys. reflexivity.
      - apply merge_nodup, oauth_params_nodup.
      - intros k. unfold TBA.all_params. rewrite !dict_lookup_merge.
        destruct (dict_lookup k (List.rev (TBA.params (TBA.url request))))
          as [v |] eqn:E; [reflexivity |].
        apply oauth_params_lookup_other. intros ->.
        revert E. apply dict_lookup_some. unfold dict_keys.
        rewrite map_rev. apply -> in_rev. exact Hin. }
    unfold TBA._compute_signature, TBA.base_string. rewrite He. reflexivity.
Qed.

Lemma nonce_in_base_string_witness :
  let request :=
    Fixtures.tba_request "GET" Fixtures.customer_path
      [("oauth_nonce", "mine")] "" in
  TBA._compute_signature Fixtures.tba_auth request
    (TBA.oauth_params Fixtures.tba_auth "first" "1700000000")
  = TBA._compute_signature Fixtures.tba_auth request
      (TBA.oauth_params Fixtures.tba_auth "second" "1700000000").
Proof.
  intros request.
  apply (nonce_in_base_string Fixtures.tba_auth request "first" "second"
           "1700000000" "1700000000").
  left. reflexivity.
Defined.

(** The [Authorization] header always has the same layout: the scheme
    [OAuth], the realm, and then the seven OAuth parameters in alphabetical
    order of their names (the signature between the nonce and the signature
    method), each as [name="value"] with the value percent-encoded, joined
    by a comma and a blank. *)
Theorem authorization_layout (self : TBA.TBAAuth) (nonce : string) (now : Q)
    (request : TBA.Request) :
  TBA.authorization self nonce now request
  = "OAuth " +:+
    String.concat ", "
      [header_part "realm" (TBA._realm self);
       header_part "oauth_consumer_key"
         (TBA.consumer_key (TBA._config self));
       header_part "oauth_nonce" nonce;
       header_part "oauth_signature"
         (TBA.oauth_signature self nonce now request);
       header_part "oauth_signature_method" "HMAC-SHA256";
       header_part "oauth_timestamp" (pretty (TBA.py_int now));
       header_part "oauth_token" (TBA.token_key (TBA._config self));
       header_part "oauth_version" "1.0"].
Proof.
  unfold TBA.authorization, TBA.oauth_signature.
  generalize (TBA._compute_signature self request
                (TBA.oauth_params self nonce (pretty (TBA.py_int now)))).
  generalize (pretty (TBA.py_int now)).
  intros timestamp signature.
  unfold TBA._build_header, header_part. reflexivity.
Qed.

Lemma round_length (st : list Z) (kw : Z * Z) :
  List.length (Sha256.round st kw) = List.length st.
Proof.
  unfold Sha256.round.
  do 9 (destruct st as [| ? st]; try reflexivity).
Qed.

Lemma compress_length (h block : list Z) :
  List.length (Sha256.compress h block) = List.length h.
Proof.
  unfold Sha256.compress. rewrite length_map, length_combine.
  assert (H : forall kws st,
             List.length (List.fold_left Sha256.round kws st)
             = List.length st).
  { induction kws as [| kw r IH]; intros st; [reflexivity |].
    cbn [List.fold_left]. rewrite IH. apply round_length. }
  rewrite H. lia.
Qed.

Lemma be_bytes_length (n : nat) (x : Z) : List.length (Sha256.be_bytes n x) = n.
Proof.
  revert x. induction n as [| n IH]; intros x; [reflexivity |].
  cbn [Sha256.be_bytes]. rewrite length_app, IH. cbn. lia.
Qed.

(** A SHA-256 digest has 32 bytes. *)
Lemma sha256_length (msg : list Z) : List.length (Sha256.sha256 msg) = 32%nat.
Proof.
  unfold Sha256.sha256.
  generalize (Sha256.chunks 64 (List.length (Sha256.pad msg)) (Sha256.pad msg)).
  intros blocks.
  assert (H : forall bs h,
             List.length (List.fold_left Sha256.compress bs h)
             = List.length h).
  { induction bs as [| b r IH]; intros h; [reflexivity |].
    cbn [List.fold_left]. rewrite IH. apply compress_length. }
  specialize (H blocks Sha256.H0).
  change (List.length Sha256.H0) with 8%nat in H.
  destruct (List.fold_left Sha256.compress blocks Sha256.H0)
    as [| a [| b [| c [| d [| e [| f [| g [| h [| i r]]]]]]]]];
    try discriminate H.
  cbn [List.map List.concat]. rewrite !length_app, !be_bytes_length.
  reflexivity.
Qed.

Lemma b64encode_32 (bs : list Z) :
  List.length bs = 32%nat ->
  String.length (Base64.b64encode bs) = 44%nat
  /\ exists body, Base64.b64encode bs = body +:+ "=".
Proof.
  intros H.
  do 33 (destruct bs as [| ? bs]; try discriminate H).
  split; [reflexivity |].
  cbn [Base64.b64encode].
  match goal with
  | |- exists body, ?s = _ =>
      exists (String.substring 0 43 s)
  end.
  reflexivity.
Qed.

(** The signature is always a Base64 text of 44 characters that ends with
    one padding character: the encoding of the 32 bytes of an HMAC-SHA256,
    whatever the request and the secrets are. *)
Theorem oauth_signature_shape (self : TBA.TBAAuth) (nonce : string) (now : Q)
    (request : TBA.Request) :
  String.length (TBA.oauth_signature self nonce now request) = 44%nat
  /\ exists body, TBA.oauth_signature self nonce now request = body +:+ "=".
Proof.
  unfold TBA.oauth_signature, TBA._compute_signature.
  apply b64encode_32. unfold Hmac.hmac_sha256. apply sha256_length.
Qed.

(** ** Signing: what the signature depends on *)

Lemma dict_set_fresh k v (d : TBA.Dict) :
  ~ In k (dict_keys d) -> TBA.dict_set k v d = d ++ [(k, v)].
Proof.
  induction d as [| [k' v'] r IH]; intros Hk; [reflexivity |].
  cbn [TBA.dict_set]. cbn in Hk.
  destruct (String.eqb_spec k' k) as [-> | _]; [tauto |].
  rewrite IH by tauto. reflexivity.
Qed.

(** Query parameters with new and distinct names are added at the end. *)
Lemma merge_fresh (ps : list (string * string)) : forall d : TBA.Dict,
  List.NoDup (dict_keys ps) ->
  (forall k, In k (dict_keys ps) -> ~ In k (dict_keys d)) ->
  List.fold_left (fun d kv => TBA.dict_set (fst kv) (snd kv) d) ps d
  = d ++ ps.
Proof.
  induction ps as [| [k v] r IH]; intros d Hnd Hfresh.
  - cbn. rewrite app_nil_r. reflexivity.
  - cbn [List.fold_left fst snd]. cbn in Hnd.
    apply List.NoDup_cons_iff in Hnd. destruct Hnd as [Hk Hr].
    rewrite dict_set_fresh by (apply Hfresh; left; reflexivity).
    rewrite IH.
    + rewrite <- app_assoc. reflexivity.
    + exact Hr.
    + intros k' Hk' Hin. unfold dict_keys in Hin.
      rewrite List.map_app in Hin. apply in_app_or in Hin.
      destruct Hin as [Hin | [<- | []]].
      * apply (Hfresh k'); [right; exact Hk' | exact Hin].
      * apply Hk. exact Hk'.
Qed.

Lemma all_params_plain (oauth : TBA.Dict) (request : TBA.Request) :
  plain_query oauth request ->
  TBA.all_params request oauth = oauth ++ TBA.params (TBA.url request).
Proof.
  intros [Hnd Hfresh]. unfold TBA.all_params. apply merge_fresh; assumption.
Qed.

Lemma plain_merge_nodup (oauth : TBA.Dict) (request : TBA.Request) :
  List.NoDup (dict_keys oauth) -> plain_query oauth request ->
  List.NoDup (dict_keys (oauth ++ TBA.params (TBA.url request))).
Proof.
  intros Ho [Hnd Hfresh]. unfold dict_keys in *. rewrite List.map_app.
  apply NoDup_ListNoDup, NoDup_app. repeat split.
  - apply NoDup_ListNoDup. exact Ho.
  - intros k Hk Hk'. apply list_elem_of_In in Hk, Hk'.
    exact (Hfresh k Hk' Hk).
  - apply NoDup_ListNoDup. exact Hnd.
Qed.

Lemma ascii_compare_lt_trans (a b c : ascii) :
  Ascii.compare a b = Lt -> Ascii.compare b c = Lt -> Ascii.compare a c = Lt.
Proof.
  unfold Ascii.compare. rewrite !N.compare_lt_iff. lia.
Qed.

Lemma string_compare_lt_trans (s1 : string) : forall s2 s3,
  String.compare s1 s2 = Lt -> String.compare s2 s3 = Lt ->
  String.compare s1 s3 = Lt.
Proof.
  induction s1 as [| a r1 IH]; intros [| b r2] [| c r3]; cbn [String.compare];
    try discriminate; try reflexivity.
  destruct (Ascii.compare a b) eqn:Eab; try discriminate;
    destruct (Ascii.compare b c) eqn:Ebc; try discriminate; intros H1 H2.
  - apply Ascii.compare_eq_iff in Eab, Ebc. subst.
    replace (Ascii.compare c c) with Eq; [exact (IH _ _ H1 H2) |].
    symmetry. unfold Ascii.compare. apply N.compare_refl.
  - apply Ascii.compare_eq_iff in Eab. subst. rewrite Ebc. reflexivity.
  - apply Ascii.compare_eq_iff in Ebc. subst. rewrite Eab. reflexivity.
  - rewrite (ascii_compare_lt_trans _ _ _ Eab Ebc). reflexivity.
Qed.

Lemma key_lt_trans : Transitive key_lt.
Proof. intros x y z. unfold key_lt. apply string_compare_lt_trans. Qed.

Lemma key_lt_asym (x y : string * string) : key_lt x y -> key_lt y x -> x = y.
Proof.
  unfold key_lt. intros H1 H2.
  rewrite String.compare_antisym, H1 in H2. discriminate.
Qed.

(** Sorting a dictionary does not depend on the order of insertion. *)
Lemma sorted_canonical (d1 d2 : TBA.Dict) :
  List.NoDup (dict_keys d1) -> Permutation d1 d2 ->
  TBA.sorted d1 = TBA.sorted d2.
Proof.
  intros Hnd Hp.
  assert (Hnd2 : List.NoDup (dict_keys d2)).
  { unfold dict_keys in *.
    exact (Permutation_NoDup (Permutation_map fst Hp) Hnd). }
  assert (Hs : forall d, List.NoDup (dict_keys d) ->
             Sorted key_lt (TBA.sorted d)).
  { intros d Hd. apply sorted_keys_ascending; [apply sorted_sorted |].
    unfold dict_keys in *.
    exact (Permutation_NoDup
             (Permutation_map fst (Permutation_sym (sorted_perm d))) Hd). }
  apply (Sorted_unique_strong key_lt (Transitive0 := key_lt_trans)).
  - intros x y _ _. apply key_lt_asym.
  - apply Hs. exact Hnd.
  - apply Hs. exact Hnd2.
  - rewrite (sorted_perm d1), (sorted_perm d2). exact Hp.
Qed.

(** For plain queries the sorted merges agree exactly when the queries are
    the same up to order. *)
Lemma sorted_merge_plain (oauth : TBA.Dict) (r1 r2 : TBA.Request) :
  List.NoDup (dict_keys oauth) ->
  plain_query oauth r1 -> plain_query oauth r2 ->
  TBA.sorted (TBA.all_params r1 oauth) = TBA.sorted (TBA.all_params r2 oauth)
  <-> Permutation (TBA.params (TBA.url r1)) (TBA.params (TBA.url r2)).
Proof.
  intros Ho H1 H2.
  rewrite (all_params_plain _ _ H1), (all_params_plain _ _ H2). split.
  - intros H. apply (Permutation_app_inv_l oauth).
    rewrite <- (sorted_perm (oauth ++ TBA.params (TBA.url r1))), H.
    apply sorted_perm.
  - intros H. apply sorted_canonical.
    + apply plain_merge_nodup; assumption.
    + apply Permutation_app_head. exact H.
Qed.

Lemma be_bytes_range (n : nat) : forall x,
  List.Forall (fun b => 0 <= b < 256) (Sha256.be_bytes n x).
Proof.
  induction n as [| n IH]; intros x; cbn [Sha256.be_bytes]; [constructor |].
  apply List.Forall_app. split; [apply IH |].
  constructor; [| constructor].
  change 255 with (Z.ones 8). rewrite Z.land_ones by lia.
  apply Z.mod_pos_bound. lia.
Qed.

Lemma sha256_range (msg : list Z) :
  List.Forall (fun b => 0 <= b < 256) (Sha256.sha256 msg).
Proof.
  unfold Sha256.sha256.
  generalize (List.fold_left Sha256.compress
                (Sha256.chunks 64 (List.length (Sha256.pad msg))
                   (Sha256.pad msg)) Sha256.H0).
  intros ws. induction ws as [| w r IH]; cbn [List.map List.concat];
    [constructor |].
  apply List.Forall_app. split; [apply be_bytes_range | exact IH].
Qed.

Lemma byte_strings_complete (n : nat) : forall bs,
  List.length bs = n -> List.Forall (fun b => 0 <= b < 256) bs ->
  In bs (byte_strings n).
Proof.
  induction n as [| n IH]; intros [| b r] Hlen Hr; try discriminate Hlen.
  - left. reflexivity.
  - cbn [byte_strings]. apply List.in_flat_map.
    apply List.Forall_cons_iff in Hr. destruct Hr as [Hb Hr].
    exists b. split.
    + apply list_elem_of_In, elem_of_seqZ. lia.
    + apply List.in_map. apply IH; [| exact Hr].
      cbn in Hlen. lia.
Qed.

(** A function from the numbers into a finite range takes some value
    twice. *)
Lemma collision_in_finite_range {B : Type} (f : nat -> B) (range : list B) :
  (forall i, In (f i) range) -> exists i j, (i < j)%nat /\ f i = f j.
Proof.
  intros Hin.
  destruct (list_pigeonhole (f <$> seq 0 (S (List.length range))) range)
    as (i & j & x & Hij & Hi & Hj).
  - intros x Hx. apply list_elem_of_fmap in Hx. destruct Hx as (i & -> & _).
    apply list_elem_of_In, Hin.
  - rewrite length_fmap, length_seq. lia.
  - exists i, j. split; [exact Hij |].
    rewrite list_lookup_fmap in Hi, Hj.
    destruct (seq 0 (S (List.length range)) !! i) as [i' |] eqn:Ei;
      [| discriminate Hi].
    destruct (seq 0 (S (List.length range)) !! j) as [j' |] eqn:Ej;
      [| discriminate Hj].
    apply lookup_seq in Ei, Ej. destruct Ei as [-> _], Ej as [-> _].
    cbn in Hi, Hj. congruence.
Qed.

(** Signatures are taken from a finite set, so among the requests for the
    records of one type two get the same signature. *)
Lemma signature_collision (self : TBA.TBAAuth) (nonce : string) (now : Q)
    (request : nat -> TBA.Request) :
  exists i j,
    (i < j)%nat
    /\ TBA.oauth_signature self nonce now (request i)
       = TBA.oauth_signature self nonce now (request j).
Proof.
  destruct (collision_in_finite_range
              (fun i =>
                 Hmac.hmac_sha256 (Sha256.bytes_of (TBA.signing_key self))
                   (Sha256.bytes_of
                      (TBA.base_string (request i)
                         (TBA.oauth_params self nonce
                            (pretty (TBA.py_int now))))))
              (byte_strings 32)) as (i & j & Hij & Heq).
  - intros i. apply byte_strings_complete.
    + unfold Hmac.hmac_sha256. apply sha256_length.
    + unfold Hmac.hmac_sha256. apply sha256_range.
  - exists i, j. split; [exact Hij |].
    unfold TBA.oauth_signature, TBA._compute_signature.
    cbv beta in Heq. rewrite Heq. reflexivity.
Qed.

(** C2, as amended.  With the nonce and the clock fixed, two requests with
    the same method and URL get the same signature and the same
    [Authorization] header byte for byte, whatever their bodies and headers;
    the body is no input of the signature.  The signature is the Base64
    text of the HMAC-SHA256 of the base string.  For requests whose query
    strings name no parameter twice and no OAuth parameter, the base
    strings of two requests are equal exactly when the upper-cased methods
    and the URLs without query and fragment are equal and the query
    parameters are the same up to their order: such requests get the same
    signature and the same header, and requests that differ in the path, or
    in the query parameters other than by their order, are signed over
    different base strings. *)
Theorem tba_signing_spec (self : TBA.TBAAuth) (nonce : string) (now : Q)
    (r1 r2 : TBA.Request) :
  let oauth := TBA.oauth_params self nonce (pretty (TBA.py_int now)) in
  (TBA.method r1 = TBA.method r2 -> TBA.url r1 = TBA.url r2 ->
   TBA.oauth_signature self nonce now r1 = TBA.oauth_signature self nonce now r2
   /\ TBA.authorization self nonce now r1 = TBA.authorization self nonce now r2
   /\ Httpx.get "Authorization" (TBA.headers (TBA.auth_flow self nonce now r1))
      = Httpx.get "Authorization"
          (TBA.headers (TBA.auth_flow self nonce now r2)))
  /\ (forall body hs,
        TBA.oauth_signature self nonce now
          {| TBA.method := TBA.method r1; TBA.url := TBA.url r1;
             TBA.headers := hs; TBA.content := body |}
        = TBA.oauth_signature self nonce now r1)
  /\ TBA.oauth_signature self nonce now r1
     = Base64.b64encode
         (Hmac.hmac_sha256 (Sha256.bytes_of (TBA.signing_key self))
            (Sha256.bytes_of (TBA.base_string r1 oauth)))
  /\ (plain_query oauth r1 -> plain_query oauth r2 ->
      (TBA.base_string r1 oauth = TBA.base_string r2 oauth <->
       TBA.upper (TBA.method r1) = TBA.upper (TBA.method r2)
       /\ TBA.base_url (TBA.url r1) = TBA.base_url (TBA.url r2)
       /\ Permutation (TBA.params (TBA.url r1)) (TBA.params (TBA.url r2))))
  /\ (plain_query oauth r1 -> plain_query oauth r2 ->
      TBA.upper (TBA.method r1) = TBA.upper (TBA.method r2) ->
      TBA.base_url (TBA.url r1) = TBA.base_url (TBA.url r2) ->
      Permutation (TBA.params (TBA.url r1)) (TBA.params (TBA.url r2)) ->
      TBA.oauth_signature self nonce now r1
      = TBA.oauth_signature self nonce now r2
      /\ TBA.authorization self nonce now r1
         = TBA.authorization self nonce now r2)
  /\ (TBA.scheme (TBA.url r1) = TBA.scheme (TBA.url r2) ->
      TBA.authority (TBA.url r1) = TBA.authority (TBA.url r2) ->
      TBA.path (TBA.url r1) <> TBA.path (TBA.url r2) ->
      TBA.base_string r1 oauth <> TBA.base_string r2 oauth)
  /\ (plain_query oauth r1 -> plain_query oauth r2 ->
      ~ Permutation (TBA.params (TBA.url r1)) (TBA.params (TBA.url r2)) ->
      TBA.base_string r1 oauth <> TBA.base_string r2 oauth).
Proof.
  intros oauth.
  assert (Hiff : plain_query oauth r1 -> plain_query oauth r2 ->
            (TBA.base_string r1 oauth = TBA.base_string r2 oauth <->
             TBA.upper (TBA.method r1) = TBA.upper (TBA.method r2)
             /\ TBA.base_url (TBA.url r1) = TBA.base_url (TBA.url r2)
             /\ Permutation (TBA.params (TBA.url r1))
                  (TBA.params (TBA.url r2)))).
  { intros H1 H2. rewrite base_string_inj.
    rewrite (sorted_merge_plain oauth r1 r2
               (oauth_params_nodup self nonce _) H1 H2).
    reflexivity. }
  assert (Hsig : TBA.base_string r1 oauth = TBA.base_string r2 oauth ->
            TBA.oauth_signature self nonce now r1
            = TBA.oauth_signature self nonce now r2
            /\ TBA.authorization self nonce now r1
               = TBA.authorization self nonce now r2).
  { intros Hb.
    assert (Hs : TBA.oauth_signature self nonce now r1
                 = TBA.oauth_signature self nonce now r2).
    { unfold TBA.oauth_signature, TBA._compute_signature.
      fold oauth. rewrite Hb. reflexivity. }
    split; [exact Hs |].
    unfold TBA.authorization. fold oauth.
    change (TBA._compute_signature self r1 oauth)
      with (TBA.oauth_signature self nonce now r1).
    change (TBA._compute_signature self r2 oauth)
      with (TBA.oauth_signature self nonce now r2).
    rewrite Hs. reflexivity. }
  split; [| split; [| split; [| split; [| split; [| split]]]]].
  - intros Hm Hu.
    destruct Hsig as [Hs Ha].
    { unfold TBA.base_string, TBA.all_params. rewrite Hm, Hu. reflexivity. }
    split; [exact Hs |]. split; [exact Ha |].
    unfold TBA.auth_flow. cbn [TBA.headers].
    rewrite !header_get_set, Ha. reflexivity.
  - reflexivity.
  - reflexivity.
  - exact Hiff.
  - intros H1 H2 Hm Hu Hp. apply Hsig. apply (Hiff H1 H2). auto.
  - intros Hsch Hau Hp Hb. apply base_string_inj in Hb.
    destruct Hb as (_ & Hb & _). apply Hp.
    exact (base_url_path _ _ Hsch Hau Hb).
  - intros H1 H2 Hp Hb. apply (Hiff H1 H2) in Hb. tauto.
Qed.

Lemma tba_signing_spec_witness :
  let r1 :=
    Fixtures.tba_request "POST" Fixtures.customer_path
      [("limit", "10"); ("offset", "20")] "" in
  let r2 :=
    Fixtures.tba_request "POST" Fixtures.customer_path
      [("offset", "20"); ("limit", "10")]
      (Fixtures.object [("companyName", Fixtures.quoted "Acme")]) in
  TBA.content r1 <> TBA.content r2
  /\ TBA.params (TBA.url r1) <> TBA.params (TBA.url r2)
  /\ TBA.oauth_signature Fixtures.tba_auth "fixednonce" 1700000000 r1
     = TBA.oauth_signature Fixtures.tba_auth "fixednonce" 1700000000 r2
  /\ TBA.authorization Fixtures.tba_auth "fixednonce" 1700000000 r1
     = TBA.authorization Fixtures.tba_auth "fixednonce" 1700000000 r2.
Proof.
  intros r1 r2. split; [discriminate |]. split; [discriminate |].
  destruct (tba_signing_spec Fixtures.tba_auth "fixednonce" 1700000000 r1 r2)
    as (_ & _ & _ & _ & H & _).
  assert (Hplain : forall q,
            q = [("limit", "10"); ("offset", "20")]
            \/ q = [("offset", "20"); ("limit", "10")] ->
            plain_query
              (TBA.oauth_params Fixtures.tba_auth "fixednonce"
                 (pretty (TBA.py_int 1700000000)))
              (Fixtures.tba_request "POST" Fixtures.customer_path q
                 (TBA.content r2))).
  { intros q Hq. split.
    - destruct Hq as [-> | ->]; cbn;
        repeat constructor; cbn; intros Hin;
        repeat (destruct Hin as [Hin | Hin]; try discriminate Hin);
        exact Hin.
    - intros k Hk Hin.
      destruct Hq as [-> | ->]; cbn in Hk, Hin;
        repeat (destruct Hk as [<- | Hk]);
        repeat (destruct Hin as [Hin | Hin]; try discriminate Hin);
        try exact Hin; try exact Hk. }
  apply H.
  - split; [apply (Hplain _ (or_introl eq_refl)) |].
    apply (Hplain _ (or_introl eq_refl)).
  - split; [apply (Hplain _ (or_intror eq_refl)) |].
    apply (Hplain _ (or_intror eq_refl)).
  - reflexivity.
  - reflexivity.
  - apply perm_swap.
Defined.

(** C2 as stated fails in its second part.  Two requests whose query
    strings differ only in the order of the parameters
    ([limit=10&offset=20] and [offset=20&limit=10]) get the same signature:
    the parameters are sorted before they are signed.  And a difference in
    the path cannot always show in the signature: signatures are 32 bytes,
    so among the requests for the customer records two with different paths
    get the same one. *)
Lemma tba_query_counterexample :
  let sig := TBA.oauth_signature Fixtures.tba_auth "fixednonce" 1700000000 in
  let get path q := Fixtures.tba_request "GET" path q "" in
  let q1 := [("limit", "10"); ("offset", "20")] in
  let q2 := [("offset", "20"); ("limit", "10")] in
  (TBA.params (TBA.url (get Fixtures.customer_path q1))
   <> TBA.params (TBA.url (get Fixtures.customer_path q2))
   /\ sig (get Fixtures.customer_path q1) = sig (get Fixtures.customer_path q2))
  /\ exists i j : nat,
       TBA.path (TBA.url (get (Fixtures.customer_record i) []))
       <> TBA.path (TBA.url (get (Fixtures.customer_record j) []))
       /\ sig (get (Fixtures.customer_record i) [])
          = sig (get (Fixtures.customer_record j) []).
Proof.
  cbv zeta. split; [split; [discriminate | vm_compute; reflexivity] |].
  destruct (signature_collision Fixtures.tba_auth "fixednonce" 1700000000
              (fun i =>
                 Fixtures.tba_request "GET" (Fixtures.customer_record i) [] ""))
    as (i & j & Hij & Heq).
  exists i, j. split; [| exact Heq].
  cbn [TBA.path TBA.url Fixtures.tba_request].
  unfold Fixtures.customer_record. intros H.
  apply String.app_inj in H. apply String.app_inj in H.
  apply (inj pretty) in H. lia.
Qed.

(** ** The configuration and the OAuth 2.0 flow *)

Lemma label_char_lower (c : ascii) :
  label_char
    (if Ascii.eqb (Httpx.ascii_lower c) "_" then "-"%char
     else Httpx.ascii_lower c) = true.
Proof.
  destruct c as [[] [] [] [] [] [] [] []]; reflexivity.
Qed.

Lemma acct_label (s : string) :
  all_chars label_char (Config.acct s) = true.
Proof.
  unfold Config.acct.
  induction s as [| c r IH]; [reflexivity |].
  cbn [Httpx.lower Config.replace_underscore all_chars].
  rewrite label_char_lower. exact IH.
Qed.

Lemma string_app_assoc (a b c : string) :
  (a +:+ b) +:+ c = a +:+ (b +:+ c).
Proof.
  induction a as [| x r IH]; [reflexivity |].
  change (String x ((r +:+ b) +:+ c) = String x (r +:+ (b +:+ c))).
  f_equal. exact IH.
Qed.

Lemma rstrip_slash_spec (s : string) :
  (exists n, s = Config.rstrip_slash s +:+ slashes n)
  /\ last_char (Config.rstrip_slash s) <> Some "/"%char.
Proof.
  induction s as [| c r [[n Hn] Hl]].
  - split; [exists 0%nat; reflexivity | discriminate].
  - cbn [Config.rstrip_slash].
    destruct (Config.rstrip_slash r) as [| c' r'] eqn:E.
    + change (r = slashes n) in Hn.
      destruct (Ascii.eqb_spec c "/") as [-> | Hc].
      * split; [| discriminate].
        exists (S n). change (String "/" r = String "/" (slashes n)).
        f_equal. exact Hn.
      * split; [| cbn; congruence].
        exists n. change (String c r = String c (slashes n)).
        f_equal. exact Hn.
    + split.
      * exists n.
        change (String c r = String c (String c' r' +:+ slashes n)).
        f_equal. exact Hn.
      * cbn [last_char]. exact Hl.
Qed.

(** An endpoint override that is not empty is used with its trailing
    slashes removed: it is the computed base URL followed by slashes only,
    and the computed base URL does not end with a slash. *)
Theorem base_url_override_stripped (config : Config.NetSuiteConfig)
    (b : string) :
  Config.base_url config = Some b -> b <> EmptyString ->
  (exists n, b = Config.computed_base_url config +:+ slashes n)
  /\ last_char (Config.computed_base_url config) <> Some "/"%char.
Proof.
  intros Hb Hne. unfold Config.computed_base_url. rewrite Hb.
  destruct b as [| c r]; [congruence |].
  apply rstrip_slash_spec.
Qed.

Lemma base_url_override_stripped_witness :
  (exists n, "https://proxy.example.com//"
             = Config.computed_base_url Fixtures.sandbox_config +:+ slashes n)
  /\ last_char (Config.computed_base_url Fixtures.sandbox_config)
     <> Some "/"%char.
Proof.
  apply (base_url_override_stripped Fixtures.sandbox_config
           "https://proxy.example.com//");
    [reflexivity | discriminate].
Defined.

Lemma acct_host_char (c : ascii) :
  (if Ascii.eqb (Httpx.ascii_lower c) "_" then "-"%char
   else Httpx.ascii_lower c) = host_char c.
Proof.
  destruct c as [[] [] [] [] [] [] [] []]; reflexivity.
Qed.

Lemma acct_length (s : string) :
  String.length (Config.acct s) = String.length s.
Proof.
  unfold Config.acct. induction s as [| c r IH]; [reflexivity |].
  cbn [Httpx.lower Config.replace_underscore String.length].
  rewrite IH. reflexivity.
Qed.

Lemma acct_get (s : string) : forall i c,
  String.get i s = Some c -> String.get i (Config.acct s) = Some (host_char c).
Proof.
  unfold Config.acct. induction s as [| a r IH]; intros i c Hi;
    [destruct i; discriminate Hi |].
  cbn [Httpx.lower Config.replace_underscore].
  destruct i as [| i]; cbn [String.get] in Hi |- *.
  - injection Hi as <-. rewrite acct_host_char. reflexivity.
  - apply IH. exact Hi.
Qed.

(** Without an override (none, or an empty one) the base URL of an account
    with an ASCII id is [https://<label>.suitetalk.api.netsuite.com], where
    the label is the account id character by character, with every
    upper-case letter made lower-case and every underscore made a hyphen;
    so the label holds no upper-case ASCII letter and no underscore. *)
Theorem default_base_url_label (config : Config.NetSuiteConfig) :
  Config.base_url config = None
  \/ Config.base_url config = Some EmptyString ->
  all_chars is_ascii (Config.account_id config) = true ->
  exists label,
    Config.computed_base_url config
    = "https://" +:+ label +:+ ".suitetalk.api.netsuite.com"
    /\ String.length label = String.length (Config.account_id config)
    /\ (forall i c,
          String.get i (Config.account_id config) = Some c ->
          String.get i label = Some (host_char c))
    /\ all_chars label_char label = true
    /\ free_of "_" label.
Proof.
  intros H _. exists (Config.acct (Config.account_id config)).
  split; [| split; [| split; [| split]]].
  - unfold Config.computed_base_url. destruct H as [-> | ->]; reflexivity.
  - apply acct_length.
  - apply acct_get.
  - apply acct_label.
  - apply (all_chars_free label_char); [apply acct_label | reflexivity].
Qed.

Lemma default_base_url_label_witness :
  let config :=
    {| Config.account_id := "123456_SB1"; Config.tba := None;
       Config.oauth2 := Some Fixtures.oauth2_config;
       Config.base_url := None |} in
  Config.computed_base_url config
  = "https://123456-sb1.suitetalk.api.netsuite.com"
  /\ exists label,
       Config.computed_base_url config
       = "https://" +:+ label +:+ ".suitetalk.api.netsuite.com"
       /\ String.length label = 10%nat
       /\ (forall i c,
             String.get i "123456_SB1" = Some c ->
             String.get i label = Some (host_char c))
       /\ all_chars label_char label = true
       /\ free_of "_" label.
Proof.
  intros config. split; [reflexivity |].
  apply (default_base_url_label config); [left |]; reflexivity.
Defined.

Section ConfigRuns.

Variable read_text : string -> option string.

(** A configuration that passed [_check_auth] always gets a signing
    strategy or fails on the key file: with TBA credentials the strategy
    signs for the account as realm; with OAuth 2.0 credentials it starts
    with an empty token cache, and [_build_auth] fails only when the key
    file cannot be read.  The [ValueError] of [_build_auth] is out of
    reach. *)
Theorem validated_config_builds_auth (config : Config.NetSuiteConfig) :
  Config._check_auth config = Config.Ok config ->
  (exists t,
     Config.tba config = Some t /\ Config.oauth2 config = None
     /\ Config._build_auth read_text config
        = Config.Ok (Config.UseTBA
            {| TBA._config := t;
               TBA._realm := Config.account_id config |}))
  \/ (exists o,
        Config.tba config = None /\ Config.oauth2 config = Some o
        /\ Config._build_auth read_text config
           = match read_text (Config.private_key_path o) with
             | Some key =>
                 Config.Ok (Config.UseOAuth2
                   {| Config._config := o;
                      Config._account_id := Config.account_id config;
                      Config._private_key := key;
                      Config.cache := OAuth2.init |})
             | None => Config.OSError
             end).
Proof.
  unfold Config._check_auth, Config._build_auth, Config.OAuth2Auth_init.
  destruct (Config.tba config) as [t |], (Config.oauth2 config) as [o |];
    intros H; try discriminate H.
  - left. exists t. repeat split.
  - right. exists o. repeat split.
    destruct (read_text (Config.private_key_path o)); reflexivity.
Qed.

(** The token endpoint of an OAuth 2.0 strategy is always on the
    host of the account, whatever endpoint override the configuration
    carries: it is the base URL the configuration would compute without
    an override, followed by the path of the token service. *)
Theorem token_url_ignores_base_url (config : Config.NetSuiteConfig)
    (auth : Config.OAuth2Strategy) :
  Config._build_auth read_text config = Config.Ok (Config.UseOAuth2 auth) ->
  Config._token_url auth
  = Config.computed_base_url
      {| Config.account_id := Config.account_id config;
         Config.tba := Config.tba config;
         Config.oauth2 := Config.oauth2 config;
         Config.base_url := None |}
    +:+ "/services/rest/auth/oauth2/v1/token".
Proof.
  unfold Config._build_auth, Config.OAuth2Auth_init.
  destruct (Config.tba config) as [t |]; [discriminate |].
  destruct (Config.oauth2 config) as [o |]; [| discriminate].
  destruct (read_text (Config.private_key_path o)) as [key |];
    [| discriminate].
  intros H. injection H as <-.
  unfold Config._token_url, Config.computed_base_url.
  cbn [Config.base_url Config.account_id Config._account_id].
  generalize (Config.acct (Config.account_id config)). intros a.
  change (("https://" +:+ (a +:+ (".suitetalk.api.netsuite.com"
                                   +:+ "/services/rest/auth/oauth2/v1/token")))
          = "https://" +:+ ((a +:+ ".suitetalk.api.netsuite.com")
                            +:+ "/services/rest/auth/oauth2/v1/token")).
  f_equal. symmetry. apply string_app_assoc.
Qed.

End ConfigRuns.

Lemma validated_config_builds_auth_witness :
  Config._build_auth Fixtures.key_files Fixtures.sandbox_config
  = Config.Ok (Config.UseOAuth2 Fixtures.sandbox_strategy).
Proof.
  destruct (validated_config_builds_auth Fixtures.key_files
              Fixtures.sandbox_config eq_refl)
    as [[t [Ht _]] | [o [_ [Ho H]]]].
  - discriminate Ht.
  - injection Ho as <-. exact H.
Defined.

Lemma token_url_ignores_base_url_witness :
  Config._token_url Fixtures.sandbox_strategy
  = "https://123456-sb1.suitetalk.api.netsuite.com/services/rest/auth/oauth2/v1/token".
Proof.
  exact (token_url_ignores_base_url Fixtures.key_files
           Fixtures.sandbox_config Fixtures.sandbox_strategy eq_refl).
Defined.

Lemma bearer_header (cache : OAuth2.OAuth2Auth) (request : TBA.Request) :
  Httpx.get "Authorization"
    (TBA.headers (OAuth2Flow.with_bearer cache request))
  = Some (OAuth2Flow.bearer cache).
Proof.
  unfold OAuth2Flow.with_bearer. cbn [TBA.headers]. apply header_get_set.
Qed.

Lemma valid_has_token (cache : OAuth2.OAuth2Auth) (now : Q) :
  OAuth2._is_token_valid cache now = true ->
  exists t, OAuth2._access_token cache = Some t.
Proof.
  unfold OAuth2._is_token_valid.
  destruct (OAuth2._access_token cache) as [t |]; [eauto | discriminate].
Qed.

Lemma stored_valid (cache : OAuth2.OAuth2Auth) (now : Q) (tok : string)
    (e : option Z) (t : Q) :
  OAuth2._is_token_valid (OAuth2._store_token cache now tok e) t
  = Qltb t (now + inject_Z (default 3600%Z e) - 60).
Proof. reflexivity. Qed.

Section FlowRuns.

Variable jwt_encode :
  OAuth2Flow.JwtPayload -> string -> string -> OAuth2Flow.JwtHeaders -> string.

Lemma flow_valid (self : Config.OAuth2Strategy) (rd : OAuth2Flow.Readings)
    (token : OAuth2Flow.TokenData) (request : TBA.Request) :
  OAuth2._is_token_valid (Config.cache self) (OAuth2Flow.now_check rd)
  = true ->
  OAuth2Flow.sync_auth_flow jwt_encode self rd token request
  = ([OAuth2Flow.Send (OAuth2Flow.with_bearer (Config.cache self) request)],
     self).
Proof.
  intros H. unfold OAuth2Flow.sync_auth_flow. rewrite H. reflexivity.
Qed.

Lemma flow_stale (self : Config.OAuth2Strategy) (rd : OAuth2Flow.Readings)
    (token : OAuth2Flow.TokenData) (request : TBA.Request) :
  OAuth2._is_token_valid (Config.cache self) (OAuth2Flow.now_check rd)
  = false ->
  OAuth2Flow.sync_auth_flow jwt_encode self rd token request
  = ([OAuth2Flow.Exchange (OAuth2Flow._build_token_request jwt_encode self rd);
      OAuth2Flow.Send
        (OAuth2Flow.with_bearer
           (OAuth2._store_token (Config.cache self)
              (OAuth2Flow.now_store rd) (OAuth2Flow.access_token token)
              (OAuth2Flow.expires_in token)) request)],
     {| Config._config := Config._config self;
        Config._account_id := Config._account_id self;
        Config._private_key := Config._private_key self;
        Config.cache :=
          OAuth2._store_token (Config.cache self)
            (OAuth2Flow.now_store rd) (OAuth2Flow.access_token token)
            (OAuth2Flow.expires_in token) |}).
Proof.
  intros H. unfold OAuth2Flow.sync_auth_flow. rewrite H. reflexivity.
Qed.

(** Whatever the state of the cache and the clock, one run of the flow
    sends the caller's request exactly once, after at most one token
    exchange, with method, URL and body untouched and with the token the
    cache holds afterwards as bearer token: the header is never built from
    an empty cache. *)
Theorem flow_sends_one_bearer_request (self : Config.OAuth2Strategy)
    (rd : OAuth2Flow.Readings) (token : OAuth2Flow.TokenData)
    (request : TBA.Request) :
  exists q t,
    sent (OAuth2Flow.sync_auth_flow jwt_encode self rd token request).1 = [q]
    /\ (exchanges
          (OAuth2Flow.sync_auth_flow jwt_encode self rd token request).1
        <= 1)%nat
    /\ OAuth2._access_token
         (Config.cache
            (OAuth2Flow.sync_auth_flow jwt_encode self rd token request).2)
       = Some t
    /\ Httpx.get "Authorization" (TBA.headers q) = Some ("Bearer " +:+ t)
    /\ TBA.method q = TBA.method request
    /\ TBA.url q = TBA.url request
    /\ TBA.content q = TBA.content request.
Proof.
  unfold OAuth2Flow.sync_auth_flow.
  destruct (OAuth2._is_token_valid (Config.cache self)
              (OAuth2Flow.now_check rd)) eqn:Hv.
  - destruct (valid_has_token _ _ Hv) as [t Ht].
    exists (OAuth2Flow.with_bearer (Config.cache self) request), t.
    cbn [fst snd sent exchanges].
    repeat split; try reflexivity; try lia; try exact Ht.
    rewrite bearer_header. unfold OAuth2Flow.bearer. rewrite Ht. reflexivity.
  - eexists _, (OAuth2Flow.access_token token).
    cbn [fst snd sent exchanges Config.cache].
    repeat split; try reflexivity; try lia.
    rewrite bearer_header. reflexivity.
Qed.

(** After a run that had to fetch a token, a later run whose clock reads
    less than the time of storing plus the lifetime minus 60 seconds makes
    no exchange: it sends the request alone, with the stored token, and
    leaves the strategy as it was. *)
Theorem refreshed_token_reused (self : Config.OAuth2Strategy)
    (rd1 rd2 : OAuth2Flow.Readings) (tok1 tok2 : OAuth2Flow.TokenData)
    (req1 req2 : TBA.Request) :
  OAuth2._is_token_valid (Config.cache self) (OAuth2Flow.now_check rd1)
  = false ->
  (OAuth2Flow.now_check rd2
   < OAuth2Flow.now_store rd1
     + inject_Z (default 3600%Z (OAuth2Flow.expires_in tok1)) - 60)%Q ->
  let r1 := OAuth2Flow.sync_auth_flow jwt_encode self rd1 tok1 req1 in
  let r2 := OAuth2Flow.sync_auth_flow jwt_encode r1.2 rd2 tok2 req2 in
  exchanges r1.1 = 1%nat
  /\ exchanges r2.1 = 0%nat
  /\ r2.2 = r1.2
  /\ exists q,
       r2.1 = [OAuth2Flow.Send q]
       /\ Httpx.get "Authorization" (TBA.headers q)
          = Some ("Bearer " +:+ OAuth2Flow.access_token tok1).
Proof.
  intros Hv Hlt r1 r2. subst r2 r1.
  rewrite (flow_stale self rd1 tok1 req1 Hv). cbn [fst snd].
  rewrite flow_valid.
  - cbn [fst snd exchanges]. repeat split.
    eexists. split; [reflexivity |].
    rewrite bearer_header. reflexivity.
  - cbn [Config.cache]. rewrite stored_valid. apply Qltb_lt. exact Hlt.
Qed.

(** After a run that had to fetch a token, a later run whose clock reads
    the time of storing plus the lifetime minus 60 seconds, or more,
    fetches a token again before it sends the request, and signs with the
    new token; so a token that lives 60 seconds or less is never used
    twice. *)
Theorem expired_token_exchanged_again (self : Config.OAuth2Strategy)
    (rd1 rd2 : OAuth2Flow.Readings) (tok1 tok2 : OAuth2Flow.TokenData)
    (req1 req2 : TBA.Request) :
  OAuth2._is_token_valid (Config.cache self) (OAuth2Flow.now_check rd1)
  = false ->
  (OAuth2Flow.now_store rd1
   + inject_Z (default 3600%Z (OAuth2Flow.expires_in tok1)) - 60
   <= OAuth2Flow.now_check rd2)%Q ->
  let r1 := OAuth2Flow.sync_auth_flow jwt_encode self rd1 tok1 req1 in
  let r2 := OAuth2Flow.sync_auth_flow jwt_encode r1.2 rd2 tok2 req2 in
  exists q,
    r2.1 = [OAuth2Flow.Exchange
              (OAuth2Flow._build_token_request jwt_encode r1.2 rd2);
            OAuth2Flow.Send q]
    /\ Httpx.get "Authorization" (TBA.headers q)
       = Some ("Bearer " +:+ OAuth2Flow.access_token tok2)
    /\ OAuth2._access_token (Config.cache r2.2)
       = Some (OAuth2Flow.access_token tok2).
Proof.
  intros Hv Hge r1 r2. subst r2 r1.
  rewrite (flow_stale self rd1 tok1 req1 Hv). cbn [fst snd].
  rewrite flow_stale.
  - cbn [fst snd Config.cache].
    eexists. split; [reflexivity |]. split; [| reflexivity].
    rewrite bearer_header. reflexivity.
  - cbn [Config.cache]. rewrite stored_valid. apply Qltb_ge. exact Hge.
Qed.

(** A strategy that [_build_auth] has just made holds no token, so its
    first run fetches one whatever the clock reads: it posts the client
    credentials grant to the token endpoint of the account and then sends
    the request with the token of the answer. *)
Theorem fresh_strategy_exchanges_first
    (read_text : string -> option string)
    (config : Config.NetSuiteConfig) (auth : Config.OAuth2Strategy)
    (rd : OAuth2Flow.Readings) (token : OAuth2Flow.TokenData)
    (request : TBA.Request) :
  Config._build_auth read_text config = Config.Ok (Config.UseOAuth2 auth) ->
  exists t q,
    (OAuth2Flow.sync_auth_flow jwt_encode auth rd token request).1
    = [OAuth2Flow.Exchange t; OAuth2Flow.Send q]
    /\ OAuth2Flow.token_method t = "POST"
    /\ OAuth2Flow.token_url t = Config._token_url auth
    /\ dict_lookup "grant_type" (OAuth2Flow.token_data t)
       = Some "client_credentials"
    /\ Httpx.get "Authorization" (TBA.headers q)
       = Some ("Bearer " +:+ OAuth2Flow.access_token token).
Proof.
  unfold Config._build_auth, Config.OAuth2Auth_init.
  destruct (Config.tba config) as [t |]; [discriminate |].
  destruct (Config.oauth2 config) as [o |]; [| discriminate].
  destruct (read_text (Config.private_key_path o)) as [key |];
    [| discriminate].
  intros H. injection H as <-.
  unfold OAuth2Flow.sync_auth_flow.
  cbn [Config.cache]. unfold OAuth2._is_token_valid, OAuth2.init.
  cbn [OAuth2._access_token fst].
  eexists _, _. split; [reflexivity |].
  repeat split.
  rewrite bearer_header. reflexivity.
Qed.

End FlowRuns.

Lemma refreshed_token_reused_witness :
  exists q,
    (OAuth2Flow.sync_auth_flow Fixtures.plain_jwt
       (OAuth2Flow.sync_auth_flow Fixtures.plain_jwt
          Fixtures.sandbox_strategy (Fixtures.readings_at 1000 "a")
          (Fixtures.token_of "tok-1" (Some 600%Z))
          Fixtures.customers_request).2
       (Fixtures.readings_at 1539 "b")
       (Fixtures.token_of "tok-2" None) Fixtures.customers_request).1
    = [OAuth2Flow.Send q]
    /\ Httpx.get "Authorization" (TBA.headers q) = Some "Bearer tok-1".
Proof.
  apply (refreshed_token_reused Fixtures.plain_jwt
           Fixtures.sandbox_strategy
           (Fixtures.readings_at 1000 "a") (Fixtures.readings_at 1539 "b")
           (Fixtures.token_of "tok-1" (Some 600%Z))
           (Fixtures.token_of "tok-2" None)
           Fixtures.customers_request Fixtures.customers_request);
    reflexivity.
Defined.

Lemma expired_token_exchanged_again_witness :
  exists q,
    (OAuth2Flow.sync_auth_flow Fixtures.plain_jwt
       (OAuth2Flow.sync_auth_flow Fixtures.plain_jwt
          Fixtures.sandbox_strategy (Fixtures.readings_at 1000 "a")
          (Fixtures.token_of "tok-1" (Some 60%Z))
          Fixtures.customers_request).2
       (Fixtures.readings_at 1000 "b")
       (Fixtures.token_of "tok-2" None) Fixtures.customers_request).1
    = [OAuth2Flow.Exchange
         (OAuth2Flow._build_token_request Fixtures.plain_jwt
            (OAuth2Flow.sync_auth_flow Fixtures.plain_jwt
               Fixtures.sandbox_strategy (Fixtures.readings_at 1000 "a")
               (Fixtures.token_of "tok-1" (Some 60%Z))
               Fixtures.customers_request).2
            (Fixtures.readings_at 1000 "b"));
       OAuth2Flow.Send q]
    /\ Httpx.get "Authorization" (TBA.headers q) = Some "Bearer tok-2"
    /\ OAuth2._access_token
         (Config.cache
            (OAuth2Flow.sync_auth_flow Fixtures.plain_jwt
               (OAuth2Flow.sync_auth_flow Fixtures.plain_jwt
                  Fixtures.sandbox_strategy (Fixtures.readings_at 1000 "a")
                  (Fixtures.token_of "tok-1" (Some 60%Z))
                  Fixtures.customers_request).2
               (Fixtures.readings_at 1000 "b")
               (Fixtures.token_of "tok-2" None) Fixtures.customers_request).2)
       = Some "tok-2".
Proof.
  apply (expired_token_exchanged_again Fixtures.plain_jwt
           Fixtures.sandbox_strategy
           (Fixtures.readings_at 1000 "a") (Fixtures.readings_at 1000 "b")
           (Fixtures.token_of "tok-1" (Some 60%Z))
           (Fixtures.token_of "tok-2" None)
           Fixtures.customers_request Fixtures.customers_request);
    [reflexivity | vm_compute; discriminate].
Defined.

Lemma fresh_strategy_exchanges_first_witness :
  exists t q,
    (OAuth2Flow.sync_auth_flow Fixtures.plain_jwt Fixtures.sandbox_strategy
       (Fixtures.readings_at 1000 "a") (Fixtures.token_of "tok-1" None)
       Fixtures.customers_request).1
    = [OAuth2Flow.Exchange t; OAuth2Flow.Send q]
    /\ OAuth2Flow.token_method t = "POST"
    /\ OAuth2Flow.token_url t = Config._token_url Fixtures.sandbox_strategy
    /\ dict_lookup "grant_type" (OAuth2Flow.token_data t)
       = Some "client_credentials"
    /\ Httpx.get "Authorization" (TBA.headers q) = Some "Bearer tok-1".
Proof.
  apply (fresh_strategy_exchanges_first Fixtures.plain_jwt
           Fixtures.key_files Fixtures.sandbox_config
           Fixtures.sandbox_strategy (Fixtures.readings_at 1000 "a")
           (Fixtures.token_of "tok-1" None) Fixtures.customers_request).
  reflexivity.
Defined.
